(** * backend/app.py: the e-commerce backend, embedded and verified

    The Flask handlers of [backend/app.py] are embedded as functions in a
    small exception-and-state monad over a [world]: the database server
    (reachability of each connection attempt, the committed tables, the
    clock), the connections currently open, each with the view of its
    transaction, and the trace of what the process did (connection attempts,
    sleeps, commits, closes).  [json.dumps] and [json.loads] are embedded at
    the level of the text they write and read.

    What is outside the model: [print] calls (they only write to the log),
    the HTTP framing done by Flask, the conversion of a bound parameter to
    the column type by the server and the column length and range limits,
    which depend on the server's SQL mode.  A [JSON] column returns the
    document text it was given; the server's own spacing and key order are
    not modelled.  A Python [float] is modelled by the decimal digits of its
    [repr]; rounding of longer literals to binary64 is not modelled.  A
    character of a [str] is a code point below 256. *)

From Stdlib Require Import ZArith List String Ascii Bool Lia Arith.
From Stdlib Require Import Sorted Permutation.
From Stdlib Require DecimalN.
#[local] Set Warnings "-register-all".
Import ListNotations.

Local Open Scope string_scope.
Local Open Scope Z_scope.

(* ===================================================================== *)
(** ** Python values *)
(* ===================================================================== *)

(** A Python [float]: the digits and the position of the decimal point that
    [repr] prints, i.e. the value [0.d1 d2 ... dn * 10 ^ decpt]. *)
Inductive pyfloat : Type :=
| FNan
| FInf (neg : bool)
| FFin (neg : bool) (digits : list nat) (decpt : Z).

(** What [request.get_json()] returns: the Python value of a JSON text.
    A [dict] keeps its keys in insertion order. *)
Inductive json : Type :=
| JNull
| JBool (b : bool)
| JInt (n : Z)
| JFloat (f : pyfloat)
| JStr (s : string)
| JList (l : list json)
| JDict (kvs : list (string * json)).

Definition float_is_zero (f : pyfloat) : bool :=
  match f with
  | FFin _ ds _ => forallb (Nat.eqb 0) ds
  | _ => false
  end.

(** Python truth value ([bool(x)], as used by [not x]). *)
Definition py_truthy (v : json) : bool :=
  match v with
  | JNull => false
  | JBool b => b
  | JInt n => negb (n =? 0)
  | JFloat f => negb (float_is_zero f)
  | JStr s => negb (String.eqb s "")
  | JList l => match l with [] => false | _ => true end
  | JDict kvs => match kvs with [] => false | _ => true end
  end.

(** Lookup in a [dict]. *)
Fixpoint dict_lookup (k : string) (kvs : list (string * json)) : option json :=
  match kvs with
  | [] => None
  | (k', v) :: rest => if String.eqb k k' then Some v else dict_lookup k rest
  end.

Definition dict_has (k : string) (kvs : list (string * json)) : bool :=
  match dict_lookup k kvs with Some _ => true | None => false end.

(* ===================================================================== *)
(** ** Exceptions, the world and the monad of handlers *)
(* ===================================================================== *)

Inductive exn_class : Type :=
| OperationalError | ProgrammingError | IntegrityError | DataError
| InterfaceError | ValueError | TypeError | AttributeError | KeyError
| OverflowError | JSONDecodeError.

Record exn : Type := mkExn { exn_kind : exn_class; exn_msg : string }.

(** [str(e)] *)
Definition str_of_exn (e : exn) : string := exn_msg e.

Inductive outcome (A : Type) : Type :=
| Ok (a : A)
| Raise (e : exn).
Arguments Ok {A} a.
Arguments Raise {A} e.

(** A [TIMESTAMP] value as the server returns it. *)
Record timestamp : Type := mkTs {
  ts_year : Z; ts_month : Z; ts_day : Z;
  ts_hour : Z; ts_minute : Z; ts_second : Z
}.

(** A value bound to a [%s] placeholder, after the driver has escaped it. *)
Inductive sqlval : Type :=
| SqlNull
| SqlInt (n : Z)
| SqlFloat (f : pyfloat)
| SqlStr (s : string).

Record product : Type := mkProduct {
  p_id : Z;
  p_name : sqlval;
  p_description : sqlval;
  p_price : sqlval;
  p_image_url : sqlval;
  p_category : sqlval;
  p_stock_quantity : sqlval;
  p_created_at : timestamp
}.

Record order : Type := mkOrder {
  o_id : Z;
  o_customer_name : sqlval;
  o_customer_email : sqlval;
  o_customer_phone : sqlval;
  o_customer_address : sqlval;
  o_total_amount : sqlval;
  o_items : string;          (* the JSON column holds a document text *)
  o_status : sqlval;
  o_created_at : timestamp
}.

(** A table with an [AUTO_INCREMENT] key. *)
Record table (A : Type) : Type := mkTable {
  t_rows : list A;
  t_next_id : Z
}.
Arguments mkTable {A} _ _.
Arguments t_rows {A} _.
Arguments t_next_id {A} _.

(** The schema [e_commerce_db]; [None] is a table that does not exist. *)
Record database : Type := mkDb {
  db_products : option (table product);
  db_orders : option (table order)
}.

Inductive event : Type :=
| EvConnect (attempt : nat) (ok : bool)
| EvSleep (seconds : Z)
| EvCommit (conn_id : nat)
| EvClose (conn_id : nat).

Record world : Type := mkWorld {
  w_connect : nat -> option string;   (* None: the n-th attempt connects *)
  w_attempts : nat;                   (* connection attempts made so far *)
  w_now : timestamp;                  (* CURRENT_TIMESTAMP *)
  w_db : database;                    (* committed state *)
  w_open : list (nat * database);     (* open connections, each with its
                                         transaction's view of the tables *)
  w_trace : list event                (* what happened, oldest first *)
}.

Definition M (A : Type) : Type := world -> outcome A * world.

Definition ret {A} (a : A) : M A := fun w => (Ok a, w).
Definition raise {A} (e : exn) : M A := fun w => (Raise e, w).
Definition bind {A B} (m : M A) (k : A -> M B) : M B :=
  fun w => match m w with
           | (Ok a, w') => k a w'
           | (Raise e, w') => (Raise e, w')
           end.
(** [try: m except Exception as e: h e] *)
Definition try_except {A} (m : M A) (h : exn -> M A) : M A :=
  fun w => match m w with
           | (Ok a, w') => (Ok a, w')
           | (Raise e, w') => h e w'
           end.
(** [try: m finally: f] *)
Definition try_finally {A} (m : M A) (f : M unit) : M A :=
  fun w => match m w with
           | (r, w') => match f w' with
                        | (Ok _, w'') => (r, w'')
                        | (Raise e, w'') => (Raise e, w'')
                        end
           end.
Definition lift {A} (r : outcome A) : M A := fun w => (r, w).

Declare Scope py_scope.
Delimit Scope py_scope with py.
Notation "x <- m ;; k" := (bind m (fun x => k))
  (at level 61, m at next level, right associativity) : py_scope.
Notation "m ;;; k" := (bind m (fun _ => k))
  (at level 61, right associativity) : py_scope.
Local Open Scope py_scope.

Definition emit (e : event) : M unit :=
  fun w => (Ok tt, mkWorld (w_connect w) (w_attempts w) (w_now w) (w_db w)
                           (w_open w) (w_trace w ++ [e])%list).

(* ===================================================================== *)
(** ** Connection manager *)
(* ===================================================================== *)

(** A [pymysql] connection object. *)
Record connection : Type := mkConn { c_id : nat }.

(** [pymysql.connect] with the configuration of [get_db_config]. *)
Definition pymysql_connect : M connection :=
  fun w =>
    let n := w_attempts w in
    match w_connect w n with
    | None =>
        (Ok (mkConn n),
         mkWorld (w_connect w) (S n) (w_now w) (w_db w)
                 ((n, w_db w) :: w_open w)
                 (w_trace w ++ [EvConnect n true])%list)
    | Some msg =>
        (Raise (mkExn OperationalError msg),
         mkWorld (w_connect w) (S n) (w_now w) (w_db w)
                 (w_open w) (w_trace w ++ [EvConnect n false])%list)
    end.

(** [time.sleep(s)] *)
Definition time_sleep (s : Z) : M unit := emit (EvSleep s).

(** The body of [for attempt in range(max_retries)], over the attempts still
    to run; a loop that runs out returns [None]. *)
Fixpoint get_db_connection_loop (max_retries : nat) (attempts : list nat)
  : M (option connection) :=
  match attempts with
  | [] => ret None
  | attempt :: rest =>
      try_except
        (c <- pymysql_connect ;; ret (Some c))
        (fun e =>
           if (attempt <? max_retries - 1)%nat
           then time_sleep 5 ;;; get_db_connection_loop max_retries rest
           else raise e)
  end.

Definition get_db_connection : M (option connection) :=
  let max_retries := 5%nat in
  get_db_connection_loop max_retries (seq 0 max_retries).

(* ===================================================================== *)
(** ** Python built-ins used by the handlers *)
(* ===================================================================== *)

Definition is_digit (c : ascii) : bool :=
  ((48 <=? nat_of_ascii c) && (nat_of_ascii c <=? 57))%nat.
Definition digit_val (c : ascii) : nat := (nat_of_ascii c - 48)%nat.
Definition digit_char (d : nat) : ascii := ascii_of_nat (48 + d).

Fixpoint string_of_digits (ds : list nat) : string :=
  match ds with
  | [] => EmptyString
  | d :: ds' => String (digit_char d) (string_of_digits ds')
  end.

(** The longest prefix of decimal digits. *)
Fixpoint scan_digits (s : string) : list nat * string :=
  match s with
  | String c s' =>
      if is_digit c
      then let (ds, r) := scan_digits s' in (digit_val c :: ds, r)
      else ([], s)
  | EmptyString => ([], s)
  end.

(** Digits between a list and [Decimal.uint], whose conversions to and from
    numbers the Standard Library provides. *)
Fixpoint digits_of_uint (u : Decimal.uint) : list nat :=
  match u with
  | Decimal.Nil => []
  | Decimal.D0 u => 0%nat :: digits_of_uint u
  | Decimal.D1 u => 1%nat :: digits_of_uint u
  | Decimal.D2 u => 2%nat :: digits_of_uint u
  | Decimal.D3 u => 3%nat :: digits_of_uint u
  | Decimal.D4 u => 4%nat :: digits_of_uint u
  | Decimal.D5 u => 5%nat :: digits_of_uint u
  | Decimal.D6 u => 6%nat :: digits_of_uint u
  | Decimal.D7 u => 7%nat :: digits_of_uint u
  | Decimal.D8 u => 8%nat :: digits_of_uint u
  | Decimal.D9 u => 9%nat :: digits_of_uint u
  end.

Fixpoint uint_of_digits (ds : list nat) : Decimal.uint :=
  match ds with
  | [] => Decimal.Nil
  | d :: ds' =>
      let u := uint_of_digits ds' in
      match d with
      | 0 => Decimal.D0 u | 1 => Decimal.D1 u | 2 => Decimal.D2 u
      | 3 => Decimal.D3 u | 4 => Decimal.D4 u | 5 => Decimal.D5 u
      | 6 => Decimal.D6 u | 7 => Decimal.D7 u | 8 => Decimal.D8 u
      | _ => Decimal.D9 u
      end%nat
  end.

Definition digits_of_N (n : N) : list nat := digits_of_uint (N.to_uint n).
Definition N_of_digits (ds : list nat) : N := N.of_uint (uint_of_digits ds).

(** [str(n)] for an [int]. *)
Definition int_repr (n : Z) : string :=
  (if n <? 0 then "-" else "") ++ string_of_digits (digits_of_N (Z.abs_N n)).

Fixpoint strip_leading_zeros (ds : list nat) : list nat :=
  match ds with
  | 0%nat :: ds' => strip_leading_zeros ds'
  | _ => ds
  end.

Definition strip_trailing_zeros (ds : list nat) : list nat :=
  rev (strip_leading_zeros (rev ds)).

(** The threshold at which rounding to binary64 overflows: half an ulp below
    [2 ^ 1024]. *)
Definition float_overflow_threshold : Z := 2 ^ 1024 - 2 ^ 970.

(** [0.ds * 10 ^ decpt] rounds to infinity. *)
Definition float_overflows (ds : list nat) (decpt : Z) : bool :=
  let d := Z.of_N (N_of_digits ds) in
  let k := decpt - Z.of_nat (List.length ds) in
  if 0 <=? k then float_overflow_threshold <=? d * 10 ^ k
  else float_overflow_threshold * 10 ^ (- k) <=? d.

(** [0.ds * 10 ^ decpt] rounds to zero: it is at most half the least
    subnormal, [2 ^ -1075]. *)
Definition float_underflows (ds : list nat) (decpt : Z) : bool :=
  let d := Z.of_N (N_of_digits ds) in
  let k := decpt - Z.of_nat (List.length ds) in
  if 0 <=? k then false
  else d * 2 ^ 1075 <=? 10 ^ (- k).

Definition float_zero (neg : bool) : pyfloat := FFin neg [0%nat] 1.

(** The float written [ipart . fpart e exp]. *)
Definition float_of_parts (neg : bool) (ipart fpart : list nat) (exp : Z)
  : pyfloat :=
  let all := (ipart ++ fpart)%list in
  let nz := strip_leading_zeros all in
  let lz := (List.length all - List.length nz)%nat in
  match strip_trailing_zeros nz with
  | [] => float_zero neg
  | ds =>
      let decpt := Z.of_nat (List.length ipart) - Z.of_nat lz + exp in
      if float_overflows ds decpt then FInf neg
      else if float_underflows ds decpt then float_zero neg
      else FFin neg ds decpt
  end.

(** [float(n)] for an [int]: [OverflowError] past the binary64 range. *)
Definition float_of_int (n : Z) : outcome pyfloat :=
  if float_overflow_threshold <=? Z.abs n
  then Raise (mkExn OverflowError "int too large to convert to float")
  else Ok (float_of_parts (n <? 0) (digits_of_N (Z.abs_N n)) [] 0).

(** Characters that [float] strips from both ends of a [str]. *)
Definition is_py_space (c : ascii) : bool :=
  let n := nat_of_ascii c in
  ((9 <=? n) && (n <=? 13) || (28 <=? n) && (n <=? 32)
   || (n =? 133) || (n =? 160))%nat.

Fixpoint lstrip (s : string) : string :=
  match s with
  | String c s' => if is_py_space c then lstrip s' else s
  | EmptyString => s
  end.

Fixpoint string_rev_onto (s acc : string) : string :=
  match s with
  | EmptyString => acc
  | String c s' => string_rev_onto s' (String c acc)
  end.
Definition string_rev (s : string) : string := string_rev_onto s EmptyString.

(** [s.strip()] *)
Definition py_strip (s : string) : string :=
  string_rev (lstrip (string_rev (lstrip s))).

Definition ascii_lower (c : ascii) : ascii :=
  let n := nat_of_ascii c in
  if ((65 <=? n) && (n <=? 90))%nat then ascii_of_nat (n + 32) else c.

Fixpoint string_lower (s : string) : string :=
  match s with
  | EmptyString => EmptyString
  | String c s' => String (ascii_lower c) (string_lower s')
  end.

(** A [digitpart] of a float literal: digits, with single underscores
    allowed between two digits. *)
Fixpoint scan_digitpart (s : string) : list nat * string :=
  match s with
  | String c s' =>
      if is_digit c then
        match s' with
        | String "_"%char t =>
            match t with
            | String c2 _ =>
                if is_digit c2
                then let (ds, r) := scan_digitpart t in (digit_val c :: ds, r)
                else ([digit_val c], s')
            | EmptyString => ([digit_val c], s')
            end
        | _ => let (ds, r) := scan_digitpart s' in (digit_val c :: ds, r)
        end
      else ([], s)
  | EmptyString => ([], s)
  end.

Definition scan_sign (s : string) : bool * string :=
  match s with
  | String "-"%char s' => (true, s')
  | String "+"%char s' => (false, s')
  | _ => (false, s)
  end.

(** The exponent of a float literal, if one starts here: [e], an optional
    sign and at least one digit.  [digitpart] is the scanner of the digits. *)
Definition scan_exponent (digitpart : string -> list nat * string) (s : string)
  : option (Z * string) :=
  match s with
  | String c s' =>
      if (Ascii.eqb c "e"%char || Ascii.eqb c "E"%char)%bool then
        let (neg, s1) := scan_sign s' in
        match digitpart s1 with
        | ([], _) => None
        | (ds, r) =>
            let e := Z.of_N (N_of_digits ds) in
            Some (if neg then - e else e, r)
        end
      else None
  | EmptyString => None
  end.

(** [float(s)] for a [str]: [None] is a [ValueError]. *)
Definition float_of_string (s : string) : option pyfloat :=
  let (neg, body) := scan_sign (py_strip s) in
  let low := string_lower body in
  if (String.eqb low "inf" || String.eqb low "infinity")%bool then Some (FInf neg)
  else if String.eqb low "nan" then Some FNan
  else
    let (ip, r1) := scan_digitpart body in
    let (fp, r2) :=
      match r1 with
      | String "."%char r => scan_digitpart r
      | _ => ([], r1)
      end in
    match (ip ++ fp)%list with
    | [] => None
    | _ =>
        let (e, r3) :=
          match scan_exponent scan_digitpart r2 with
          | Some (e, r) => (e, r)
          | None => (0, r2)
          end in
        match r3 with
        | EmptyString => Some (float_of_parts neg ip fp e)
        | _ => None
        end
    end.

Definition type_name (v : json) : string :=
  match v with
  | JNull => "NoneType" | JBool _ => "bool" | JInt _ => "int"
  | JFloat _ => "float" | JStr _ => "str" | JList _ => "list"
  | JDict _ => "dict"
  end.

(** [float(v)] *)
Definition py_float (v : json) : outcome pyfloat :=
  match v with
  | JBool b => Ok (if b then FFin false [1%nat] 1 else float_zero false)
  | JInt n => float_of_int n
  | JFloat f => Ok f
  | JStr s =>
      match float_of_string s with
      | Some f => Ok f
      | None =>
          Raise (mkExn ValueError
                   ("could not convert string to float: '" ++ s ++ "'"))
      end
  | _ =>
      Raise (mkExn TypeError
               ("float() argument must be a string or a real number, not '"
                  ++ type_name v ++ "'"))
  end.

(* ===================================================================== *)
(** ** [json.dumps] and [json.loads] *)
(* ===================================================================== *)

Definition dquote : ascii := "034"%char.
Definition backslash : ascii := "092"%char.

Definition pad2 (ds : list nat) : list nat :=
  match ds with
  | [d] => [0%nat; d]
  | _ => ds
  end.

(** [repr] of a positive finite float with digits [ds] and decimal point at
    [decpt]: exponent notation when [decpt <= -4] or [decpt > 16]. *)
Definition float_repr_digits (ds : list nat) (decpt : Z) : string :=
  let n := Z.of_nat (List.length ds) in
  if ((decpt <=? -4) || (16 <? decpt))%bool then
    match ds with
    | [] => ""
    | d :: tl =>
        String (digit_char d)
          (match tl with
           | [] => ""
           | _ => "." ++ string_of_digits tl
           end)
        ++ "e" ++ (if decpt - 1 <? 0 then "-" else "+")
        ++ string_of_digits (pad2 (digits_of_N (Z.abs_N (decpt - 1))))
    end
  else if decpt <=? 0 then
    "0." ++ string_of_digits (repeat 0%nat (Z.to_nat (- decpt)))
         ++ string_of_digits ds
  else if n <=? decpt then
    string_of_digits ds
      ++ string_of_digits (repeat 0%nat (Z.to_nat (decpt - n))) ++ ".0"
  else
    string_of_digits (firstn (Z.to_nat decpt) ds) ++ "."
      ++ string_of_digits (skipn (Z.to_nat decpt) ds).

(** [repr] of a finite float. *)
Definition float_repr_finite (neg : bool) (ds : list nat) (decpt : Z) : string :=
  (if neg then "-" else "") ++ float_repr_digits ds decpt.

(** How the encoder writes a float ([allow_nan] is on by default). *)
Definition json_floatstr (f : pyfloat) : string :=
  match f with
  | FNan => "NaN"
  | FInf false => "Infinity"
  | FInf true => "-Infinity"
  | FFin neg ds decpt => float_repr_finite neg ds decpt
  end.

Definition hex_char (n : nat) : ascii :=
  if (n <? 10)%nat then ascii_of_nat (48 + n) else ascii_of_nat (87 + n).

(** One character of a string under [ensure_ascii]. *)
Definition escape_char (c : ascii) : string :=
  let n := nat_of_ascii c in
  if (n =? 34)%nat then String backslash (String dquote "")
  else if (n =? 92)%nat then String backslash (String backslash "")
  else if (n =? 10)%nat then String backslash "n"
  else if (n =? 13)%nat then String backslash "r"
  else if (n =? 9)%nat then String backslash "t"
  else if (n =? 8)%nat then String backslash "b"
  else if (n =? 12)%nat then String backslash "f"
  else if ((32 <=? n) && (n <=? 126))%nat%bool then String c ""
  else String backslash
         ("u00" ++ String (hex_char (n / 16)) (String (hex_char (n mod 16)) "")).

Fixpoint escape_string (s : string) : string :=
  match s with
  | EmptyString => ""
  | String c s' => escape_char c ++ escape_string s'
  end.

Definition dumps_string (s : string) : string :=
  String dquote (escape_string s ++ String dquote "").

(** [json.dumps(v)] with the default separators [", "] and [": "]. *)
Fixpoint json_dumps (v : json) : string :=
  match v with
  | JNull => "null"
  | JBool true => "true"
  | JBool false => "false"
  | JInt n => int_repr n
  | JFloat f => json_floatstr f
  | JStr s => dumps_string s
  | JList l =>
      "[" ++
      (fix elements (l : list json) : string :=
         match l with
         | [] => ""
         | x :: rest =>
             json_dumps x ++
             match rest with
             | [] => ""
             | _ => ", " ++ elements rest
             end
         end) l ++ "]"
  | JDict kvs =>
      "{" ++
      (fix members (kvs : list (string * json)) : string :=
         match kvs with
         | [] => ""
         | (k, x) :: rest =>
             dumps_string k ++ ": " ++ json_dumps x ++
             match rest with
             | [] => ""
             | _ => ", " ++ members rest
             end
         end) kvs ++ "}"
  end.

Definition is_json_ws (c : ascii) : bool :=
  let n := nat_of_ascii c in
  ((n =? 32) || (n =? 9) || (n =? 10) || (n =? 13))%nat.

Fixpoint skip_ws (s : string) : string :=
  match s with
  | String c s' => if is_json_ws c then skip_ws s' else s
  | EmptyString => s
  end.

Definition hex_val (c : ascii) : option nat :=
  let n := nat_of_ascii c in
  if ((48 <=? n) && (n <=? 57))%nat%bool then Some (n - 48)%nat
  else if ((97 <=? n) && (n <=? 102))%nat%bool then Some (n - 87)%nat
  else if ((65 <=? n) && (n <=? 70))%nat%bool then Some (n - 55)%nat
  else None.

(** The character written [\uh1h2h3h4]; code points above 255 are outside the
    model of [str]. *)
Definition unicode_escape (h1 h2 h3 h4 : ascii) : option ascii :=
  match hex_val h1, hex_val h2, hex_val h3, hex_val h4 with
  | Some 0%nat, Some 0%nat, Some a, Some b => Some (ascii_of_nat (16 * a + b))
  | _, _, _, _ => None
  end.

(** The character an escape letter stands for. *)
Definition simple_escape (e : ascii) : option ascii :=
  let n := nat_of_ascii e in
  if (n =? 34)%nat then Some dquote
  else if (n =? 92)%nat then Some backslash
  else if (n =? 47)%nat then Some "/"%char
  else if (n =? 98)%nat then Some "008"%char
  else if (n =? 102)%nat then Some "012"%char
  else if (n =? 110)%nat then Some "010"%char
  else if (n =? 114)%nat then Some "013"%char
  else if (n =? 116)%nat then Some "009"%char
  else None.

(** [scanstring], after the opening quote (strict: no raw control
    characters). *)
Fixpoint scanstring (s : string) : option (string * string) :=
  match s with
  | EmptyString => None
  | String c s' =>
      if Ascii.eqb c dquote then Some ("", s')
      else if Ascii.eqb c backslash then
        match s' with
        | EmptyString => None
        | String e s'' =>
            if Ascii.eqb e "u"%char then
              match s'' with
              | String h1 (String h2 (String h3 (String h4 t))) =>
                  match unicode_escape h1 h2 h3 h4 with
                  | Some ch =>
                      match scanstring t with
                      | Some (r, rest) => Some (String ch r, rest)
                      | None => None
                      end
                  | None => None
                  end
              | _ => None
              end
            else
              match simple_escape e with
              | Some ch =>
                  match scanstring s'' with
                  | Some (r, rest) => Some (String ch r, rest)
                  | None => None
                  end
              | None => None
              end
        end
      else if (nat_of_ascii c <? 32)%nat then None
      else
        match scanstring s' with
        | Some (r, rest) => Some (String c r, rest)
        | None => None
        end
  end.

(** The integer part of a number: a single 0, or digits that do not start
    with 0. *)
Definition scan_int_part (s : string) : option (list nat * string) :=
  match s with
  | String c t =>
      if is_digit c
      then Some (if Ascii.eqb c "0"%char then ([0%nat], t) else scan_digits s)
      else None
  | EmptyString => None
  end.

(** The fraction of a number, if one starts here: a point and at least one
    digit. *)
Definition scan_fraction (s : string) : option (list nat * string) :=
  match s with
  | String "."%char r =>
      match scan_digits r with
      | ([], _) => None
      | (fp, r2) => Some (fp, r2)
      end
  | _ => None
  end.

(** A number after its sign: an [int] when it has neither fraction nor
    exponent, else a [float]. *)
Definition parse_number_body (neg : bool) (s : string)
  : option (json * string) :=
  match scan_int_part s with
  | None => None
  | Some (ip, r1) =>
      let frac := scan_fraction r1 in
      let r2 := match frac with Some (_, r) => r | None => r1 end in
      match frac, scan_exponent scan_digits r2 with
      | None, None =>
          let n := Z.of_N (N_of_digits ip) in
          Some (JInt (if neg then - n else n), r1)
      | Some (fp, _), None => Some (JFloat (float_of_parts neg ip fp 0), r2)
      | None, Some (e, r3) => Some (JFloat (float_of_parts neg ip [] e), r3)
      | Some (fp, _), Some (e, r3) =>
          Some (JFloat (float_of_parts neg ip fp e), r3)
      end
  end.

(** A number at the start of [s], by the decoder's pattern: an optional
    minus sign, the integer part, an optional fraction and an optional
    exponent. *)
Definition parse_number (s : string) : option (json * string) :=
  match s with
  | String "-"%char t => parse_number_body true t
  | _ => parse_number_body false s
  end.

Fixpoint strip_prefix (p s : string) : option string :=
  match p with
  | EmptyString => Some s
  | String a p' =>
      match s with
      | String b s' => if Ascii.eqb a b then strip_prefix p' s' else None
      | EmptyString => None
      end
  end.

(** [d[k] = v] *)
Fixpoint dict_set (k : string) (v : json) (kvs : list (string * json))
  : list (string * json) :=
  match kvs with
  | [] => [(k, v)]
  | (k', v') :: rest =>
      if String.eqb k k' then (k', v) :: rest
      else (k', v') :: dict_set k v rest
  end.

(** [dict(pairs)] *)
Definition dict_of_pairs (pairs : list (string * json)) : list (string * json) :=
  fold_left (fun d kv => dict_set (fst kv) (snd kv) d) pairs [].

(** A literal, a number or one of the constants the decoder accepts. *)
Definition parse_atom (s : string) : option (json * string) :=
  match strip_prefix "null" s with
  | Some r => Some (JNull, r)
  | None =>
  match strip_prefix "true" s with
  | Some r => Some (JBool true, r)
  | None =>
  match strip_prefix "false" s with
  | Some r => Some (JBool false, r)
  | None =>
  match parse_number s with
  | Some res => Some res
  | None =>
  match strip_prefix "NaN" s with
  | Some r => Some (JFloat FNan, r)
  | None =>
  match strip_prefix "Infinity" s with
  | Some r => Some (JFloat (FInf false), r)
  | None =>
  match strip_prefix "-Infinity" s with
  | Some r => Some (JFloat (FInf true), r)
  | None => None
  end end end end end end end.

(** The decoder's [scan_once], with its helpers for the elements of an array
    and the members of an object.  [fuel] bounds the nesting of calls. *)
Fixpoint parse_value (fuel : nat) (s : string) {struct fuel}
  : option (json * string) :=
  match fuel with
  | O => None
  | S fuel' =>
      match s with
      | EmptyString => None
      | String c t =>
          if Ascii.eqb c dquote then
            match scanstring t with
            | Some (str, r) => Some (JStr str, r)
            | None => None
            end
          else if Ascii.eqb c "{"%char then
            let t1 := skip_ws t in
            match strip_prefix "}" t1 with
            | Some r => Some (JDict [], r)
            | None =>
                match parse_members fuel' t1 with
                | Some (pairs, r) => Some (JDict (dict_of_pairs pairs), r)
                | None => None
                end
            end
          else if Ascii.eqb c "["%char then
            let t1 := skip_ws t in
            match strip_prefix "]" t1 with
            | Some r => Some (JList [], r)
            | None =>
                match parse_elements fuel' t1 with
                | Some (l, r) => Some (JList l, r)
                | None => None
                end
            end
          else parse_atom s
      end
  end
with parse_elements (fuel : nat) (s : string) {struct fuel}
  : option (list json * string) :=
  match fuel with
  | O => None
  | S fuel' =>
      match parse_value fuel' s with
      | None => None
      | Some (v, r) =>
          match skip_ws r with
          | String c r' =>
              if Ascii.eqb c "]"%char then Some ([v], r')
              else if Ascii.eqb c ","%char then
                match parse_elements fuel' (skip_ws r') with
                | Some (l, r'') => Some (v :: l, r'')
                | None => None
                end
              else None
          | EmptyString => None
          end
      end
  end
with parse_members (fuel : nat) (s : string) {struct fuel}
  : option (list (string * json) * string) :=
  match fuel with
  | O => None
  | S fuel' =>
      match s with
      | String q t =>
          if Ascii.eqb q dquote then
            match scanstring t with
            | None => None
            | Some (k, r) =>
                match skip_ws r with
                | String ":"%char r1 =>
                    match parse_value fuel' (skip_ws r1) with
                    | None => None
                    | Some (v, r2) =>
                        match skip_ws r2 with
                        | String c r3 =>
                            if Ascii.eqb c "}"%char then Some ([(k, v)], r3)
                            else if Ascii.eqb c ","%char then
                              match parse_members fuel' (skip_ws r3) with
                              | Some (l, r4) => Some ((k, v) :: l, r4)
                              | None => None
                              end
                            else None
                        | EmptyString => None
                        end
                    end
                | _ => None
                end
            end
          else None
      | EmptyString => None
      end
  end.

(** [json.loads(s)]: one value, with white space around it and nothing
    else; a [JSONDecodeError] otherwise. *)
Definition json_loads (s : string) : outcome json :=
  match parse_value (2 * String.length s + 2) (skip_ws s) with
  | Some (v, r) =>
      match skip_ws r with
      | EmptyString => Ok v
      | _ => Raise (mkExn JSONDecodeError "Extra data")
      end
  | None => Raise (mkExn JSONDecodeError "Expecting value")
  end.

(* ===================================================================== *)
(** ** Operations on the request payload *)
(* ===================================================================== *)

Fixpoint is_substring (p s : string) : bool :=
  match strip_prefix p s with
  | Some _ => true
  | None =>
      match s with
      | EmptyString => false
      | String _ s' => is_substring p s'
      end
  end.

Definition json_is_str (k : string) (v : json) : bool :=
  match v with
  | JStr s => String.eqb k s
  | _ => false
  end.

(** [k in v] for a [str] [k] *)
Definition py_contains (k : string) (v : json) : outcome bool :=
  match v with
  | JDict kvs => Ok (dict_has k kvs)
  | JList l => Ok (existsb (json_is_str k) l)
  | JStr s => Ok (is_substring k s)
  | _ =>
      Raise (mkExn TypeError
               ("argument of type '" ++ type_name v ++ "' is not iterable"))
  end.

(** [v.get(k, default)] *)
Definition py_get (v : json) (k : string) (default : json) : outcome json :=
  match v with
  | JDict kvs =>
      Ok (match dict_lookup k kvs with Some x => x | None => default end)
  | _ =>
      Raise (mkExn AttributeError
               ("'" ++ type_name v ++ "' object has no attribute 'get'"))
  end.

(** [v[k]] for a [str] [k] *)
Definition py_getitem (v : json) (k : string) : outcome json :=
  match v with
  | JDict kvs =>
      match dict_lookup k kvs with
      | Some x => Ok x
      | None => Raise (mkExn KeyError ("'" ++ k ++ "'"))
      end
  | JList _ =>
      Raise (mkExn TypeError "list indices must be integers or slices, not str")
  | JStr _ => Raise (mkExn TypeError "string indices must be integers, not 'str'")
  | _ =>
      Raise (mkExn TypeError
               ("'" ++ type_name v ++ "' object is not subscriptable"))
  end.

(* ===================================================================== *)
(** ** The database server, as seen through [pymysql] *)
(* ===================================================================== *)

(** A parameter as the driver writes it into the statement: a scalar, or a
    parenthesised sequence for a [list]. *)
Inductive sqllit : Type :=
| LitScalar (v : sqlval)
| LitSeq (l : list sqllit).

(** The driver's [escape_item]: a [dict] is refused, and so are the floats
    that have no SQL literal. *)
Fixpoint escape_item (v : json) : outcome sqllit :=
  match v with
  | JNull => Ok (LitScalar SqlNull)
  | JBool b => Ok (LitScalar (SqlInt (if b then 1 else 0)))
  | JInt n => Ok (LitScalar (SqlInt n))
  | JFloat FNan => Raise (mkExn ProgrammingError "nan can not be used with MySQL")
  | JFloat (FInf false) =>
      Raise (mkExn ProgrammingError "inf can not be used with MySQL")
  | JFloat (FInf true) =>
      Raise (mkExn ProgrammingError "-inf can not be used with MySQL")
  | JFloat f => Ok (LitScalar (SqlFloat f))
  | JStr s => Ok (LitScalar (SqlStr s))
  | JList l =>
      match
        (fix items (l : list json) : outcome (list sqllit) :=
           match l with
           | [] => Ok []
           | x :: rest =>
               match escape_item x with
               | Raise e => Raise e
               | Ok q =>
                   match items rest with
                   | Raise e => Raise e
                   | Ok qs => Ok (q :: qs)
                   end
               end
           end) l
      with
      | Ok qs => Ok (LitSeq qs)
      | Raise e => Raise e
      end
  | JDict _ => Raise (mkExn TypeError "dict can not be used as parameter")
  end.

(** The value of a literal where the statement expects one column: a
    sequence of one item is that item in parentheses. *)
Fixpoint literal_value (q : sqllit) : outcome sqlval :=
  match q with
  | LitScalar v => Ok v
  | LitSeq [] =>
      Raise (mkExn ProgrammingError "You have an error in your SQL syntax")
  | LitSeq [q'] => literal_value q'
  | LitSeq _ => Raise (mkExn OperationalError "Operand should contain 1 column(s)")
  end.

(** Escaping of all the parameters of a statement, left to right. *)
Fixpoint escape_args (args : list json) : outcome (list sqllit) :=
  match args with
  | [] => Ok []
  | a :: rest =>
      match escape_item a with
      | Raise e => Raise e
      | Ok q =>
          match escape_args rest with
          | Raise e => Raise e
          | Ok qs => Ok (q :: qs)
          end
      end
  end.

Fixpoint literal_values (qs : list sqllit) : outcome (list sqlval) :=
  match qs with
  | [] => Ok []
  | q :: rest =>
      match literal_value q with
      | Raise e => Raise e
      | Ok v =>
          match literal_values rest with
          | Raise e => Raise e
          | Ok vs => Ok (v :: vs)
          end
      end
  end.

(** The parameters of [cursor.execute(sql, args)] as the server sees them. *)
Definition bind_args (args : list json) : outcome (list sqlval) :=
  match escape_args args with
  | Raise e => Raise e
  | Ok qs => literal_values qs
  end.

Definition not_null (column : string) (v : sqlval) : outcome unit :=
  match v with
  | SqlNull =>
      Raise (mkExn IntegrityError ("Column '" ++ column ++ "' cannot be null"))
  | _ => Ok tt
  end.

Definition float_finite (f : pyfloat) : bool :=
  match f with
  | FFin _ _ _ => true
  | _ => false
  end.

(** No [NaN] or [Infinity] anywhere in the value: JSON proper has neither. *)
Fixpoint json_finite (v : json) : bool :=
  match v with
  | JFloat f => float_finite f
  | JList l => forallb json_finite l
  | JDict kvs => forallb (fun kv => json_finite (snd kv)) kvs
  | _ => true
  end.

(** What a [JSON] column accepts: a text that is a JSON document. *)
Definition valid_json_text (s : string) : bool :=
  match json_loads s with
  | Ok v => json_finite v
  | Raise _ => false
  end.

Definition json_column (column : string) (v : sqlval) : outcome string :=
  match v with
  | SqlStr s =>
      if valid_json_text s then Ok s
      else Raise (mkExn OperationalError
                    ("Invalid JSON text: Invalid value. at column '" ++ column ++ "'"))
  | SqlNull =>
      Raise (mkExn IntegrityError ("Column '" ++ column ++ "' cannot be null"))
  | _ =>
      Raise (mkExn OperationalError
               ("Invalid JSON text: not a JSON text, may need CAST. at column '"
                  ++ column ++ "'"))
  end.

Definition no_such_table {A} (name : string) : outcome A :=
  Raise (mkExn ProgrammingError ("Table 'e_commerce_db." ++ name ++ "' doesn't exist")).

Definition set_products (db : database) (t : table product) : database :=
  mkDb (Some t) (db_orders db).
Definition set_orders (db : database) (t : table order) : database :=
  mkDb (db_products db) (Some t).

Definition empty_table {A} : table A := mkTable [] 1.

(** [CREATE TABLE IF NOT EXISTS products (...)] *)
Definition create_products_if_absent (db : database) : database :=
  match db_products db with
  | Some _ => db
  | None => set_products db empty_table
  end.

(** [CREATE TABLE IF NOT EXISTS orders (...)] *)
Definition create_orders_if_absent (db : database) : database :=
  match db_orders db with
  | Some _ => db
  | None => set_orders db empty_table
  end.

(** [INSERT INTO products (name, price, description, image_url, category,
    stock_quantity) VALUES (...)] at time [now]: the new row's key, and the
    tables after it.  [name] and [price] are [NOT NULL]. *)
Definition insert_product (now : timestamp) (db : database)
    (name price description image_url category stock_quantity : sqlval)
  : outcome (Z * database) :=
  match db_products db with
  | None => no_such_table "products"
  | Some t =>
      match not_null "name" name with
      | Raise e => Raise e
      | Ok _ =>
      match not_null "price" price with
      | Raise e => Raise e
      | Ok _ =>
          let id := t_next_id t in
          let row := mkProduct id name description price image_url category
                               stock_quantity now in
          Ok (id, set_products db (mkTable (t_rows t ++ [row]) (id + 1)))
      end end
  end.

(** [INSERT INTO orders (customer_name, customer_email, customer_phone,
    customer_address, total_amount, items, status) VALUES (...)]. *)
Definition insert_order (now : timestamp) (db : database)
    (name email phone address total items status : sqlval)
  : outcome (Z * database) :=
  match db_orders db with
  | None => no_such_table "orders"
  | Some t =>
      match not_null "customer_name" name with
      | Raise e => Raise e
      | Ok _ =>
      match not_null "customer_email" email with
      | Raise e => Raise e
      | Ok _ =>
      match not_null "customer_address" address with
      | Raise e => Raise e
      | Ok _ =>
      match not_null "total_amount" total with
      | Raise e => Raise e
      | Ok _ =>
      match json_column "items" items with
      | Raise e => Raise e
      | Ok doc =>
          let id := t_next_id t in
          let row := mkOrder id name email phone address total doc status now in
          Ok (id, set_orders db (mkTable (t_rows t ++ [row]) (id + 1)))
      end end end end end
  end.

Definition ts_compare (a b : timestamp) : comparison :=
  match ts_year a ?= ts_year b with
  | Eq =>
  match ts_month a ?= ts_month b with
  | Eq =>
  match ts_day a ?= ts_day b with
  | Eq =>
  match ts_hour a ?= ts_hour b with
  | Eq =>
  match ts_minute a ?= ts_minute b with
  | Eq => ts_second a ?= ts_second b
  | c => c end
  | c => c end
  | c => c end
  | c => c end
  | c => c end.

(** [a] is not later than [b]. *)
Definition ts_leb (a b : timestamp) : bool :=
  match ts_compare a b with
  | Gt => false
  | _ => true
  end.

Section OrderBy.
Context {A : Type} (created_at : A -> timestamp).

Fixpoint insert_desc (x : A) (l : list A) : list A :=
  match l with
  | [] => [x]
  | y :: l' =>
      if ts_leb (created_at y) (created_at x) then x :: l
      else y :: insert_desc x l'
  end.

(** [ORDER BY created_at DESC] *)
Fixpoint order_by_created_at_desc (l : list A) : list A :=
  match l with
  | [] => []
  | x :: l' => insert_desc x (order_by_created_at_desc l')
  end.
End OrderBy.

Definition zero_pad (width : nat) (n : Z) : string :=
  let ds := digits_of_N (Z.to_N n) in
  string_of_digits (repeat 0%nat (width - List.length ds) ++ ds)%list.

(** [DATE_FORMAT(t, '%Y-%m-%d %H:%i:%s')] *)
Definition date_format (t : timestamp) : string :=
  zero_pad 4 (ts_year t) ++ "-" ++ zero_pad 2 (ts_month t) ++ "-"
    ++ zero_pad 2 (ts_day t) ++ " " ++ zero_pad 2 (ts_hour t) ++ ":"
    ++ zero_pad 2 (ts_minute t) ++ ":" ++ zero_pad 2 (ts_second t).

(* ===================================================================== *)
(** ** Statements on a connection *)
(* ===================================================================== *)

Fixpoint view_of (id : nat) (open : list (nat * database)) : option database :=
  match open with
  | [] => None
  | (id', db) :: rest => if (id =? id')%nat then Some db else view_of id rest
  end.

Fixpoint set_view (id : nat) (db : database) (open : list (nat * database))
  : list (nat * database) :=
  match open with
  | [] => []
  | (id', db') :: rest =>
      if (id =? id')%nat then (id', db) :: rest
      else (id', db') :: set_view id db rest
  end.

Fixpoint drop_view (id : nat) (open : list (nat * database))
  : list (nat * database) :=
  match open with
  | [] => []
  | (id', db') :: rest =>
      if (id =? id')%nat then rest else (id', db') :: drop_view id rest
  end.

Definition none_has_no (attr : string) : exn :=
  mkExn AttributeError ("'NoneType' object has no attribute '" ++ attr ++ "'").

Definition already_closed : exn := mkExn InterfaceError "(0, '')".

(** [conn.cursor()], for what [get_db_connection] returned. *)
Definition conn_cursor (conn : option connection) : M connection :=
  match conn with
  | Some c => ret c
  | None => raise (none_has_no "cursor")
  end.

(** One statement run through a cursor: it reads and changes the
    transaction's view. *)
Definition run_statement {A} (c : connection)
    (stmt : timestamp -> database -> outcome (A * database)) : M A :=
  fun w =>
    match view_of (c_id c) (w_open w) with
    | None => (Raise already_closed, w)
    | Some db =>
        match stmt (w_now w) db with
        | Raise e => (Raise e, w)
        | Ok (a, db') =>
            (Ok a, mkWorld (w_connect w) (w_attempts w) (w_now w) (w_db w)
                           (set_view (c_id c) db' (w_open w)) (w_trace w))
        end
    end.

(** A [CREATE TABLE] statement: it commits implicitly. *)
Definition run_ddl (c : connection) (stmt : database -> database) : M unit :=
  fun w =>
    match view_of (c_id c) (w_open w) with
    | None => (Raise already_closed, w)
    | Some db =>
        let db' := stmt db in
        (Ok tt, mkWorld (w_connect w) (w_attempts w) (w_now w) db'
                        (set_view (c_id c) db' (w_open w)) (w_trace w))
    end.

(** [conn.commit()] *)
Definition conn_commit (conn : option connection) : M unit :=
  match conn with
  | None => raise (none_has_no "commit")
  | Some c =>
      fun w =>
        match view_of (c_id c) (w_open w) with
        | None => (Raise already_closed, w)
        | Some db =>
            (Ok tt, mkWorld (w_connect w) (w_attempts w) (w_now w) db
                            (w_open w) (w_trace w ++ [EvCommit (c_id c)])%list)
        end
  end.

(** [conn.close()] *)
Definition conn_close (conn : option connection) : M unit :=
  match conn with
  | None => raise (none_has_no "close")
  | Some c =>
      fun w =>
        match view_of (c_id c) (w_open w) with
        | None => (Raise (mkExn InterfaceError "Already closed"), w)
        | Some _ =>
            (Ok tt, mkWorld (w_connect w) (w_attempts w) (w_now w) (w_db w)
                            (drop_view (c_id c) (w_open w))
                            (w_trace w ++ [EvClose (c_id c)])%list)
        end
  end.

Definition wrong_arity {A} : outcome A :=
  Raise (mkExn TypeError "not all arguments converted during string formatting").

(** [SELECT * FROM products ORDER BY created_at DESC] *)
Definition select_products (c : connection) : M (list product) :=
  run_statement c (fun _ db =>
    match db_products db with
    | None => no_such_table "products"
    | Some t => Ok (order_by_created_at_desc p_created_at (t_rows t), db)
    end).

(** [SELECT COUNT( * ) as count FROM products] *)
Definition count_products (c : connection) : M Z :=
  run_statement c (fun _ db =>
    match db_products db with
    | None => no_such_table "products"
    | Some t => Ok (Z.of_nat (List.length (t_rows t)), db)
    end).

(** The [INSERT INTO products] of [add_product], whose parameters are
    [(name, price, description, image_url, category, stock_quantity)];
    the result is [cursor.lastrowid]. *)
Definition execute_add_product (c : connection) (args : list json) : M Z :=
  match bind_args args with
  | Raise e => raise e
  | Ok [name; price; description; image_url; category; stock_quantity] =>
      run_statement c (fun now db =>
        insert_product now db name price description image_url category
                       stock_quantity)
  | Ok _ => lift wrong_arity
  end.

(** The [INSERT INTO products] of [init_db], whose parameters are
    [(name, description, price, image_url, category, stock_quantity)]. *)
Definition execute_seed_product (c : connection) (args : list json) : M Z :=
  match bind_args args with
  | Raise e => raise e
  | Ok [name; description; price; image_url; category; stock_quantity] =>
      run_statement c (fun now db =>
        insert_product now db name price description image_url category
                       stock_quantity)
  | Ok _ => lift wrong_arity
  end.

(** [cursor.executemany(sql, rows)] for that statement. *)
Fixpoint executemany_seed_product (c : connection) (rows : list (list json))
  : M unit :=
  match rows with
  | [] => ret tt
  | args :: rest =>
      execute_seed_product c args ;;; executemany_seed_product c rest
  end.

(** The [INSERT INTO orders] of [create_order]. *)
Definition execute_insert_order (c : connection) (args : list json) : M Z :=
  match bind_args args with
  | Raise e => raise e
  | Ok [name; email; phone; address; total; items; status] =>
      run_statement c (fun now db =>
        insert_order now db name email phone address total items status)
  | Ok _ => lift wrong_arity
  end.

(** The [items] entry of a fetched order: the driver returns the document
    as a [str]; the handler replaces it by the parsed value. *)
Inductive items_cell : Type :=
| ItemsText (s : string)
| ItemsValue (v : json).

(** A row of the query of [get_orders], as the [DictCursor] returns it. *)
Record order_row : Type := mkOrderRow {
  or_id : Z;
  or_customer_name : sqlval;
  or_customer_email : sqlval;
  or_customer_phone : sqlval;
  or_customer_address : sqlval;
  or_total_amount : sqlval;
  or_items : items_cell;
  or_status : sqlval;
  or_created_at : timestamp;
  or_order_date : string
}.

Definition fetch_order (o : order) : order_row :=
  mkOrderRow (o_id o) (o_customer_name o) (o_customer_email o)
             (o_customer_phone o) (o_customer_address o) (o_total_amount o)
             (ItemsText (o_items o)) (o_status o) (o_created_at o)
             (date_format (o_created_at o)).

(** [SELECT *, DATE_FORMAT(created_at, '%Y-%m-%d %H:%i:%s') as order_date
    FROM orders ORDER BY created_at DESC] *)
Definition select_orders (c : connection) : M (list order_row) :=
  run_statement c (fun _ db =>
    match db_orders db with
    | None => no_such_table "orders"
    | Some t =>
        Ok (map fetch_order (order_by_created_at_desc o_created_at (t_rows t)),
            db)
    end).

Definition set_items (r : order_row) (c : items_cell) : order_row :=
  mkOrderRow (or_id r) (or_customer_name r) (or_customer_email r)
             (or_customer_phone r) (or_customer_address r) (or_total_amount r)
             c (or_status r) (or_created_at r) (or_order_date r).

(* ===================================================================== *)
(** ** Bootstrap *)
(* ===================================================================== *)

Definition price_1999_99 : pyfloat := FFin false [1; 9; 9; 9; 9; 9]%nat 4.
Definition price_999_99 : pyfloat := FFin false [9; 9; 9; 9; 9]%nat 3.
Definition price_299_99 : pyfloat := FFin false [2; 9; 9; 9; 9]%nat 3.
Definition price_24_99 : pyfloat := FFin false [2; 4; 9; 9]%nat 2.

Definition sample_products : list (list json) :=
  [ [JStr "MacBook Pro"; JStr "Powerful laptop for professionals";
     JFloat price_1999_99;
     JStr "https://images.unsplash.com/photo-1511385348-a52b4a160dc2?w=400";
     JStr "Electronics"; JInt 15];
    [JStr "iPhone 15"; JStr "Latest smartphone with advanced features";
     JFloat price_999_99;
     JStr "https://images.unsplash.com/photo-1592750475338-74b7b21085ab?w=400";
     JStr "Electronics"; JInt 25];
    [JStr "Sony Headphones"; JStr "Wireless noise-canceling headphones";
     JFloat price_299_99;
     JStr "https://images.unsplash.com/photo-1505740420928-5e560c06d30e?w=400";
     JStr "Electronics"; JInt 30];
    [JStr "Cotton T-Shirt"; JStr "Comfortable cotton t-shirt";
     JFloat price_24_99;
     JStr "https://images.unsplash.com/photo-1521572163474-6864f9cf17ab?w=400";
     JStr "Clothing"; JInt 50] ].

(** The [try] block of [init_db] from [conn.cursor()] on. *)
Definition init_db_body (conn : option connection) : M unit :=
  cursor <- conn_cursor conn ;;
  run_ddl cursor create_products_if_absent ;;;
  run_ddl cursor create_orders_if_absent ;;;
  count <- count_products cursor ;;
  (if count =? 0 then executemany_seed_product cursor sample_products
   else ret tt) ;;;
  conn_commit conn.

(** [init_db]: a failure is printed and swallowed; the connection, once
    the name [conn] is bound, is closed in the [finally] block. *)
Definition init_db : M unit :=
  fun w =>
    match get_db_connection w with
    | (Raise e, w1) => (Ok tt, w1)
    | (Ok conn, w1) =>
        try_finally
          (try_except (init_db_body conn) (fun e => ret tt))
          (conn_close conn) w1
    end.

(* ===================================================================== *)
(** ** Routes *)
(* ===================================================================== *)

Inductive body : Type :=
| BJson (fields : list (string * json))
| BProducts (rows : list product)
| BOrders (rows : list order_row).

Record response : Type := mkResponse { r_status : Z; r_body : body }.

(** [jsonify(fields)] and [jsonify(fields), status] *)
Definition jsonify (fields : list (string * json)) : response :=
  mkResponse 200 (BJson fields).
Definition jsonify_status (fields : list (string * json)) (status : Z)
  : response :=
  mkResponse status (BJson fields).

Definition error_500 (e : exn) : M response :=
  ret (jsonify_status [("error", JStr (str_of_exn e))] 500).

(** [GET /] *)
Definition hello : M response :=
  ret (jsonify
         [("message", JStr "E-Commerce Backend API is running!");
          ("endpoints",
           JDict [("GET /health", JStr "Health check");
                  ("GET /products", JStr "Get all products");
                  ("POST /products", JStr "Add new product");
                  ("POST /orders", JStr "Create new order");
                  ("GET /orders", JStr "Get all orders")])]).

(** [GET /health] *)
Definition health_check : M response :=
  try_except
    (conn <- get_db_connection ;;
     conn_close conn ;;;
     ret (jsonify [("status", JStr "healthy"); ("database", JStr "connected")]))
    (fun e =>
       ret (jsonify_status
              [("status", JStr "unhealthy"); ("error", JStr (str_of_exn e))]
              500)).

(** [GET /products] *)
Definition get_products : M response :=
  try_except
    (conn <- get_db_connection ;;
     cursor <- conn_cursor conn ;;
     products <- select_products cursor ;;
     conn_close conn ;;;
     ret (mkResponse 200 (BProducts products)))
    error_500.

(** [POST /products] with the parsed request body [data]. *)
Definition add_product (data : json) : M response :=
  try_except
    (name_given <- lift (py_get data "name" JNull) ;;
     missing <-
       (if negb (py_truthy name_given) then ret true
        else price_given <- lift (py_get data "price" JNull) ;;
             ret (negb (py_truthy price_given))) ;;
     if missing : bool
     then ret (jsonify_status [("error", JStr "Name and price are required")] 400)
     else
       conn <- get_db_connection ;;
       cursor <- conn_cursor conn ;;
       name <- lift (py_getitem data "name") ;;
       price_raw <- lift (py_getitem data "price") ;;
       price <- lift (py_float price_raw) ;;
       description <- lift (py_get data "description" (JStr "")) ;;
       image_url <- lift (py_get data "image_url" JNull) ;;
       category <- lift (py_get data "category" (JStr "General")) ;;
       stock_quantity <- lift (py_get data "stock_quantity" (JInt 10)) ;;
       lastrowid <-
         execute_add_product cursor
           [name; JFloat price; description; image_url; category;
            stock_quantity] ;;
       conn_commit conn ;;;
       let product_id := lastrowid in
       conn_close conn ;;;
       ret (jsonify [("message", JStr "Product added successfully");
                     ("product_id", JInt product_id)]))
    error_500.

Definition required_fields : list string :=
  ["customer_name"; "customer_email"; "customer_address"; "total_amount";
   "items"].

(** The loop over [required_fields]: the first field that is not in [data],
    if any. *)
Fixpoint first_missing_field (data : json) (fields : list string)
  : outcome (option string) :=
  match fields with
  | [] => Ok None
  | field :: rest =>
      match py_contains field data with
      | Raise e => Raise e
      | Ok false => Ok (Some field)
      | Ok true => first_missing_field data rest
      end
  end.

Definition is_nonempty_list (v : json) : bool :=
  match v with
  | JList (_ :: _) => true
  | _ => false
  end.

(** [POST /orders] with the parsed request body [data]. *)
Definition create_order (data : json) : M response :=
  try_except
    (if negb (py_truthy data)
     then ret (jsonify_status [("error", JStr "No data provided")] 400)
     else
       missing <- lift (first_missing_field data required_fields) ;;
       match missing with
       | Some field =>
           ret (jsonify_status
                  [("error", JStr ("Missing required field: " ++ field))] 400)
       | None =>
           items <- lift (py_getitem data "items") ;;
           if negb (is_nonempty_list items)
           then ret (jsonify_status
                       [("error", JStr "Items must be a non-empty list")] 400)
           else
             conn <- get_db_connection ;;
             cursor <- conn_cursor conn ;;
             customer_name <- lift (py_getitem data "customer_name") ;;
             customer_email <- lift (py_getitem data "customer_email") ;;
             customer_phone <- lift (py_get data "customer_phone" (JStr "")) ;;
             customer_address <- lift (py_getitem data "customer_address") ;;
             total_raw <- lift (py_getitem data "total_amount") ;;
             total_amount <- lift (py_float total_raw) ;;
             items <- lift (py_getitem data "items") ;;
             order_id <-
               execute_insert_order cursor
                 [customer_name; customer_email; customer_phone;
                  customer_address; JFloat total_amount;
                  JStr (json_dumps items); JStr "pending"] ;;
             conn_commit conn ;;;
             conn_close conn ;;;
             ret (jsonify [("order_id", JInt order_id);
                           ("message", JStr "Order created successfully");
                           ("status", JStr "pending")])
       end)
    error_500.

(** The loop of [get_orders] that parses the [items] of each row. *)
Fixpoint parse_items (orders : list order_row) : outcome (list order_row) :=
  match orders with
  | [] => Ok []
  | o :: rest =>
      match
        match or_items o with
        | ItemsText s =>
            match json_loads s with
            | Ok v => Ok (set_items o (ItemsValue v))
            | Raise e => Raise e
            end
        | ItemsValue _ => Ok o
        end
      with
      | Raise e => Raise e
      | Ok o' =>
          match parse_items rest with
          | Raise e => Raise e
          | Ok rest' => Ok (o' :: rest')
          end
      end
  end.

(** [GET /orders] *)
Definition get_orders : M response :=
  try_except
    (conn <- get_db_connection ;;
     cursor <- conn_cursor conn ;;
     fetched <- select_orders cursor ;;
     orders <- lift (parse_items fetched) ;;
     conn_close conn ;;;
     ret (mkResponse 200 (BOrders orders)))
    error_500.

(* ===================================================================== *)
(** * Vocabulary of the statements *)
(* ===================================================================== *)

(** ** Connection manager *)

(** The events of [k] failed attempts, each followed by its delay. *)
Definition retry_trace (first : nat) (k : nat) : list event :=
  flat_map (fun j => [EvConnect (first + j) false; EvSleep 5]) (seq 0 k).

(** The world after [k] failed attempts and their delays. *)
Definition after_retries (w : world) (k : nat) : world :=
  mkWorld (w_connect w) (w_attempts w + k) (w_now w) (w_db w) (w_open w)
          (w_trace w ++ retry_trace (w_attempts w) k).

(** The world once attempt [k] (counted from the call) has connected. *)
Definition connected (w : world) (k : nat) : world :=
  let n := (w_attempts w + k)%nat in
  mkWorld (w_connect w) (S n) (w_now w) (w_db w)
          ((n, w_db w) :: w_open w)
          (w_trace w ++ retry_trace (w_attempts w) k ++ [EvConnect n true]).

(** The world once attempt [k] has connected, the transaction has been
    committed with the tables [db'] and the connection closed. *)
Definition committed (w : world) (k : nat) (db' : database) : world :=
  let n := (w_attempts w + k)%nat in
  mkWorld (w_connect w) (S n) (w_now w) db' (w_open w)
          (w_trace w ++ retry_trace (w_attempts w) k
             ++ [EvConnect n true; EvCommit n; EvClose n]).

(** The same when nothing was committed. *)
Definition released (w : world) (k : nat) : world :=
  let n := (w_attempts w + k)%nat in
  mkWorld (w_connect w) (S n) (w_now w) (w_db w) (w_open w)
          (w_trace w ++ retry_trace (w_attempts w) k
             ++ [EvConnect n true; EvClose n]).

(** The world once five attempts have failed. *)
Definition gave_up (w : world) : world :=
  mkWorld (w_connect w) (w_attempts w + 5) (w_now w) (w_db w) (w_open w)
          (w_trace w ++ retry_trace (w_attempts w) 4
             ++ [EvConnect (w_attempts w + 4) false]).

(** The server accepts the attempt number [k] from now and none before. *)
Definition connects_at (w : world) (k : nat) : Prop :=
  (forall j, (j < k)%nat -> w_connect w (w_attempts w + j) <> None) /\
  w_connect w (w_attempts w + k) = None.


(** The status of the response, when the handler returned one. *)
Definition r_status_of (r : outcome response) : option Z :=
  match r with
  | Ok resp => Some (r_status resp)
  | Raise _ => None
  end.

(** ** Worlds used in the examples *)

Definition noon : timestamp := mkTs 2024 1 2 12 0 0.

(** A reachable server on which [init_db] has not run yet. *)
Definition fresh_world : world :=
  mkWorld (fun _ => None) 0 noon (mkDb None None) [] [].

(** The same after bootstrap. *)
Definition seeded_world : world := snd (init_db fresh_world).

(** A server that refuses two connection attempts and then accepts. *)
Definition flaky_world : world :=
  mkWorld (fun n => if (n <? 2)%nat then Some "Can't connect to MySQL server"
                    else None)
          0 noon (mkDb None None) [] [].

(** A server that is down. *)
Definition down_world : world :=
  mkWorld (fun _ => Some "Can't connect to MySQL server") 0 noon
          (mkDb None None) [] [].

(** ** Parameters and rows *)

(** One parameter, from the Python value to the value the server sees. *)
Definition bind_param (v : json) : outcome sqlval :=
  match escape_item v with
  | Raise e => Raise e
  | Ok q => literal_value q
  end.

(** [d.get(k, default)] for the members [kvs] of a [dict]. *)
Definition param_or (kvs : list (string * json)) (k : string) (default : json)
  : json :=
  match dict_lookup k kvs with
  | Some x => x
  | None => default
  end.

Definition products_of (w : world) : option (table product) :=
  db_products (w_db w).
Definition orders_of (w : world) : option (table order) :=
  db_orders (w_db w).

(** The parameters of the [INSERT] of [add_product]. *)
Definition add_product_args (kvs : list (string * json)) (name : json)
    (price : pyfloat) : list json :=
  [name; JFloat price; param_or kvs "description" (JStr "");
   param_or kvs "image_url" JNull;
   param_or kvs "category" (JStr "General");
   param_or kvs "stock_quantity" (JInt 10)].


(** The parameters of the [INSERT] of [create_order]. *)
Definition create_order_args (kvs : list (string * json))
    (name email address : json) (total : pyfloat) (items : json) : list json :=
  [name; email; param_or kvs "customer_phone" (JStr ""); address; JFloat total;
   JStr (json_dumps items); JStr "pending"].

(** ** Bootstrap *)

(** The four seed rows as the server stores them, with keys from
    [first_id] on. *)
Definition seed_rows (first_id : Z) (now : timestamp) : list product :=
  [ mkProduct first_id (SqlStr "MacBook Pro")
      (SqlStr "Powerful laptop for professionals") (SqlFloat price_1999_99)
      (SqlStr "https://images.unsplash.com/photo-1511385348-a52b4a160dc2?w=400")
      (SqlStr "Electronics") (SqlInt 15) now;
    mkProduct (first_id + 1) (SqlStr "iPhone 15")
      (SqlStr "Latest smartphone with advanced features")
      (SqlFloat price_999_99)
      (SqlStr "https://images.unsplash.com/photo-1592750475338-74b7b21085ab?w=400")
      (SqlStr "Electronics") (SqlInt 25) now;
    mkProduct (first_id + 2) (SqlStr "Sony Headphones")
      (SqlStr "Wireless noise-canceling headphones") (SqlFloat price_299_99)
      (SqlStr "https://images.unsplash.com/photo-1505740420928-5e560c06d30e?w=400")
      (SqlStr "Electronics") (SqlInt 30) now;
    mkProduct (first_id + 3) (SqlStr "Cotton T-Shirt")
      (SqlStr "Comfortable cotton t-shirt") (SqlFloat price_24_99)
      (SqlStr "https://images.unsplash.com/photo-1521572163474-6864f9cf17ab?w=400")
      (SqlStr "Clothing") (SqlInt 50) now ].

(** The tables after a bootstrap at time [now] that found the tables [db]:
    both tables exist, and an empty products table has got the seed rows. *)
Definition bootstrapped (now : timestamp) (db : database) : database :=
  let db1 := create_orders_if_absent (create_products_if_absent db) in
  match db_products db1 with
  | Some (mkTable [] next) =>
      set_products db1 (mkTable (seed_rows next now) (next + 4))
  | _ => db1
  end.

(** The rows of the products table, none when the table does not exist. *)
Definition product_rows (w : world) : list product :=
  match products_of w with
  | Some t => t_rows t
  | None => []
  end.

(** The next key of the products table, 1 when the table does not exist. *)
Definition next_product_id (w : world) : Z :=
  match products_of w with
  | Some t => t_next_id t
  | None => 1
  end.

(** ** Well-formed Python values *)

Definition digits_ok (ds : list nat) : Prop := Forall (fun d => (d < 10)%nat) ds.

(** A float as [repr] knows it: special, zero, or digits without leading or
    trailing zero that denote a value in the finite, non-zero range of
    binary64. *)
Definition float_wf (f : pyfloat) : Prop :=
  match f with
  | FFin _ ds decpt =>
      (ds = [0%nat] /\ decpt = 1) \/
      (digits_ok ds /\ hd 0%nat ds <> 0%nat /\ last ds 0%nat <> 0%nat /\
       float_overflows ds decpt = false /\ float_underflows ds decpt = false)
  | _ => True
  end.

Definition dict_keys (kvs : list (string * json)) : list string := map fst kvs.

(** A Python value: its floats are well formed and no [dict] has a key
    twice. *)
Fixpoint json_wf (v : json) : Prop :=
  match v with
  | JFloat f => float_wf f
  | JList l =>
      (fix all (l : list json) : Prop :=
         match l with
         | [] => True
         | x :: rest => json_wf x /\ all rest
         end) l
  | JDict kvs =>
      NoDup (dict_keys kvs) /\
      (fix all (kvs : list (string * json)) : Prop :=
         match kvs with
         | [] => True
         | (_, x) :: rest => json_wf x /\ all rest
         end) kvs
  | _ => True
  end.

(** What may follow a value in a document: nothing, or a character that
    continues no number. *)
Definition ends_token (rest : string) : Prop :=
  match rest with
  | EmptyString => True
  | String c _ =>
      is_digit c = false /\ c <> "."%char /\ c <> "e"%char /\ c <> "E"%char
  end.

(** The exponent that [repr] writes for a decimal point at [decpt], followed
    by [rest]. *)
Definition exponent_text (decpt : Z) (rest : string) : string :=
  "e" ++ (if decpt - 1 <? 0 then "-" else "+")
      ++ string_of_digits (pad2 (digits_of_N (Z.abs_N (decpt - 1)))) ++ rest.

(** The elements of a list as [json.dumps] writes them between the
    brackets. *)
Fixpoint dumps_elements (l : list json) : string :=
  match l with
  | [] => ""
  | x :: rest =>
      json_dumps x ++
      match rest with
      | [] => ""
      | _ => ", " ++ dumps_elements rest
      end
  end.

(** The members of a [dict] as [json.dumps] writes them between the
    braces. *)
Fixpoint dumps_members (kvs : list (string * json)) : string :=
  match kvs with
  | [] => ""
  | (k, x) :: rest =>
      dumps_string k ++ ": " ++ json_dumps x ++
      match rest with
      | [] => ""
      | _ => ", " ++ dumps_members rest
      end
  end.

(** The number of values in a value, itself included, plus one for each
    element and member: enough calls of the decoder to read it back. *)
Fixpoint json_size (v : json) : nat :=
  match v with
  | JList l =>
      S ((fix sum (l : list json) : nat :=
            match l with
            | [] => 0%nat
            | x :: rest => S (json_size x + sum rest)
            end) l)
  | JDict kvs =>
      S ((fix sum (kvs : list (string * json)) : nat :=
            match kvs with
            | [] => 0%nat
            | (_, x) :: rest => S (json_size x + sum rest)
            end) kvs)
  | _ => 1%nat
  end.

Fixpoint elements_size (l : list json) : nat :=
  match l with
  | [] => 0%nat
  | x :: rest => S (json_size x + elements_size rest)
  end.

Fixpoint members_size (kvs : list (string * json)) : nat :=
  match kvs with
  | [] => 0%nat
  | (_, x) :: rest => S (json_size x + members_size rest)
  end.

(** A character that can start a value in a document. *)
Definition starts_value (c : ascii) : bool :=
  negb (is_json_ws c) && negb (Ascii.eqb "]" c) && negb (Ascii.eqb "}" c).

(** What reading a value back means, for the fuel [fuel] and whatever
    follows it. *)
Definition reads_back (v : json) : Prop :=
  json_wf v ->
  forall fuel rest,
    (json_size v <= fuel)%nat -> ends_token rest ->
    parse_value fuel (json_dumps v ++ rest) = Some (v, rest).

(** ** Listings *)

(** Creation times in descending order: none is earlier than one after
    it. *)
Definition newest_first (times : list timestamp) : Prop :=
  StronglySorted (fun a b => ts_leb b a = true) times.

(** Lexicographic comparison of two lists of fields. *)
Fixpoint lex_compare (a b : list Z) : comparison :=
  match a, b with
  | [], [] => Eq
  | [], _ :: _ => Lt
  | _ :: _, [] => Gt
  | x :: a', y :: b' =>
      match x ?= y with
      | Eq => lex_compare a' b'
      | c => c
      end
  end.

Definition ts_fields (t : timestamp) : list Z :=
  [ts_year t; ts_month t; ts_day t; ts_hour t; ts_minute t; ts_second t].

(** A date and time of day that the server can hold. *)
Definition valid_timestamp (t : timestamp) : bool :=
  (0 <=? ts_year t) && (ts_year t <=? 9999)
  && (1 <=? ts_month t) && (ts_month t <=? 12)
  && (1 <=? ts_day t) && (ts_day t <=? 31)
  && (0 <=? ts_hour t) && (ts_hour t <=? 23)
  && (0 <=? ts_minute t) && (ts_minute t <=? 59)
  && (0 <=? ts_second t) && (ts_second t <=? 59).

(** [s] has the shape [pat], in which [d] stands for any decimal digit and
    every other character for itself. *)
Fixpoint matches_pattern (pat s : string) : bool :=
  match pat, s with
  | EmptyString, EmptyString => true
  | String p pat', String c s' =>
      (if Ascii.eqb p "d"%char then is_digit c else Ascii.eqb p c)
      && matches_pattern pat' s'
  | _, _ => false
  end.

(** A fetched row [r] after the handler has parsed its [items]. *)
Definition items_parsed (r r' : order_row) : Prop :=
  match or_items r with
  | ItemsText s => exists v, json_loads s = Ok v /\ r' = set_items r (ItemsValue v)
  | ItemsValue _ => r' = r
  end.

(** The rows of the orders table, none when the table does not exist. *)
Definition order_rows (w : world) : list order :=
  match orders_of w with
  | Some t => t_rows t
  | None => []
  end.

(** ** Payloads used in the examples *)

(** The product of the scenario: only a name and a price. *)
Definition mouse : json :=
  JDict [("name", JStr "Mouse"); ("price", JFloat (FFin false [1; 9; 9; 9]%nat 2))].


(** A product whose price is not a number. *)
Definition widget_abc : json :=
  JDict [("name", JStr "Widget"); ("price", JStr "abc")].

(** The order of the scenario. *)
Definition order_a : json :=
  JDict [("customer_name", JStr "A"); ("customer_email", JStr "a@x.com");
         ("customer_address", JStr "1 St");
         ("total_amount", JFloat (FFin false [1; 9; 9; 9]%nat 2));
         ("items", JList [JDict [("id", JInt 1); ("qty", JInt 1)]])].

(** The same order with a total that is not a number. *)
Definition order_abc : json :=
  JDict [("customer_name", JStr "A"); ("customer_email", JStr "a@x.com");
         ("customer_address", JStr "1 St");
         ("total_amount", JStr "abc");
         ("items", JList [JDict [("id", JInt 1); ("qty", JInt 1)]])].

(** ** Valid orders *)

(** A parameter the server accepts for a [NOT NULL] column. *)
Definition binds_to_value (v : json) : Prop :=
  exists x, bind_param v = Ok x /\ x <> SqlNull.

(** A parameter the server accepts for a column that may be [NULL]. *)
Definition binds (v : json) : Prop := exists x, bind_param v = Ok x.

(** An order that passes the validation and that the storage accepts: the
    customer fields are values for their columns, the total is a finite
    number or a text that denotes one, and [items] is a non-empty list of
    JSON values. *)
Definition valid_order_input (kvs : list (string * json)) (items : list json)
  : Prop :=
  (exists name, dict_lookup "customer_name" kvs = Some name
                /\ binds_to_value name) /\
  (exists email, dict_lookup "customer_email" kvs = Some email
                 /\ binds_to_value email) /\
  (exists address, dict_lookup "customer_address" kvs = Some address
                   /\ binds_to_value address) /\
  binds (param_or kvs "customer_phone" (JStr "")) /\
  (exists total f, dict_lookup "total_amount" kvs = Some total
                   /\ py_float total = Ok f /\ float_finite f = true) /\
  dict_lookup "items" kvs = Some (JList items) /\
  items <> [] /\
  json_wf (JList items) /\
  json_finite (JList items) = true.

(** The [JSON] column of every stored order holds a JSON document. *)
Definition orders_hold_documents (w : world) : Prop :=
  Forall (fun o => valid_json_text (o_items o) = true) (order_rows w).

(** ** A server with orders placed at different times *)

Definition at_time (now : timestamp) (w : world) : world :=
  mkWorld (w_connect w) (w_attempts w) now (w_db w) (w_open w) (w_trace w).

(** Two orders, the second five seconds after the first. *)
Definition busy_world : world :=
  snd (create_order order_a
         (at_time (mkTs 2024 1 2 12 0 5)
                  (snd (create_order order_a seeded_world)))).

Definition listed_products (w : world) : list product :=
  match fst (get_products w) with
  | Ok (mkResponse _ (BProducts rows)) => rows
  | _ => []
  end.

Definition listed_orders (w : world) : list order_row :=
  match fst (get_orders w) with
  | Ok (mkResponse _ (BOrders rows)) => rows
  | _ => []
  end.

(* ===================================================================== *)
(** * Vocabulary of the further properties *)
(* ===================================================================== *)

Definition is_dict (v : json) : bool :=
  match v with
  | JDict _ => true
  | _ => false
  end.


(** ** The service as a state machine *)

(** The routes of the application. *)
Inductive request : Type :=
| GetRoot
| GetHealth
| GetProducts
| PostProducts (data : json)
| PostOrders (data : json)
| GetOrders.

(** The handler that Flask calls for a request. *)
Definition handle (r : request) : M response :=
  match r with
  | GetRoot => hello
  | GetHealth => health_check
  | GetProducts => get_products
  | PostProducts data => add_product data
  | PostOrders data => create_order data
  | GetOrders => get_orders
  end.

(** The worlds the process can be in: it starts on a server without tables
    (whatever its reachability and clock), may run [init_db], serves
    requests one after the other, and time passes. *)
Inductive reachable : world -> Prop :=
| reach_start (reachability : nat -> option string) (now : timestamp) :
    reachable (mkWorld reachability 0 now (mkDb None None) [] [])
| reach_init_db (w : world) :
    reachable w -> reachable (snd (init_db w))
| reach_request (w : world) (r : request) :
    reachable w -> reachable (snd (handle r w))
| reach_clock (w : world) (now : timestamp) :
    reachable w -> reachable (at_time now w).

(** The keys of a table are below its next [AUTO_INCREMENT] value and no key
    occurs twice. *)
Definition keys_fresh {A : Type} (key : A -> Z) (t : table A) : Prop :=
  Forall (fun r => key r < t_next_id t) (t_rows t) /\
  NoDup (map key (t_rows t)).

Definition db_keys_fresh (db : database) : Prop :=
  (forall t, db_products db = Some t -> keys_fresh p_id t) /\
  (forall t, db_orders db = Some t -> keys_fresh o_id t).

(** Every open connection has its own identity, given out by an earlier
    attempt. *)
Definition connections_fresh (w : world) : Prop :=
  Forall (fun c => (fst c < w_attempts w)%nat) (w_open w) /\
  NoDup (map fst (w_open w)).

(** Seconds spent in [time.sleep] according to a trace. *)
Fixpoint slept (tr : list event) : Z :=
  match tr with
  | [] => 0
  | EvSleep s :: rest => s + slept rest
  | _ :: rest => slept rest
  end.

(** What the invariants say of the committed tables only. *)
Definition tables_ok (db : database) : Prop :=
  db_keys_fresh db /\
  forall t, db_orders db = Some t ->
    Forall (fun o => valid_json_text (o_items o) = true) (t_rows t).

(* ===================================================================== *)
(** * Properties *)
(* ===================================================================== *)

(** ** Connection manager *)

Lemma retry_trace_S first k :
  retry_trace first (S k) =
  EvConnect first false :: EvSleep 5 :: retry_trace (S first) k.
Proof.
  unfold retry_trace. simpl. rewrite Nat.add_0_r. do 2 f_equal.
  rewrite <- seq_shift, flat_map_concat_map, map_map,
    <- flat_map_concat_map.
  apply flat_map_ext. intros j. now rewrite Nat.add_succ_r.
Qed.

Lemma loop_connects max_retries : forall k a w,
  (a + k < max_retries)%nat ->
  connects_at w k ->
  get_db_connection_loop max_retries (seq a (max_retries - a)) w =
  (Ok (Some (mkConn (w_attempts w + k))), connected w k).
Proof.
  induction k as [|k IH]; intros a w Hlt [Hfail Hok].
  - replace (max_retries - a)%nat with (S (max_retries - S a)) by lia.
    rewrite Nat.add_0_r in Hok. simpl.
    unfold try_except, bind, pymysql_connect, ret. rewrite Hok.
    unfold connected, retry_trace. simpl. now rewrite Nat.add_0_r.
  - replace (max_retries - a)%nat with (S (max_retries - S a)) by lia.
    simpl. unfold try_except at 1, bind at 1, pymysql_connect at 1.
    destruct (w_connect w (w_attempts w)) as [msg|] eqn:E.
    + replace (a <? max_retries - 1)%nat with true
        by (symmetry; apply Nat.ltb_lt; lia).
      unfold bind at 1, time_sleep, emit. cbn [w_connect w_attempts w_now w_db w_open w_trace].
      rewrite (IH (S a)); [| lia |].
      * cbn [w_attempts]. unfold connected.
        cbn [w_connect w_attempts w_now w_db w_open w_trace].
        rewrite retry_trace_S, <- !app_assoc. simpl.
        now rewrite !Nat.add_succ_r.
      * split; cbn [w_connect w_attempts].
        -- intros j Hj. specialize (Hfail (S j) ltac:(lia)).
           now rewrite Nat.add_succ_r in Hfail.
        -- now rewrite Nat.add_succ_r in Hok.
    + exfalso. apply (Hfail 0%nat); [lia|]. now rewrite Nat.add_0_r.
Qed.

Lemma loop_gives_up max_retries : forall len a w msg,
  (a + S len = max_retries)%nat ->
  (forall j, (j < len)%nat -> w_connect w (w_attempts w + j) <> None) ->
  w_connect w (w_attempts w + len) = Some msg ->
  get_db_connection_loop max_retries (seq a (S len)) w =
  (Raise (mkExn OperationalError msg),
   mkWorld (w_connect w) (w_attempts w + S len) (w_now w) (w_db w) (w_open w)
           (w_trace w ++ retry_trace (w_attempts w) len
              ++ [EvConnect (w_attempts w + len) false])).
Proof.
  induction len as [|len IH]; intros a w msg Hmax Hfail Hlast.
  - rewrite Nat.add_0_r in Hlast. simpl.
    unfold try_except, bind, pymysql_connect. rewrite Hlast.
    replace (a <? max_retries - 1)%nat with false
      by (symmetry; apply Nat.ltb_ge; lia).
    unfold raise, retry_trace. simpl.
    now rewrite Nat.add_0_r, Nat.add_1_r.
  - change (seq a (S (S len))) with (a :: seq (S a) (S len)).
    cbn [get_db_connection_loop].
    unfold try_except at 1, bind at 1, pymysql_connect at 1.
    destruct (w_connect w (w_attempts w)) as [m0|] eqn:E.
    + replace (a <? max_retries - 1)%nat with true
        by (symmetry; apply Nat.ltb_lt; lia).
      unfold bind at 1, time_sleep, emit.
      cbn [w_connect w_attempts w_now w_db w_open w_trace].
      rewrite (IH (S a) _ msg); [| lia | |];
        cbn [w_connect w_attempts w_now w_db w_open w_trace].
      * rewrite retry_trace_S, <- !app_assoc. simpl.
        now rewrite !Nat.add_succ_r.
      * intros j Hj. specialize (Hfail (S j) ltac:(lia)).
        now rewrite Nat.add_succ_r in Hfail.
      * now rewrite Nat.add_succ_r in Hlast.
    + exfalso. apply (Hfail 0%nat); [lia|]. now rewrite Nat.add_0_r.
Qed.

Lemma get_db_connection_connects w k :
  (k < 5)%nat -> connects_at w k ->
  get_db_connection w = (Ok (Some (mkConn (w_attempts w + k))), connected w k).
Proof.
  intros Hk H. unfold get_db_connection.
  change (seq 0 5) with (seq 0 (5 - 0)). apply loop_connects; [lia | exact H].
Qed.

Lemma get_db_connection_gives_up w msg :
  (forall j, (j < 4)%nat -> w_connect w (w_attempts w + j) <> None) ->
  w_connect w (w_attempts w + 4) = Some msg ->
  get_db_connection w = (Raise (mkExn OperationalError msg), gave_up w).
Proof.
  intros Hfail Hlast. unfold get_db_connection.
  now rewrite (loop_gives_up 5 4 0 w msg).
Qed.

(** Every call ends in one of the two ways: it connects at some attempt
    below five, or the fifth attempt fails too. *)
Lemma connect_cases w :
  (exists k, (k < 5)%nat /\ connects_at w k) \/
  (exists msg, (forall j, (j < 4)%nat -> w_connect w (w_attempts w + j) <> None)
               /\ w_connect w (w_attempts w + 4) = Some msg).
Proof.
  unfold connects_at.
  destruct (w_connect w (w_attempts w + 0)) eqn:E0;
    [|left; exists 0%nat; repeat split; [lia | intros; lia | exact E0]].
  destruct (w_connect w (w_attempts w + 1)) eqn:E1;
    [|left; exists 1%nat; repeat split; [lia | | exact E1];
      intros j Hj; assert (j = 0)%nat as -> by lia; congruence].
  destruct (w_connect w (w_attempts w + 2)) eqn:E2;
    [|left; exists 2%nat; repeat split; [lia | | exact E2];
      intros j Hj;
      assert (j = 0 \/ j = 1)%nat as [-> | ->] by lia; congruence].
  destruct (w_connect w (w_attempts w + 3)) eqn:E3;
    [|left; exists 3%nat; repeat split; [lia | | exact E3];
      intros j Hj;
      assert (j = 0 \/ j = 1 \/ j = 2)%nat as [-> | [-> | ->]] by lia;
      congruence].
  destruct (w_connect w (w_attempts w + 4)) eqn:E4;
    [|left; exists 4%nat; repeat split; [lia | | exact E4];
      intros j Hj;
      assert (j = 0 \/ j = 1 \/ j = 2 \/ j = 3)%nat
        as [-> | [-> | [-> | ->]]] by lia;
      congruence].
  right. eexists. split; [|reflexivity].
  intros j Hj.
  assert (j = 0 \/ j = 1 \/ j = 2 \/ j = 3)%nat
    as [-> | [-> | [-> | ->]]] by lia; congruence.
Qed.

(** C8: [get_db_connection] opens a connection at the first attempt the
    server accepts, having slept 5 seconds after each failed attempt before
    it; it makes at most 5 attempts, and when the fifth fails as well it
    raises that attempt's error without sleeping again. *)
Theorem get_db_connection_retries (w : world) :
  (forall k, (k < 5)%nat -> connects_at w k ->
     get_db_connection w =
       (Ok (Some (mkConn (w_attempts w + k))), connected w k)) /\
  (forall msg,
     (forall j, (j < 4)%nat -> w_connect w (w_attempts w + j) <> None) ->
     w_connect w (w_attempts w + 4) = Some msg ->
     get_db_connection w = (Raise (mkExn OperationalError msg), gave_up w)) /\
  (w_attempts (snd (get_db_connection w)) <= w_attempts w + 5)%nat /\
  (fst (get_db_connection w) <> Ok None).
Proof.
  split; [exact (get_db_connection_connects w)|].
  split; [exact (get_db_connection_gives_up w)|].
  destruct (connect_cases w) as [(k & Hk & H) | (msg & Hf & Hl)].
  - rewrite (get_db_connection_connects w k Hk H). simpl. split; [lia|congruence].
  - rewrite (get_db_connection_gives_up w msg Hf Hl). simpl. split; [lia|congruence].
Qed.

Lemma get_db_connection_retries_witness :
  get_db_connection flaky_world =
    (Ok (Some (mkConn 2)), connected flaky_world 2) /\
  w_trace (snd (get_db_connection flaky_world)) =
    [EvConnect 0 false; EvSleep 5; EvConnect 1 false; EvSleep 5;
     EvConnect 2 true] /\
  get_db_connection down_world =
    (Raise (mkExn OperationalError "Can't connect to MySQL server"),
     gave_up down_world) /\
  w_trace (gave_up down_world) =
    [EvConnect 0 false; EvSleep 5; EvConnect 1 false; EvSleep 5;
     EvConnect 2 false; EvSleep 5; EvConnect 3 false; EvSleep 5;
     EvConnect 4 false].
Proof.
  split; [|split; [|split]].
  - apply (proj1 (get_db_connection_retries flaky_world) 2%nat); [lia|].
    split; [|reflexivity].
    intros j Hj. assert (j = 0 \/ j = 1)%nat as [-> | ->] by lia; discriminate.
  - reflexivity.
  - apply (proj1 (proj2 (get_db_connection_retries down_world))).
    + intros j _. discriminate.
    + reflexivity.
  - reflexivity.
Defined.

(** ** Validation of the request payload *)

Lemma first_missing_field_finds kvs field rest :
  dict_has field kvs = false ->
  forall present,
    Forall (fun f => dict_has f kvs = true) present ->
    first_missing_field (JDict kvs) (present ++ field :: rest) =
    Ok (Some field).
Proof.
  intros Hmiss present Hall.
  induction Hall as [|f present Hf _ IH]; simpl.
  - now rewrite Hmiss.
  - now rewrite Hf.
Qed.

Lemma truthy_dict kvs : kvs <> [] -> py_truthy (JDict kvs) = true.
Proof. destruct kvs; [congruence | reflexivity]. Qed.

(** C1: for a payload that is a non-empty object, [create_order] scans
    [customer_name], [customer_email], [customer_address], [total_amount],
    [items] in this order and answers 400 with the message that names the
    first of them that is not a key, whatever comes after it; nothing else
    happens. *)
Theorem create_order_names_first_missing_field
    (kvs : list (string * json)) (w : world)
    (present : list string) (field : string) (rest : list string) :
  kvs <> [] ->
  required_fields = (present ++ field :: rest)%list ->
  Forall (fun f => dict_has f kvs = true) present ->
  dict_has field kvs = false ->
  required_fields =
    ["customer_name"; "customer_email"; "customer_address"; "total_amount";
     "items"] /\
  create_order (JDict kvs) w =
    (Ok (jsonify_status
           [("error", JStr ("Missing required field: " ++ field))] 400),
     w).
Proof.
  intros Hne Hfields Hpresent Hmissing. split; [reflexivity|].
  unfold create_order, try_except, bind, lift.
  rewrite (truthy_dict kvs Hne). cbn [negb].
  rewrite Hfields, (first_missing_field_finds kvs field rest Hmissing present Hpresent).
  reflexivity.
Qed.

Lemma create_order_names_first_missing_field_witness :
  create_order
    (JDict [("customer_name", JStr "A"); ("customer_email", JStr "a@x.com");
            ("items", JList [JInt 1])])
    seeded_world =
  (Ok (jsonify_status
         [("error", JStr "Missing required field: customer_address")] 400),
   seeded_world).
Proof.
  apply (create_order_names_first_missing_field
           [("customer_name", JStr "A"); ("customer_email", JStr "a@x.com");
            ("items", JList [JInt 1])]
           seeded_world
           ["customer_name"; "customer_email"] "customer_address"
           ["total_amount"; "items"]).
  - discriminate.
  - reflexivity.
  - repeat constructor.
  - reflexivity.
Defined.

(** C4 as the code has it: the empty object is not a present payload, so
    [create_order] answers 400 "No data provided" before it looks at any
    field. *)
Theorem create_order_empty_payload (w : world) :
  create_order (JDict []) w =
  (Ok (jsonify_status [("error", JStr "No data provided")] 400), w).
Proof. reflexivity. Qed.

(** C4 as stated fails: the answer to the empty payload is no 400 whose
    message mentions [customer_name]. *)
Lemma create_order_empty_payload_names_no_field :
  ~ (exists msg,
        fst (create_order (JDict []) seeded_world) =
          Ok (jsonify_status [("error", JStr msg)] 400) /\
        is_substring "customer_name" msg = true).
Proof.
  intros (msg & Hresp & Hmention).
  rewrite create_order_empty_payload in Hresp. cbn [fst] in Hresp.
  injection Hresp as <-. vm_compute in Hmention. discriminate.
Qed.

(** C10: with a non-empty name and a price that is present but falsy (the
    number 0, the empty string, ...), [add_product] answers 400 "Name and
    price are required" and leaves the world, and so the catalog, as it
    was. *)
Theorem add_product_rejects_falsy_price
    (kvs : list (string * json)) (w : world) (name price : json) :
  dict_lookup "name" kvs = Some name ->
  py_truthy name = true ->
  dict_lookup "price" kvs = Some price ->
  py_truthy price = false ->
  add_product (JDict kvs) w =
  (Ok (jsonify_status [("error", JStr "Name and price are required")] 400), w).
Proof.
  intros Hname Htruthy Hprice Hfalsy.
  unfold add_product, try_except, bind, lift, py_get.
  rewrite Hname, Htruthy. cbn [negb]. rewrite Hprice, Hfalsy. reflexivity.
Qed.

Lemma add_product_rejects_falsy_price_witness :
  add_product (JDict [("name", JStr "Widget"); ("price", JInt 0)]) seeded_world =
    (Ok (jsonify_status [("error", JStr "Name and price are required")] 400),
     seeded_world) /\
  add_product (JDict [("name", JStr "Widget"); ("price", JStr "")]) seeded_world =
    (Ok (jsonify_status [("error", JStr "Name and price are required")] 400),
     seeded_world).
Proof.
  split.
  - apply (add_product_rejects_falsy_price _ _ (JStr "Widget") (JInt 0));
      reflexivity.
  - apply (add_product_rejects_falsy_price _ _ (JStr "Widget") (JStr ""));
      reflexivity.
Defined.

(** ** Statements on the connection that was opened last *)

Lemma bind_ok {A B} (m : M A) (k : A -> M B) w a w' :
  m w = (Ok a, w') -> bind m k w = k a w'.
Proof. unfold bind. now intros ->. Qed.

Lemma bind_raise {A B} (m : M A) (k : A -> M B) w e w' :
  m w = (Raise e, w') -> bind m k w = (Raise e, w').
Proof. unfold bind. now intros ->. Qed.

Lemma bind_lift_ok {A B} (a : A) (k : A -> M B) w :
  bind (lift (Ok a)) k w = k a w.
Proof. reflexivity. Qed.

Lemma bind_lift_raise {A B} (e : exn) (k : A -> M B) w :
  bind (lift (Raise e)) k w = (Raise e, w).
Proof. reflexivity. Qed.

Lemma bind_ret {A B} (a : A) (k : A -> M B) w : bind (ret a) k w = k a w.
Proof. reflexivity. Qed.

Section HeadConnection.
Variables (cf : nat -> option string) (at_ : nat) (now : timestamp)
          (db : database) (n : nat) (view : database)
          (others : list (nat * database)) (tr : list event).

Let w := mkWorld cf at_ now db ((n, view) :: others) tr.

Lemma run_statement_head {A}
    (stmt : timestamp -> database -> outcome (A * database)) :
  run_statement (mkConn n) stmt w =
  match stmt now view with
  | Raise e => (Raise e, w)
  | Ok (a, view') =>
      (Ok a, mkWorld cf at_ now db ((n, view') :: others) tr)
  end.
Proof.
  unfold run_statement, w. cbn. rewrite Nat.eqb_refl.
  destruct (stmt now view) as [[a view']|e]; reflexivity.
Qed.

Lemma run_ddl_head (stmt : database -> database) :
  run_ddl (mkConn n) stmt w =
  (Ok tt, mkWorld cf at_ now (stmt view) ((n, stmt view) :: others) tr).
Proof. unfold run_ddl, w. cbn. now rewrite Nat.eqb_refl. Qed.

Lemma conn_commit_head :
  conn_commit (Some (mkConn n)) w =
  (Ok tt, mkWorld cf at_ now view ((n, view) :: others)
                  (tr ++ [EvCommit n])).
Proof. unfold conn_commit, w. cbn. now rewrite Nat.eqb_refl. Qed.

Lemma conn_close_head :
  conn_close (Some (mkConn n)) w =
  (Ok tt, mkWorld cf at_ now db others (tr ++ [EvClose n])).
Proof. unfold conn_close, w. cbn. now rewrite Nat.eqb_refl. Qed.
End HeadConnection.


(** ** Adding a product *)

Lemma bind_args_cons v vs :
  bind_args (v :: vs) =
  match escape_item v with
  | Raise e => Raise e
  | Ok q =>
      match escape_args vs with
      | Raise e => Raise e
      | Ok qs =>
          match literal_value q with
          | Raise e => Raise e
          | Ok x =>
              match literal_values qs with
              | Raise e => Raise e
              | Ok xs => Ok (x :: xs)
              end
          end
      end
  end.
Proof.
  unfold bind_args. cbn [escape_args].
  destruct (escape_item v); [|reflexivity].
  destruct (escape_args vs); reflexivity.
Qed.

Lemma bind_args_ok_inv v vs xs :
  bind_args (v :: vs) = Ok xs ->
  exists x xs', xs = x :: xs' /\ bind_param v = Ok x /\ bind_args vs = Ok xs'.
Proof.
  rewrite bind_args_cons. unfold bind_param, bind_args.
  destruct (escape_item v) as [q|]; [|discriminate].
  destruct (escape_args vs) as [qs|]; [|discriminate].
  destruct (literal_value q) as [x|]; [|discriminate].
  destruct (literal_values qs) as [xs'|]; [|discriminate].
  intros [= <-]. now exists x, xs'.
Qed.

Lemma bind_args_nil_inv xs : bind_args [] = Ok xs -> xs = [].
Proof. cbn. now intros [= <-]. Qed.


Lemma bind_args_6_inv a b c d e f xs :
  bind_args [a; b; c; d; e; f] = Ok xs ->
  exists xa xb xc xd xe xf,
    xs = [xa; xb; xc; xd; xe; xf] /\
    bind_param a = Ok xa /\ bind_param b = Ok xb /\ bind_param c = Ok xc /\
    bind_param d = Ok xd /\ bind_param e = Ok xe /\ bind_param f = Ok xf.
Proof.
  intros H.
  apply bind_args_ok_inv in H as (xa & l1 & -> & Ha & H).
  apply bind_args_ok_inv in H as (xb & l2 & -> & Hb & H).
  apply bind_args_ok_inv in H as (xc & l3 & -> & Hc & H).
  apply bind_args_ok_inv in H as (xd & l4 & -> & Hd & H).
  apply bind_args_ok_inv in H as (xe & l5 & -> & He & H).
  apply bind_args_ok_inv in H as (xf & l6 & -> & Hf & H).
  apply bind_args_nil_inv in H as ->.
  now exists xa, xb, xc, xd, xe, xf.
Qed.

Section AddProductPaths.
Variables (kvs : list (string * json)) (w : world) (name price : json).
Hypothesis Hname : dict_lookup "name" kvs = Some name.
Hypothesis Hname_truthy : py_truthy name = true.
Hypothesis Hprice : dict_lookup "price" kvs = Some price.
Hypothesis Hprice_truthy : py_truthy price = true.

Ltac enter :=
  unfold add_product, try_except, bind, lift, ret, py_get, py_getitem;
  rewrite Hname, Hname_truthy, Hprice, Hprice_truthy; cbn [negb].

Lemma add_product_unreachable msg :
  (forall j, (j < 4)%nat -> w_connect w (w_attempts w + j) <> None) ->
  w_connect w (w_attempts w + 4) = Some msg ->
  add_product (JDict kvs) w =
  (Ok (jsonify_status [("error", JStr msg)] 500), gave_up w).
Proof.
  intros Hf Hl. enter.
  now rewrite (get_db_connection_gives_up w msg Hf Hl).
Qed.

Variable k : nat.
Hypothesis Hk : (k < 5)%nat.
Hypothesis Hconnects : connects_at w k.

Ltac connect :=
  enter; rewrite (get_db_connection_connects w k Hk Hconnects);
  unfold connected, conn_cursor, ret.

Lemma add_product_coercion_error e :
  py_float price = Raise e ->
  add_product (JDict kvs) w =
  (Ok (jsonify_status [("error", JStr (str_of_exn e))] 500), connected w k).
Proof. intros He. connect. now rewrite He. Qed.

Lemma add_product_binding_error f e :
  py_float price = Ok f ->
  bind_args (add_product_args kvs name f) = Raise e ->
  add_product (JDict kvs) w =
  (Ok (jsonify_status [("error", JStr (str_of_exn e))] 500), connected w k).
Proof.
  intros Hf He. connect. rewrite Hf.
  unfold execute_add_product. fold (param_or kvs "description" (JStr "")).
  fold (param_or kvs "image_url" JNull).
  fold (param_or kvs "category" (JStr "General")).
  fold (param_or kvs "stock_quantity" (JInt 10)).
  fold (add_product_args kvs name f). now rewrite He.
Qed.

Ltac bound f Hf Hb :=
  connect; rewrite Hf;
  unfold execute_add_product; fold (param_or kvs "description" (JStr ""));
  fold (param_or kvs "image_url" JNull);
  fold (param_or kvs "category" (JStr "General"));
  fold (param_or kvs "stock_quantity" (JInt 10));
  fold (add_product_args kvs name f); rewrite Hb;
  rewrite run_statement_head.

Lemma add_product_storage_error f n p d i c s e :
  py_float price = Ok f ->
  bind_args (add_product_args kvs name f) = Ok [n; p; d; i; c; s] ->
  insert_product (w_now w) (w_db w) n p d i c s = Raise e ->
  add_product (JDict kvs) w =
  (Ok (jsonify_status [("error", JStr (str_of_exn e))] 500), connected w k).
Proof. intros Hf Hb He. bound f Hf Hb. now rewrite He. Qed.

Lemma add_product_inserted f n p d i c s id db' :
  py_float price = Ok f ->
  bind_args (add_product_args kvs name f) = Ok [n; p; d; i; c; s] ->
  insert_product (w_now w) (w_db w) n p d i c s = Ok (id, db') ->
  add_product (JDict kvs) w =
  (Ok (jsonify [("message", JStr "Product added successfully");
                ("product_id", JInt id)]),
   committed w k db').
Proof.
  intros Hf Hb Hi. bound f Hf Hb. rewrite Hi.
  rewrite conn_commit_head, conn_close_head. unfold committed.
  now rewrite <- !app_assoc.
Qed.
End AddProductPaths.

Lemma add_product_rejected kvs w :
  py_truthy (param_or kvs "name" JNull)
    && py_truthy (param_or kvs "price" JNull) = false ->
  add_product (JDict kvs) w =
  (Ok (jsonify_status [("error", JStr "Name and price are required")] 400), w).
Proof.
  intros H. unfold add_product, try_except, bind, lift, ret, py_get.
  fold (param_or kvs "name" JNull). fold (param_or kvs "price" JNull).
  destruct (py_truthy (param_or kvs "name" JNull)); cbn [negb andb] in *;
    [|reflexivity].
  now rewrite H.
Qed.

Lemma truthy_param_present kvs key :
  py_truthy (param_or kvs key JNull) = true ->
  exists v, dict_lookup key kvs = Some v /\ py_truthy v = true.
Proof.
  unfold param_or. destruct (dict_lookup key kvs) as [v|]; [|discriminate].
  intros H. now exists v.
Qed.

Lemma insert_product_ok_inv now db n p d i c s id db' :
  insert_product now db n p d i c s = Ok (id, db') ->
  exists t,
    db_products db = Some t /\ id = t_next_id t /\
    db' = set_products db
            (mkTable (t_rows t ++ [mkProduct id n d p i c s now]) (id + 1)).
Proof.
  unfold insert_product.
  destruct (db_products db) as [t|]; [|discriminate].
  destruct (not_null "name" n); [|discriminate].
  destruct (not_null "price" p); [|discriminate].
  intros [= <- <-]. now exists t.
Qed.

Lemma bind_param_float f p : bind_param (JFloat f) = Ok p -> p = SqlFloat f.
Proof.
  unfold bind_param. destruct f as [|[]|neg ds decpt]; cbn;
    congruence.
Qed.



(** ** Creating an order *)

Lemma bind_args_7_inv a b c d e f g xs :
  bind_args [a; b; c; d; e; f; g] = Ok xs ->
  exists xa xb xc xd xe xf xg,
    xs = [xa; xb; xc; xd; xe; xf; xg] /\
    bind_param a = Ok xa /\ bind_param b = Ok xb /\ bind_param c = Ok xc /\
    bind_param d = Ok xd /\ bind_param e = Ok xe /\ bind_param f = Ok xf /\
    bind_param g = Ok xg.
Proof.
  intros H.
  apply bind_args_ok_inv in H as (xa & l1 & -> & Ha & H).
  apply bind_args_6_inv in H
    as (xb & xc & xd & xe & xf & xg & -> & Hb & Hc & Hd & He & Hf & Hg).
  now exists xa, xb, xc, xd, xe, xf, xg.
Qed.

Section CreateOrderPaths.
Variables (kvs : list (string * json)) (w : world).
Variables (name email address total item : json) (items : list json).
Hypothesis Hname : dict_lookup "customer_name" kvs = Some name.
Hypothesis Hemail : dict_lookup "customer_email" kvs = Some email.
Hypothesis Haddress : dict_lookup "customer_address" kvs = Some address.
Hypothesis Htotal : dict_lookup "total_amount" kvs = Some total.
Hypothesis Hitems : dict_lookup "items" kvs = Some (JList (item :: items)).

Lemma payload_truthy : py_truthy (JDict kvs) = true.
Proof. destruct kvs; [discriminate Hname | reflexivity]. Qed.

Lemma no_field_missing :
  first_missing_field (JDict kvs) required_fields = Ok None.
Proof.
  unfold required_fields, first_missing_field, py_contains, dict_has.
  now rewrite Hname, Hemail, Haddress, Htotal, Hitems.
Qed.

Ltac enter :=
  unfold create_order, try_except, bind, lift, ret;
  rewrite payload_truthy, no_field_missing; cbn [negb];
  unfold py_getitem, py_get; rewrite Hitems; cbn [is_nonempty_list negb].

Lemma create_order_unreachable msg :
  (forall j, (j < 4)%nat -> w_connect w (w_attempts w + j) <> None) ->
  w_connect w (w_attempts w + 4) = Some msg ->
  create_order (JDict kvs) w =
  (Ok (jsonify_status [("error", JStr msg)] 500), gave_up w).
Proof.
  intros Hf Hl. enter.
  now rewrite (get_db_connection_gives_up w msg Hf Hl).
Qed.

Variable k : nat.
Hypothesis Hk : (k < 5)%nat.
Hypothesis Hconnects : connects_at w k.

Ltac connect :=
  enter; rewrite (get_db_connection_connects w k Hk Hconnects);
  unfold connected, conn_cursor, ret;
  rewrite Hname, Hemail, Haddress, Htotal.

Lemma create_order_coercion_error e :
  py_float total = Raise e ->
  create_order (JDict kvs) w =
  (Ok (jsonify_status [("error", JStr (str_of_exn e))] 500), connected w k).
Proof. intros He. connect. now rewrite He. Qed.

Ltac bound f Hf :=
  connect; rewrite Hf; unfold execute_insert_order;
  fold (param_or kvs "customer_phone" (JStr ""));
  fold (create_order_args kvs name email address f (JList (item :: items))).

Lemma create_order_binding_error f e :
  py_float total = Ok f ->
  bind_args (create_order_args kvs name email address f
               (JList (item :: items))) = Raise e ->
  create_order (JDict kvs) w =
  (Ok (jsonify_status [("error", JStr (str_of_exn e))] 500), connected w k).
Proof. intros Hf He. bound f Hf. now rewrite He. Qed.

Lemma create_order_storage_error f n m p a t i s e :
  py_float total = Ok f ->
  bind_args (create_order_args kvs name email address f
               (JList (item :: items))) = Ok [n; m; p; a; t; i; s] ->
  insert_order (w_now w) (w_db w) n m p a t i s = Raise e ->
  create_order (JDict kvs) w =
  (Ok (jsonify_status [("error", JStr (str_of_exn e))] 500), connected w k).
Proof.
  intros Hf Hb He. bound f Hf. rewrite Hb, run_statement_head.
  now rewrite He.
Qed.

Lemma create_order_inserted f n m p a t i s id db' :
  py_float total = Ok f ->
  bind_args (create_order_args kvs name email address f
               (JList (item :: items))) = Ok [n; m; p; a; t; i; s] ->
  insert_order (w_now w) (w_db w) n m p a t i s = Ok (id, db') ->
  create_order (JDict kvs) w =
  (Ok (jsonify [("order_id", JInt id);
                ("message", JStr "Order created successfully");
                ("status", JStr "pending")]),
   committed w k db').
Proof.
  intros Hf Hb Hi. bound f Hf. rewrite Hb, run_statement_head, Hi.
  rewrite conn_commit_head, conn_close_head. unfold committed.
  now rewrite <- !app_assoc.
Qed.
End CreateOrderPaths.

(** ** Values that cannot be coerced to a number *)




(** ** Release of the connection *)


(** ** Bootstrap *)

Lemma seed_products_head cf at_ now db n others tr rows next os :
  executemany_seed_product (mkConn n) sample_products
    (mkWorld cf at_ now db
       ((n, mkDb (Some (mkTable rows next)) os) :: others) tr) =
  (Ok tt,
   mkWorld cf at_ now db
     ((n, mkDb (Some (mkTable (rows ++ seed_rows next now) (next + 4))) os)
        :: others) tr).
Proof.
  unfold sample_products.
  cbn [executemany_seed_product]. unfold bind, execute_seed_product, ret.
  cbn [bind_args escape_args escape_item literal_values literal_value
       price_1999_99 price_999_99 price_299_99 price_24_99].
  rewrite run_statement_head. cbn [insert_product db_products not_null t_rows t_next_id set_products db_orders].
  rewrite run_statement_head. cbn [insert_product db_products not_null t_rows t_next_id set_products db_orders].
  rewrite run_statement_head. cbn [insert_product db_products not_null t_rows t_next_id set_products db_orders].
  rewrite run_statement_head. cbn [insert_product db_products not_null t_rows t_next_id set_products db_orders].
  rewrite <- !app_assoc. cbn [app seed_rows].
  replace (next + 1 + 1) with (next + 2) by lia.
  replace (next + 2 + 1) with (next + 3) by lia.
  replace (next + 3 + 1) with (next + 4) by lia.
  reflexivity.
Qed.

Lemma init_db_connected w k :
  (k < 5)%nat -> connects_at w k ->
  init_db w = (Ok tt, committed w k (bootstrapped (w_now w) (w_db w))).
Proof.
  intros Hk Hc.
  unfold init_db. rewrite (get_db_connection_connects w k Hk Hc).
  unfold try_finally, try_except, init_db_body, bind, conn_cursor, ret, connected.
  rewrite run_ddl_head, run_ddl_head. unfold count_products.
  rewrite run_statement_head. unfold bootstrapped, committed.
  destruct (w_db w) as [ps os].
  destruct ps as [[[|row rows] next]|]; destruct os as [ot|];
    unfold create_products_if_absent, create_orders_if_absent, set_products,
      set_orders, empty_table;
    cbn [db_products db_orders t_rows t_next_id List.length].
  1, 2, 5, 6:
    change (Z.of_nat 0 =? 0) with true; cbv beta iota;
    rewrite seed_products_head, conn_commit_head, conn_close_head,
      <- !app_assoc; reflexivity.
  all:
    replace (Z.of_nat (S (List.length rows)) =? 0) with false
      by (symmetry; apply Z.eqb_neq; lia);
    unfold ret;
    rewrite conn_commit_head, conn_close_head, <- !app_assoc; reflexivity.
Qed.

Lemma init_db_unreachable w msg :
  (forall j, (j < 4)%nat -> w_connect w (w_attempts w + j) <> None) ->
  w_connect w (w_attempts w + 4) = Some msg ->
  init_db w = (Ok tt, gave_up w).
Proof.
  intros Hf Hl. unfold init_db.
  now rewrite (get_db_connection_gives_up w msg Hf Hl).
Qed.

(** [init_db] releases its connection on every path. *)
Lemma init_db_releases w : w_open (snd (init_db w)) = w_open w.
Proof.
  destruct (connect_cases w) as [(k & Hk & Hc) | (msg & Hf & Hl)].
  - now rewrite (init_db_connected w k Hk Hc).
  - now rewrite (init_db_unreachable w msg Hf Hl).
Qed.

Lemma bootstrapped_products now db :
  db_products (bootstrapped now db) =
  Some match db_products db with
       | Some (mkTable (r :: rows) next) => mkTable (r :: rows) next
       | Some (mkTable [] next) => mkTable (seed_rows next now) (next + 4)
       | None => mkTable (seed_rows 1 now) (1 + 4)
       end.
Proof.
  destruct db as [ps os]. unfold bootstrapped.
  destruct ps as [[[|r rows] next]|]; destruct os as [ot|]; reflexivity.
Qed.

Lemma bootstrapped_again now now' db :
  db_products (bootstrapped now' (bootstrapped now db)) =
  db_products (bootstrapped now db).
Proof.
  rewrite (bootstrapped_products now' (bootstrapped now db)).
  rewrite (bootstrapped_products now db).
  destruct (db_products db) as [[[|r rows] next]|]; reflexivity.
Qed.

(** C7: a bootstrap that reaches the server leaves a products table that
    holds exactly the four seed rows when it found no product, and exactly
    the rows it found when it found some; so a second bootstrap changes no
    product row. *)
Theorem init_db_seeds_only_empty_catalog (w : world) (k : nat) :
  (k < 5)%nat -> connects_at w k ->
  let w1 := snd (init_db w) in
  (product_rows w = [] ->
   product_rows w1 = seed_rows (next_product_id w) (w_now w) /\
   List.length (product_rows w1) = 4%nat) /\
  (product_rows w <> [] -> products_of w1 = products_of w) /\
  (product_rows w1 = (product_rows w ++ seed_rows (next_product_id w) (w_now w))%list
   <-> product_rows w = []) /\
  (forall k2, (k2 < 5)%nat -> connects_at w1 k2 ->
     products_of (snd (init_db w1)) = products_of w1) /\
  w_open w1 = w_open w.
Proof.
  intros Hk Hc w1.
  assert (Hw1 : w1 = committed w k (bootstrapped (w_now w) (w_db w)))
    by (unfold w1; now rewrite (init_db_connected w k Hk Hc)).
  assert (Hagain : forall k2, (k2 < 5)%nat -> connects_at w1 k2 ->
            products_of (snd (init_db w1)) = products_of w1).
  { intros k2 Hk2 Hc2. rewrite (init_db_connected w1 k2 Hk2 Hc2).
    rewrite Hw1. unfold products_of. cbn [snd committed w_db w_now].
    apply bootstrapped_again. }
  split; [|split; [|split; [|split; [exact Hagain|]]]].
  all: rewrite Hw1; unfold product_rows, next_product_id, products_of;
    cbn [committed w_db w_open]; try reflexivity;
    rewrite bootstrapped_products;
    destruct (db_products (w_db w)) as [[[|r rows] next]|];
    cbn [t_rows t_next_id].
  all: try (intros _; split; reflexivity).
  all: try (intros H; congruence).
  all: try (split; intros H; try reflexivity; try discriminate).
  exfalso. apply (f_equal (@List.length product)) in H.
  rewrite length_app in H. cbn in H. lia.
Qed.

Lemma init_db_seeds_only_empty_catalog_witness :
  product_rows seeded_world = seed_rows 1 noon /\
  List.length (product_rows seeded_world) = 4%nat /\
  products_of (snd (init_db seeded_world)) = products_of seeded_world.
Proof.
  assert (Hc : connects_at fresh_world 0)
    by (split; [intros j Hj; lia | reflexivity]).
  destruct (init_db_seeds_only_empty_catalog fresh_world 0 ltac:(lia) Hc)
    as (Hseed & _ & _ & Hagain & _).
  destruct (Hseed eq_refl) as [Hrows Hlen].
  split; [exact Hrows | split; [exact Hlen|]].
  apply (Hagain 0%nat); [lia|].
  split; [intros j Hj; lia | reflexivity].
Defined.

(** ** Listings: order and date format *)

Lemma ts_compare_lex a b :
  ts_compare a b = lex_compare (ts_fields a) (ts_fields b).
Proof.
  unfold ts_compare, ts_fields. cbn [lex_compare].
  destruct (ts_year a ?= ts_year b); try reflexivity.
  destruct (ts_month a ?= ts_month b); try reflexivity.
  destruct (ts_day a ?= ts_day b); try reflexivity.
  destruct (ts_hour a ?= ts_hour b); try reflexivity.
  destruct (ts_minute a ?= ts_minute b); try reflexivity.
  destruct (ts_second a ?= ts_second b); reflexivity.
Qed.

Lemma lex_compare_antisym : forall a b,
  lex_compare b a = CompOpp (lex_compare a b).
Proof.
  induction a as [|x a IH]; intros [|y b]; try reflexivity.
  cbn [lex_compare]. rewrite (Z.compare_antisym x y).
  destruct (x ?= y); cbn [CompOpp]; auto.
Qed.

Lemma lex_compare_trans_le : forall a b c,
  lex_compare a b <> Gt -> lex_compare b c <> Gt -> lex_compare a c <> Gt.
Proof.
  induction a as [|x a IH]; intros [|y b] [|z c]; cbn [lex_compare];
    try congruence.
  destruct (Z.compare_spec x y), (Z.compare_spec y z), (Z.compare_spec x z);
    try congruence; try lia; subst.
  apply IH.
Qed.

Lemma ts_leb_total a b : ts_leb a b = false -> ts_leb b a = true.
Proof.
  unfold ts_leb. rewrite !ts_compare_lex.
  rewrite (lex_compare_antisym (ts_fields a) (ts_fields b)).
  destruct (lex_compare (ts_fields a) (ts_fields b)); cbn; congruence.
Qed.

Lemma ts_leb_trans a b c :
  ts_leb a b = true -> ts_leb b c = true -> ts_leb a c = true.
Proof.
  unfold ts_leb. rewrite !ts_compare_lex. intros Hab Hbc.
  pose proof (lex_compare_trans_le (ts_fields a) (ts_fields b) (ts_fields c)) as H.
  destruct (lex_compare (ts_fields a) (ts_fields b)); try discriminate;
    destruct (lex_compare (ts_fields b) (ts_fields c)); try discriminate;
    destruct (lex_compare (ts_fields a) (ts_fields c)); try reflexivity;
    exfalso; apply H; congruence.
Qed.

Section OrderByFacts.
Context {A : Type} (created_at : A -> timestamp).

Lemma insert_desc_perm x : forall l,
  Permutation (insert_desc created_at x l) (x :: l).
Proof.
  induction l as [|y l IH]; cbn [insert_desc]; [reflexivity|].
  destruct (ts_leb (created_at y) (created_at x)); [reflexivity|].
  rewrite IH. apply perm_swap.
Qed.

Lemma order_by_perm : forall l,
  Permutation (order_by_created_at_desc created_at l) l.
Proof.
  induction l as [|x l IH]; cbn [order_by_created_at_desc]; [reflexivity|].
  rewrite insert_desc_perm. now constructor.
Qed.

Lemma insert_desc_sorted x : forall l,
  newest_first (map created_at l) ->
  newest_first (map created_at (insert_desc created_at x l)).
Proof.
  unfold newest_first.
  induction l as [|y l IH]; cbn [insert_desc map]; intros Hs.
  - repeat constructor.
  - inversion Hs as [|? ? Hl Hy]; subst.
    destruct (ts_leb (created_at y) (created_at x)) eqn:E; cbn [map].
    + constructor; [exact Hs|]. constructor; [exact E|].
      rewrite Forall_forall in Hy |- *. intros z Hz.
      exact (ts_leb_trans _ _ _ (Hy z Hz) E).
    + constructor; [exact (IH Hl)|].
      rewrite Forall_forall in Hy |- *. intros z Hz.
      apply in_map_iff in Hz as (e & <- & He).
      apply (Permutation_in _ (insert_desc_perm x l)) in He.
      destruct He as [<- | He].
      * exact (ts_leb_total _ _ E).
      * apply Hy. now apply in_map.
Qed.

Lemma order_by_sorted : forall l,
  newest_first (map created_at (order_by_created_at_desc created_at l)).
Proof.
  induction l as [|x l IH]; cbn [order_by_created_at_desc].
  - constructor.
  - now apply insert_desc_sorted.
Qed.
End OrderByFacts.

Lemma check_below (P : Z -> bool) (bound : Z) :
  forallb (fun i => P (Z.of_nat i)) (seq 0 (Z.to_nat bound)) = true ->
  forall n, 0 <= n < bound -> P n = true.
Proof.
  intros H n Hn. rewrite forallb_forall in H.
  specialize (H (Z.to_nat n)). rewrite Z2Nat.id in H by lia.
  apply H, in_seq. lia.
Qed.

Lemma zero_pad_2_shape n :
  0 <= n <= 99 -> matches_pattern "dd" (zero_pad 2 n) = true.
Proof.
  intros Hn.
  apply (check_below (fun n => matches_pattern "dd" (zero_pad 2 n)) 100);
    [vm_compute; reflexivity | lia].
Qed.

Lemma zero_pad_4_shape n :
  0 <= n <= 9999 -> matches_pattern "dddd" (zero_pad 4 n) = true.
Proof.
  intros Hn.
  apply (check_below (fun n => matches_pattern "dddd" (zero_pad 4 n)) 10000);
    [vm_compute; reflexivity | lia].
Qed.

Lemma matches_pattern_app : forall p1 s1 p2 s2,
  matches_pattern p1 s1 = true -> matches_pattern p2 s2 = true ->
  matches_pattern (p1 ++ p2) (s1 ++ s2) = true.
Proof.
  induction p1 as [|p p1 IH]; intros [|c s1] p2 s2 H1 H2;
    cbn [matches_pattern append] in *; try discriminate; [exact H2|].
  apply andb_true_iff in H1 as [Hc H1].
  rewrite Hc. cbn [andb]. now apply IH.
Qed.

Lemma date_format_shape t :
  valid_timestamp t = true ->
  matches_pattern "dddd-dd-dd dd:dd:dd" (date_format t) = true.
Proof.
  unfold valid_timestamp. rewrite !andb_true_iff, !Z.leb_le.
  intros H. decompose [and] H. clear H.
  change "dddd-dd-dd dd:dd:dd"
    with ("dddd" ++ "-" ++ "dd" ++ "-" ++ "dd" ++ " " ++ "dd" ++ ":" ++ "dd"
            ++ ":" ++ "dd").
  unfold date_format.
  repeat (apply matches_pattern_app;
          [first [ apply zero_pad_4_shape; lia | apply zero_pad_2_shape; lia
                 | reflexivity ] |]).
  apply zero_pad_2_shape; lia.
Qed.

Lemma parse_items_ok_inv : forall l l',
  parse_items l = Ok l' -> Forall2 items_parsed l l'.
Proof.
  induction l as [|r l IH]; intros l' H; cbn [parse_items] in H.
  - injection H as <-. constructor.
  - destruct (or_items r) as [s|v] eqn:Hitems.
    + destruct (json_loads s) as [v|e] eqn:Hloads; [|discriminate].
      destruct (parse_items l) as [rest|e]; [|discriminate].
      injection H as <-. constructor; [|now apply IH].
      unfold items_parsed. rewrite Hitems. now exists v.
    + destruct (parse_items l) as [rest|e]; [|discriminate].
      injection H as <-. constructor; [|now apply IH].
      unfold items_parsed. now rewrite Hitems.
Qed.

Lemma items_parsed_keeps r r' :
  items_parsed r r' ->
  or_id r' = or_id r /\ or_created_at r' = or_created_at r /\
  or_order_date r' = or_order_date r /\ or_status r' = or_status r.
Proof.
  unfold items_parsed. destruct (or_items r).
  - intros (v & _ & ->). now repeat split.
  - intros ->. now repeat split.
Qed.

Lemma items_parsed_map {B} (f : order_row -> B) l l' :
  (forall r r', items_parsed r r' -> f r' = f r) ->
  Forall2 items_parsed l l' -> map f l' = map f l.
Proof.
  intros Hf H. induction H as [|r r' l l' Hr _ IH]; cbn [map]; [reflexivity|].
  now rewrite IH, (Hf r r' Hr).
Qed.

Section ListingPaths.
Variable w : world.

Lemma get_products_unreachable msg :
  (forall j, (j < 4)%nat -> w_connect w (w_attempts w + j) <> None) ->
  w_connect w (w_attempts w + 4) = Some msg ->
  get_products w =
  (Ok (jsonify_status [("error", JStr msg)] 500), gave_up w).
Proof.
  intros Hf Hl. unfold get_products, try_except, bind.
  now rewrite (get_db_connection_gives_up w msg Hf Hl).
Qed.

Lemma get_orders_unreachable msg :
  (forall j, (j < 4)%nat -> w_connect w (w_attempts w + j) <> None) ->
  w_connect w (w_attempts w + 4) = Some msg ->
  get_orders w =
  (Ok (jsonify_status [("error", JStr msg)] 500), gave_up w).
Proof.
  intros Hf Hl. unfold get_orders, try_except, bind.
  now rewrite (get_db_connection_gives_up w msg Hf Hl).
Qed.

Variable k : nat.
Hypothesis Hk : (k < 5)%nat.
Hypothesis Hconnects : connects_at w k.

Lemma get_products_connected :
  get_products w =
  match products_of w with
  | Some t =>
      (Ok (mkResponse 200
             (BProducts (order_by_created_at_desc p_created_at (t_rows t)))),
       released w k)
  | None =>
      (Ok (jsonify_status
             [("error", JStr "Table 'e_commerce_db.products' doesn't exist")]
             500),
       connected w k)
  end.
Proof.
  unfold get_products, try_except, bind.
  rewrite (get_db_connection_connects w k Hk Hconnects).
  unfold connected, conn_cursor, ret, select_products.
  rewrite run_statement_head. unfold products_of.
  destruct (db_products (w_db w)) as [t|]; [|reflexivity].
  rewrite conn_close_head. unfold released. now rewrite <- !app_assoc.
Qed.

Lemma get_orders_connected :
  get_orders w =
  match orders_of w with
  | Some t =>
      match parse_items
              (map fetch_order
                   (order_by_created_at_desc o_created_at (t_rows t))) with
      | Ok rows => (Ok (mkResponse 200 (BOrders rows)), released w k)
      | Raise e =>
          (Ok (jsonify_status [("error", JStr (str_of_exn e))] 500),
           connected w k)
      end
  | None =>
      (Ok (jsonify_status
             [("error", JStr "Table 'e_commerce_db.orders' doesn't exist")]
             500),
       connected w k)
  end.
Proof.
  unfold get_orders, try_except, bind.
  rewrite (get_db_connection_connects w k Hk Hconnects).
  unfold connected, conn_cursor, ret, select_orders.
  rewrite run_statement_head. unfold orders_of, lift.
  destruct (db_orders (w_db w)) as [t|]; [|reflexivity].
  destruct (parse_items _) as [rows|e]; [|reflexivity].
  rewrite conn_close_head. unfold released. now rewrite <- !app_assoc.
Qed.
End ListingPaths.


(** ** Decimal digits *)

Lemma digit_char_is_digit d : (d < 10)%nat -> is_digit (digit_char d) = true.
Proof.
  intros H. do 10 (destruct d as [|d]; [reflexivity|]). lia.
Qed.

Lemma digit_val_char d : (d < 10)%nat -> digit_val (digit_char d) = d.
Proof.
  intros H. do 10 (destruct d as [|d]; [reflexivity|]). lia.
Qed.

Lemma string_of_digits_app ds1 ds2 :
  string_of_digits (ds1 ++ ds2) = string_of_digits ds1 ++ string_of_digits ds2.
Proof. induction ds1 as [|d ds1 IH]; cbn; [reflexivity | now rewrite IH]. Qed.

Lemma append_assoc (a b c : string) : (a ++ b) ++ c = a ++ (b ++ c).
Proof. induction a as [|x a IH]; cbn; [reflexivity | now rewrite IH]. Qed.

Lemma no_digit_start (rest : string) :
  match rest with
  | EmptyString => True
  | String c _ => is_digit c = false
  end ->
  scan_digits rest = ([], rest).
Proof. destruct rest as [|c r]; cbn; [reflexivity | now intros ->]. Qed.

Lemma ends_token_no_digit rest :
  ends_token rest ->
  match rest with
  | EmptyString => True
  | String c _ => is_digit c = false
  end.
Proof. destruct rest; cbn; [trivial | now intros (H & _)]. Qed.

Lemma scan_digits_string ds rest :
  digits_ok ds ->
  match rest with
  | EmptyString => True
  | String c _ => is_digit c = false
  end ->
  scan_digits (string_of_digits ds ++ rest) = (ds, rest).
Proof.
  intros Hds Hrest. induction Hds as [|d ds Hd _ IH]; cbn [string_of_digits append].
  - now apply no_digit_start.
  - cbn [scan_digits]. rewrite (digit_char_is_digit d Hd), IH.
    now rewrite (digit_val_char d Hd).
Qed.

Lemma digits_of_uint_ok u : digits_ok (digits_of_uint u).
Proof. induction u; cbn; constructor; try lia; assumption. Qed.

Lemma uint_of_digits_of_uint u : uint_of_digits (digits_of_uint u) = u.
Proof. induction u; cbn; now rewrite ?IHu. Qed.

Lemma digits_of_N_ok n : digits_ok (digits_of_N n).
Proof. apply digits_of_uint_ok. Qed.

Lemma N_of_digits_of_N n : N_of_digits (digits_of_N n) = n.
Proof.
  unfold N_of_digits, digits_of_N. rewrite uint_of_digits_of_uint.
  apply DecimalN.Unsigned.of_to.
Qed.

Lemma digits_of_nzhead u :
  digits_of_uint (Decimal.nzhead u) = strip_leading_zeros (digits_of_uint u).
Proof. induction u; cbn; auto. Qed.

Lemma strip_leading_zeros_length ds :
  (List.length (strip_leading_zeros ds) <= List.length ds)%nat.
Proof.
  induction ds as [|d ds IH]; cbn; [lia|].
  destruct d; cbn; lia.
Qed.

Lemma strip_leading_zeros_fixed ds :
  strip_leading_zeros ds = ds -> hd 1%nat ds <> 0%nat.
Proof.
  destruct ds as [|d ds]; cbn; [lia|].
  destruct d; [|lia]. intros H.
  pose proof (strip_leading_zeros_length ds) as Hl. rewrite H in Hl.
  cbn in Hl. lia.
Qed.

(** The digits of a number: a single 0 or no leading 0. *)
Lemma digits_of_N_normal n :
  digits_of_N n = [0%nat] \/
  (digits_of_N n <> [] /\ hd 1%nat (digits_of_N n) <> 0%nat).
Proof.
  unfold digits_of_N.
  assert (Hnorm : Decimal.unorm (N.to_uint n) = N.to_uint n).
  { rewrite <- (DecimalN.Unsigned.of_to n) at 2.
    now rewrite DecimalN.Unsigned.to_of. }
  unfold Decimal.unorm in Hnorm.
  destruct (Decimal.nzhead (N.to_uint n)) eqn:Hnz.
  { left. now rewrite <- Hnorm. }
  all: right; rewrite <- Hnz in Hnorm;
    apply (f_equal digits_of_uint) in Hnorm;
    rewrite digits_of_nzhead in Hnorm; split;
    [ rewrite <- Hnorm, <- digits_of_nzhead, Hnz; discriminate
    | now apply strip_leading_zeros_fixed ].
Qed.

(** ** Numbers in a document *)

Lemma digit_char_not_zero d :
  (d < 10)%nat -> d <> 0%nat -> Ascii.eqb (digit_char d) "0"%char = false.
Proof.
  intros H Hz. do 10 (destruct d as [|d]; [try reflexivity; congruence|]). lia.
Qed.

Lemma scan_int_part_digits ds rest :
  digits_ok ds ->
  ds = [0%nat] \/ hd 0%nat ds <> 0%nat ->
  match rest with
  | EmptyString => True
  | String c _ => is_digit c = false
  end ->
  scan_int_part (string_of_digits ds ++ rest) = Some (ds, rest).
Proof.
  intros Hok Hnorm Hrest. destruct Hnorm as [-> | Hhd]; [reflexivity|].
  destruct ds as [|d ds]; [cbn in Hhd; congruence|]. cbn [hd] in Hhd.
  pose proof (Forall_inv Hok) as Hd.
  unfold scan_int_part. cbn [string_of_digits append].
  rewrite (digit_char_is_digit d Hd), (digit_char_not_zero d Hd Hhd).
  change (String (digit_char d) (string_of_digits ds ++ rest))
    with (string_of_digits (d :: ds) ++ rest).
  now rewrite scan_digits_string.
Qed.

Lemma scan_fraction_none rest : ends_token rest -> scan_fraction rest = None.
Proof.
  destruct rest as [|c r]; [reflexivity|]. intros (_ & Hdot & _).
  destruct c as [[] [] [] [] [] [] [] []]; try reflexivity.
  now contradiction Hdot.
Qed.

Lemma scan_exponent_none scan rest :
  ends_token rest -> scan_exponent scan rest = None.
Proof.
  destruct rest as [|c r]; [reflexivity|]. intros (_ & _ & He & HE).
  unfold scan_exponent.
  destruct (Ascii.eqb c "e") eqn:E1; [apply Ascii.eqb_eq in E1; contradiction|].
  destruct (Ascii.eqb c "E") eqn:E2; [apply Ascii.eqb_eq in E2; contradiction|].
  reflexivity.
Qed.

Lemma scan_fraction_digits fp rest :
  digits_ok fp -> fp <> [] ->
  match rest with
  | EmptyString => True
  | String c _ => is_digit c = false
  end ->
  scan_fraction (String "."%char (string_of_digits fp ++ rest)) = Some (fp, rest).
Proof.
  intros Hok Hne Hrest. unfold scan_fraction.
  rewrite scan_digits_string by assumption.
  destruct fp; [congruence | reflexivity].
Qed.

Lemma N_of_digits_zero_head ds : N_of_digits (0%nat :: ds) = N_of_digits ds.
Proof.
  unfold N_of_digits. cbn [uint_of_digits].
  rewrite <- (DecimalN.Unsigned.of_uint_norm (Decimal.D0 _)).
  rewrite <- (DecimalN.Unsigned.of_uint_norm (uint_of_digits ds)).
  reflexivity.
Qed.

Lemma N_of_digits_pad2 ds : N_of_digits (pad2 ds) = N_of_digits ds.
Proof.
  destruct ds as [|d [|d' ds]]; cbn [pad2];
    first [reflexivity | apply N_of_digits_zero_head].
Qed.

Lemma pad2_ok ds : digits_ok ds -> digits_ok (pad2 ds).
Proof.
  intros H. destruct ds as [|d [|d' ds]]; cbn [pad2]; try assumption.
  constructor; [lia | assumption].
Qed.

Lemma pad2_nonempty ds : ds <> [] -> pad2 ds <> [].
Proof. destruct ds as [|d [|d' ds]]; cbn [pad2]; congruence. Qed.

Lemma digits_of_N_nonempty n : digits_of_N n <> [].
Proof.
  destruct (digits_of_N_normal n) as [-> | [H _]]; [discriminate | exact H].
Qed.

(** The exponent that [repr] writes is read back. *)
Lemma scan_exponent_repr e rest :
  match rest with
  | EmptyString => True
  | String c _ => is_digit c = false
  end ->
  scan_exponent scan_digits
    ("e" ++ (if e <? 0 then "-" else "+")
         ++ string_of_digits (pad2 (digits_of_N (Z.abs_N e))) ++ rest)
  = Some (e, rest).
Proof.
  intros Hrest. cbn [append]. unfold scan_exponent.
  change (Ascii.eqb "e" "e" || Ascii.eqb "e" "E")%bool with true. cbv iota.
  assert (Hscan : scan_digits
            (string_of_digits (pad2 (digits_of_N (Z.abs_N e))) ++ rest)
          = (pad2 (digits_of_N (Z.abs_N e)), rest)).
  { apply scan_digits_string; [|exact Hrest].
    apply pad2_ok, digits_of_N_ok. }
  pose proof (pad2_nonempty _ (digits_of_N_nonempty (Z.abs_N e))) as Hne.
  destruct (e <? 0) eqn:Hneg; cbn [append scan_sign]; rewrite Hscan;
    destruct (pad2 (digits_of_N (Z.abs_N e))) as [|d ds] eqn:Hp;
    try congruence; rewrite <- Hp, N_of_digits_pad2, N_of_digits_of_N;
    f_equal; f_equal.
  - apply Z.ltb_lt in Hneg. lia.
  - apply Z.ltb_ge in Hneg. lia.
Qed.

(** An [int] written by [str] is read back, when what follows continues no
    number. *)
Lemma parse_number_int n rest :
  ends_token rest ->
  parse_number (int_repr n ++ rest) = Some (JInt n, rest).
Proof.
  intros Hrest. pose proof (ends_token_no_digit rest Hrest) as Hnd.
  assert (Hbody : forall neg,
            parse_number_body neg
              (string_of_digits (digits_of_N (Z.abs_N n)) ++ rest) =
            Some (JInt (if neg then - Z.of_N (Z.abs_N n) else Z.of_N (Z.abs_N n)),
                  rest)).
  { intros neg. unfold parse_number_body.
    rewrite scan_int_part_digits; [| apply digits_of_N_ok | | exact Hnd].
    - rewrite (scan_fraction_none rest Hrest), (scan_exponent_none _ rest Hrest).
      now rewrite N_of_digits_of_N.
    - destruct (digits_of_N_normal (Z.abs_N n)) as [-> | [Hne Hhd]];
        [now left | right].
      destruct (digits_of_N (Z.abs_N n)); [congruence | exact Hhd]. }
  unfold int_repr. destruct (n <? 0) eqn:Hneg.
  - cbn [append]. unfold parse_number. rewrite Hbody.
    apply Z.ltb_lt in Hneg. do 3 f_equal. lia.
  - cbn [append]. apply Z.ltb_ge in Hneg.
    assert (Hstart : forall s, s = string_of_digits (digits_of_N (Z.abs_N n)) ++ rest ->
              parse_number s = parse_number_body false s).
    { intros s ->. pose proof (digits_of_N_nonempty (Z.abs_N n)) as Hne.
      pose proof (digits_of_N_ok (Z.abs_N n)) as Hok.
      destruct (digits_of_N (Z.abs_N n)) as [|d ds]; [congruence|].
      pose proof (Forall_inv Hok) as Hd. cbn [string_of_digits append].
      do 10 (destruct d as [|d]; [reflexivity|]). lia. }
    rewrite (Hstart _ eq_refl), Hbody. do 3 f_equal. lia.
Qed.

(** ** Floats in a document *)

Lemma strip_leading_zeros_nonzero ds :
  hd 0%nat ds <> 0%nat -> strip_leading_zeros ds = ds.
Proof. destruct ds as [|[|d] ds]; cbn; congruence. Qed.

Lemma strip_leading_zeros_repeat j ds :
  strip_leading_zeros (repeat 0%nat j ++ ds) = strip_leading_zeros ds.
Proof. induction j as [|j IH]; cbn; auto. Qed.

Lemma rev_repeat {A} (x : A) j : rev (repeat x j) = repeat x j.
Proof.
  induction j as [|j IH]; cbn; [reflexivity|].
  rewrite IH. clear IH. induction j as [|j IH]; cbn; [reflexivity|].
  now rewrite IH.
Qed.

Lemma hd_rev_last (ds : list nat) : hd 0%nat (rev ds) = last ds 0%nat.
Proof.
  induction ds as [|d ds IH] using rev_ind; [reflexivity|].
  now rewrite rev_app_distr, last_last.
Qed.

Lemma strip_trailing_zeros_repeat ds j :
  last ds 0%nat <> 0%nat ->
  strip_trailing_zeros (ds ++ repeat 0%nat j) = ds.
Proof.
  intros Hlast. unfold strip_trailing_zeros.
  rewrite rev_app_distr, rev_repeat, strip_leading_zeros_repeat.
  rewrite strip_leading_zeros_nonzero by now rewrite hd_rev_last.
  apply rev_involutive.
Qed.

(** The float denoted by digits that are [ds] between [a] leading and [b]
    trailing zeros. *)
Lemma float_of_parts_normal neg ds decpt ip fp e a b :
  hd 0%nat ds <> 0%nat -> last ds 0%nat <> 0%nat ->
  float_overflows ds decpt = false -> float_underflows ds decpt = false ->
  (ip ++ fp = repeat 0%nat a ++ ds ++ repeat 0%nat b)%list ->
  Z.of_nat (List.length ip) - Z.of_nat a + e = decpt ->
  float_of_parts neg ip fp e = FFin neg ds decpt.
Proof.
  intros Hhd Hlast Hover Hunder Hall Hdecpt. unfold float_of_parts.
  rewrite Hall, strip_leading_zeros_repeat.
  assert (Hnz : strip_leading_zeros (ds ++ repeat 0%nat b) = (ds ++ repeat 0%nat b)%list).
  { apply strip_leading_zeros_nonzero. destruct ds; [cbn in Hhd; congruence|].
    exact Hhd. }
  rewrite Hnz, (strip_trailing_zeros_repeat ds b Hlast).
  replace (List.length (repeat 0%nat a ++ ds ++ repeat 0%nat b)
           - List.length (ds ++ repeat 0%nat b))%nat with a
    by (rewrite !length_app, repeat_length; lia).
  destruct ds as [|d0 ds']; [cbn in Hhd; congruence|].
  cbv zeta. now rewrite Hdecpt, Hover, Hunder.
Qed.

Lemma parse_number_unsigned d t :
  (d < 10)%nat ->
  parse_number (String (digit_char d) t)
  = parse_number_body false (String (digit_char d) t).
Proof. intros H. do 10 (destruct d as [|d]; [reflexivity|]). lia. Qed.

Lemma digits_ok_app ds1 ds2 :
  digits_ok ds1 -> digits_ok ds2 -> digits_ok (ds1 ++ ds2).
Proof. apply Forall_app_2 || (intros; apply Forall_app; now split). Qed.

Lemma zeros_ok j : digits_ok (repeat 0%nat j).
Proof. apply Forall_forall. intros d Hd. apply repeat_spec in Hd. lia. Qed.

Lemma digits_ok_firstn p : forall ds, digits_ok ds -> digits_ok (firstn p ds).
Proof.
  induction p as [|p IH]; intros [|d ds] H; cbn; try constructor.
  - exact (Forall_inv H).
  - exact (IH ds (Forall_inv_tail H)).
Qed.

Lemma digits_ok_skipn p : forall ds, digits_ok ds -> digits_ok (skipn p ds).
Proof.
  induction p as [|p IH]; intros [|d ds] H; cbn; try assumption.
  exact (IH ds (Forall_inv_tail H)).
Qed.

Section FloatText.
Variables (neg : bool) (ds : list nat) (decpt : Z) (rest : string).
Hypothesis Hok : digits_ok ds.
Hypothesis Hhd : hd 0%nat ds <> 0%nat.
Hypothesis Hlast : last ds 0%nat <> 0%nat.
Hypothesis Hover : float_overflows ds decpt = false.
Hypothesis Hunder : float_underflows ds decpt = false.
Hypothesis Hrest : ends_token rest.

Lemma scan_exponent_tail :
  scan_exponent scan_digits (exponent_text decpt rest) = Some (decpt - 1, rest).
Proof. apply scan_exponent_repr, ends_token_no_digit, Hrest. Qed.

Lemma exponent_form_text d (frac : string) :
  (String (digit_char d) frac
     ++ "e" ++ (if decpt - 1 <? 0 then "-" else "+")
     ++ string_of_digits (pad2 (digits_of_N (Z.abs_N (decpt - 1)))))
    ++ rest
  = String (digit_char d) (frac ++ exponent_text decpt rest).
Proof.
  unfold exponent_text. cbn [append]. rewrite !append_assoc. cbn [append].
  now rewrite ?append_assoc.
Qed.

Lemma parse_float_exponent_form d tl :
  ds = d :: tl ->
  parse_number_body neg
    ((String (digit_char d)
        (match tl with
         | [] => ""
         | _ => "." ++ string_of_digits tl
         end)
      ++ "e" ++ (if decpt - 1 <? 0 then "-" else "+")
      ++ string_of_digits (pad2 (digits_of_N (Z.abs_N (decpt - 1)))))
     ++ rest)
  = Some (JFloat (FFin neg ds decpt), rest).
Proof.
  intros Hds. subst ds. cbn [hd] in Hhd.
  pose proof (Forall_inv Hok) as Hd. pose proof (Forall_inv_tail Hok) as Htl.
  rewrite exponent_form_text. unfold parse_number_body.
  destruct tl as [|d1 tl'].
  - change (String (digit_char d) ("" ++ exponent_text decpt rest))
      with (string_of_digits [d] ++ exponent_text decpt rest).
    rewrite scan_int_part_digits;
      [| constructor; [exact Hd | constructor] | right; exact Hhd
       | reflexivity].
    change (scan_fraction (exponent_text decpt rest))
      with (@None (list nat * string)).
    cbv zeta iota. rewrite scan_exponent_tail.
    f_equal. f_equal. f_equal.
    apply (float_of_parts_normal neg (d :: nil) decpt [d] [] (decpt - 1) 0 0);
      try assumption; [reflexivity | cbn [List.length]; lia].
  - change (String (digit_char d)
              (("." ++ string_of_digits (d1 :: tl')) ++ exponent_text decpt rest))
      with (string_of_digits [d]
              ++ String "."%char
                   (string_of_digits (d1 :: tl') ++ exponent_text decpt rest)).
    rewrite scan_int_part_digits;
      [| constructor; [exact Hd | constructor] | right; exact Hhd
       | reflexivity].
    rewrite scan_fraction_digits;
      [| exact Htl | discriminate | reflexivity].
    cbv zeta iota. rewrite scan_exponent_tail.
    f_equal. f_equal. f_equal.
    apply (float_of_parts_normal neg (d :: d1 :: tl') decpt [d] (d1 :: tl')
             (decpt - 1) 0 0);
      try assumption; [now rewrite app_nil_r | cbn [List.length]; lia].
Qed.

Lemma ds_nonempty : ds <> [].
Proof. destruct ds; [cbn in Hhd; congruence | discriminate]. Qed.

Lemma parse_float_small :
  decpt <= 0 ->
  parse_number_body neg
    (("0." ++ string_of_digits (repeat 0%nat (Z.to_nat (- decpt)))
           ++ string_of_digits ds) ++ rest)
  = Some (JFloat (FFin neg ds decpt), rest).
Proof.
  intros Hdecpt. set (k := Z.to_nat (- decpt)).
  replace (("0." ++ string_of_digits (repeat 0%nat k) ++ string_of_digits ds)
             ++ rest)
    with (string_of_digits [0%nat]
            ++ String "."%char
                 (string_of_digits (repeat 0%nat k ++ ds) ++ rest))
    by (cbn [append string_of_digits];
        now rewrite string_of_digits_app, !append_assoc).
  unfold parse_number_body.
  rewrite scan_int_part_digits;
    [| repeat constructor | now left | reflexivity].
  rewrite scan_fraction_digits;
    [| apply digits_ok_app; [apply zeros_ok | exact Hok]
     | intros H; apply app_eq_nil in H as [_ H]; now apply ds_nonempty
     | now apply ends_token_no_digit].
  cbv zeta iota. rewrite (scan_exponent_none _ rest Hrest).
  f_equal. f_equal. f_equal.
  apply (float_of_parts_normal neg ds decpt _ _ 0 (S k) 0); try assumption.
  - cbn [repeat app]. now rewrite app_nil_r.
  - cbn [List.length]. lia.
Qed.

Lemma repeat_snoc j : (repeat 0%nat j ++ [0%nat])%list = repeat 0%nat (S j).
Proof. induction j as [|j IH]; cbn; [reflexivity | now rewrite IH]. Qed.

Lemma parse_float_integral :
  Z.of_nat (List.length ds) <= decpt ->
  parse_number_body neg
    ((string_of_digits ds
        ++ string_of_digits
             (repeat 0%nat (Z.to_nat (decpt - Z.of_nat (List.length ds))))
        ++ ".0") ++ rest)
  = Some (JFloat (FFin neg ds decpt), rest).
Proof.
  intros Hdecpt. set (j := Z.to_nat (decpt - Z.of_nat (List.length ds))).
  replace ((string_of_digits ds ++ string_of_digits (repeat 0%nat j) ++ ".0")
             ++ rest)
    with (string_of_digits (ds ++ repeat 0%nat j)
            ++ String "."%char (string_of_digits [0%nat] ++ rest))
    by (cbn [append string_of_digits];
        now rewrite string_of_digits_app, !append_assoc).
  unfold parse_number_body.
  rewrite scan_int_part_digits;
    [| apply digits_ok_app; [exact Hok | apply zeros_ok]
     | right; pose proof ds_nonempty; destruct ds; [congruence | exact Hhd]
     | reflexivity].
  rewrite scan_fraction_digits;
    [| repeat constructor | discriminate | now apply ends_token_no_digit].
  cbv zeta iota. rewrite (scan_exponent_none _ rest Hrest).
  f_equal. f_equal. f_equal.
  apply (float_of_parts_normal neg ds decpt _ _ 0 0 (S j)); try assumption.
  - cbn [repeat app]. now rewrite <- app_assoc, repeat_snoc.
  - rewrite length_app, repeat_length. lia.
Qed.

Lemma parse_float_fixed :
  0 < decpt < Z.of_nat (List.length ds) ->
  parse_number_body neg
    ((string_of_digits (firstn (Z.to_nat decpt) ds) ++ "."
        ++ string_of_digits (skipn (Z.to_nat decpt) ds)) ++ rest)
  = Some (JFloat (FFin neg ds decpt), rest).
Proof.
  intros Hdecpt. set (p := Z.to_nat decpt).
  replace ((string_of_digits (firstn p ds) ++ "."
              ++ string_of_digits (skipn p ds)) ++ rest)
    with (string_of_digits (firstn p ds)
            ++ String "."%char (string_of_digits (skipn p ds) ++ rest))
    by (cbn [append]; now rewrite !append_assoc).
  assert (Hp : (0 < p < List.length ds)%nat) by lia.
  unfold parse_number_body.
  rewrite scan_int_part_digits;
    [| apply digits_ok_firstn; exact Hok
     | right; destruct ds as [|d tl]; [cbn in Hhd; congruence|];
       destruct p; [lia | exact Hhd]
     | reflexivity].
  rewrite scan_fraction_digits;
    [| apply digits_ok_skipn; exact Hok
     | intros H; apply (f_equal (@List.length nat)) in H;
       rewrite length_skipn in H; cbn in H; lia
     | now apply ends_token_no_digit].
  cbv zeta iota. rewrite (scan_exponent_none _ rest Hrest).
  f_equal. f_equal. f_equal.
  apply (float_of_parts_normal neg ds decpt _ _ 0 0 0); try assumption.
  - cbn [repeat app]. now rewrite firstn_skipn, app_nil_r.
  - rewrite length_firstn. lia.
Qed.

(** A non-zero float written by [repr] is read back. *)
Lemma parse_float_digits :
  parse_number_body neg (float_repr_digits ds decpt ++ rest)
  = Some (JFloat (FFin neg ds decpt), rest).
Proof.
  unfold float_repr_digits.
  destruct ((decpt <=? -4) || (16 <? decpt))%bool.
  - assert (Hds : exists d tl, ds = d :: tl).
    { pose proof ds_nonempty as Hne. destruct ds as [|d tl]; [congruence|].
      now exists d, tl. }
    destruct Hds as (d & tl & Hds).
    pose proof (parse_float_exponent_form d tl Hds) as H.
    rewrite Hds. rewrite Hds in H. exact H.
  - destruct (decpt <=? 0) eqn:H0.
    + apply parse_float_small. now apply Z.leb_le.
    + apply Z.leb_gt in H0.
      destruct (Z.of_nat (List.length ds) <=? decpt) eqn:Hn.
      * apply parse_float_integral. now apply Z.leb_le.
      * apply parse_float_fixed. apply Z.leb_gt in Hn. lia.
Qed.

Lemma float_repr_digits_start :
  exists d t, (d < 10)%nat /\ float_repr_digits ds decpt = String (digit_char d) t.
Proof.
  pose proof ds_nonempty as Hne. unfold float_repr_digits.
  destruct ds as [|d tl]; [congruence|].
  pose proof (Forall_inv Hok) as Hd.
  destruct ((decpt <=? -4) || (16 <? decpt))%bool.
  - exists d; eexists; split; [exact Hd | reflexivity].
  - destruct (decpt <=? 0) eqn:H0.
    + exists 0%nat; eexists; split; [lia | reflexivity].
    + destruct (Z.of_nat (List.length (d :: tl)) <=? decpt).
      * exists d; eexists; split; [exact Hd | reflexivity].
      * apply Z.leb_gt in H0.
        destruct (Z.to_nat decpt) as [|p] eqn:Hp; [lia|].
        exists d; eexists; split; [exact Hd | reflexivity].
Qed.
End FloatText.

(** A float written by [repr] is read back. *)
Lemma parse_number_float neg ds decpt rest :
  float_wf (FFin neg ds decpt) -> ends_token rest ->
  parse_number (float_repr_finite neg ds decpt ++ rest)
  = Some (JFloat (FFin neg ds decpt), rest).
Proof.
  intros Hwf Hrest. unfold float_repr_finite.
  assert (Hbody : forall neg',
            parse_number_body neg' (float_repr_digits ds decpt ++ rest)
            = Some (JFloat (FFin neg' ds decpt), rest)).
  { intros neg'. destruct Hwf as [[-> ->] | (Hok & Hhd & Hlast & Hov & Hun)].
    - change (float_repr_digits [0%nat] 1 ++ rest)
        with (string_of_digits [0%nat]
                ++ String "."%char (string_of_digits [0%nat] ++ rest)).
      unfold parse_number_body.
      rewrite scan_int_part_digits;
        [| repeat constructor | now left | reflexivity].
      rewrite scan_fraction_digits;
        [| repeat constructor | discriminate | now apply ends_token_no_digit].
      cbv zeta iota. now rewrite (scan_exponent_none _ rest Hrest).
    - now apply parse_float_digits. }
  destruct neg.
  - cbn [append]. unfold parse_number. apply Hbody.
  - cbn [append].
    assert (Hstart : exists d t, (d < 10)%nat /\
              float_repr_digits ds decpt = String (digit_char d) t).
    { destruct Hwf as [[-> ->] | (Hok & Hhd & Hlast & Hov & Hun)].
      - exists 0%nat; eexists; split; [lia | reflexivity].
      - now apply float_repr_digits_start. }
    destruct Hstart as (d & t & Hd & Heq).
    specialize (Hbody false). rewrite Heq in Hbody |- *. cbn [append] in *.
    now rewrite parse_number_unsigned.
Qed.

Lemma parse_atom_number s v r :
  parse_number s = Some (v, r) -> parse_atom s = Some (v, r).
Proof.
  destruct s as [|c t]; [discriminate|].
  destruct c as [[] [] [] [] [] [] [] []]; intros H;
    first [ discriminate H | unfold parse_atom; cbn [strip_prefix Ascii.eqb Bool.eqb];
            now rewrite H ].
Qed.

Lemma parse_value_atom fuel s v r :
  parse_atom s = Some (v, r) -> parse_value (S fuel) s = Some (v, r).
Proof.
  destruct s as [|c t]; [discriminate|].
  destruct c as [[] [] [] [] [] [] [] []]; intros H;
    first [ discriminate H | exact H ].
Qed.

(** The scalar values of a document are read back. *)
Lemma parse_value_int fuel n rest :
  ends_token rest ->
  parse_value (S fuel) (json_dumps (JInt n) ++ rest) = Some (JInt n, rest).
Proof.
  intros H. apply parse_value_atom, parse_atom_number.
  now apply parse_number_int.
Qed.

Lemma parse_value_float fuel f rest :
  float_wf f -> ends_token rest ->
  parse_value (S fuel) (json_dumps (JFloat f) ++ rest) = Some (JFloat f, rest).
Proof.
  intros Hwf H. destruct f as [|[]|neg ds decpt]; try reflexivity.
  apply parse_value_atom, parse_atom_number.
  now apply parse_number_float.
Qed.

(** ** Strings in a document *)

Lemma scanstring_escape_char c tail :
  scanstring (escape_char c ++ tail) =
  match scanstring tail with
  | Some (r, rest) => Some (String c r, rest)
  | None => None
  end.
Proof. destruct c as [[] [] [] [] [] [] [] []]; reflexivity. Qed.

Lemma scanstring_escape_string : forall s rest,
  scanstring (escape_string s ++ String dquote rest) = Some (s, rest).
Proof.
  induction s as [|c s IH]; intros rest; [reflexivity|].
  cbn [escape_string]. now rewrite append_assoc, scanstring_escape_char, IH.
Qed.

Lemma dumps_string_app s rest :
  dumps_string s ++ rest = String dquote (escape_string s ++ String dquote rest).
Proof. unfold dumps_string. cbn [append]. now rewrite append_assoc. Qed.

Lemma parse_value_str fuel s rest :
  parse_value (S fuel) (json_dumps (JStr s) ++ rest) = Some (JStr s, rest).
Proof.
  cbn [json_dumps]. rewrite dumps_string_app. cbn [parse_value].
  change (Ascii.eqb dquote dquote) with true. cbv iota.
  now rewrite scanstring_escape_string.
Qed.

(** ** Documents *)

Lemma json_dumps_list l : json_dumps (JList l) = "[" ++ dumps_elements l ++ "]".
Proof. reflexivity. Qed.

Lemma json_dumps_dict kvs : json_dumps (JDict kvs) = "{" ++ dumps_members kvs ++ "}".
Proof. reflexivity. Qed.

Lemma json_size_list l : json_size (JList l) = S (elements_size l).
Proof. reflexivity. Qed.

Lemma json_size_dict kvs : json_size (JDict kvs) = S (members_size kvs).
Proof. reflexivity. Qed.

Lemma json_wf_list l : json_wf (JList l) <-> Forall json_wf l.
Proof.
  cbn [json_wf]. induction l as [|x l IH]; [split; constructor|].
  split.
  - intros [Hx Hl]. constructor; [exact Hx | now apply IH].
  - intros H. inversion H; subst. split; [assumption | now apply IH].
Qed.

Lemma json_wf_dict kvs :
  json_wf (JDict kvs) <->
  NoDup (dict_keys kvs) /\ Forall (fun kv => json_wf (snd kv)) kvs.
Proof.
  cbn [json_wf]. apply and_iff_compat_l.
  induction kvs as [|[k x] kvs IH]; [split; constructor|].
  split.
  - intros [Hx Hl]. constructor; [exact Hx | now apply IH].
  - intros H. inversion H; subst. split; [assumption | now apply IH].
Qed.

(** Induction on a value, with the property for the elements of a list and
    the values of a [dict]. *)
Lemma json_induction (P : json -> Prop) :
  P JNull -> (forall b, P (JBool b)) -> (forall n, P (JInt n)) ->
  (forall f, P (JFloat f)) -> (forall s, P (JStr s)) ->
  (forall l, Forall P l -> P (JList l)) ->
  (forall kvs, Forall (fun kv => P (snd kv)) kvs -> P (JDict kvs)) ->
  forall v, P v.
Proof.
  intros Hnull Hbool Hint Hfloat Hstr Hlist Hdict.
  fix IH 1. intros [| b | n | f | s | l | kvs];
    [apply Hnull | apply Hbool | apply Hint | apply Hfloat | apply Hstr | |].
  - apply Hlist. induction l as [|x l IHl]; constructor; [apply IH | exact IHl].
  - apply Hdict. induction kvs as [|[k x] kvs IHl]; constructor;
      [apply IH | exact IHl].
Qed.

Lemma digit_char_not_ws d : (d < 10)%nat -> starts_value (digit_char d) = true.
Proof. intros H. do 10 (destruct d as [|d]; [reflexivity|]). lia. Qed.

(** A document starts with a character that is no white space and closes
    no list or [dict]. *)
Lemma json_dumps_start v :
  json_wf v ->
  exists c t, json_dumps v = String c t /\ starts_value c = true.
Proof.
  destruct v as [| [] | n | f | s | l | kvs]; intros Hwf.
  - now eexists _, _.
  - now eexists _, _.
  - now eexists _, _.
  - cbn [json_dumps]. unfold int_repr. destruct (n <? 0).
    + now eexists _, _.
    + pose proof (digits_of_N_nonempty (Z.abs_N n)) as Hne.
      pose proof (digits_of_N_ok (Z.abs_N n)) as Hok.
      destruct (digits_of_N (Z.abs_N n)) as [|d ds]; [congruence|].
      eexists _, _. split; [reflexivity|].
      apply digit_char_not_ws. exact (Forall_inv Hok).
  - destruct f as [|[]|neg ds decpt]; try now eexists _, _.
    cbn [json_dumps json_floatstr]. unfold float_repr_finite.
    destruct neg; [now eexists _, _|].
    cbn [json_wf float_wf] in Hwf.
    destruct Hwf as [[-> ->] | (Hok & Hhd & Hlast & Hov & Hun)];
      [now eexists _, _|].
    destruct (float_repr_digits_start ds decpt Hok Hhd Hlast Hov Hun)
      as (d & t & Hd & ->).
    eexists _, _. split; [reflexivity | now apply digit_char_not_ws].
  - now eexists _, _.
  - rewrite json_dumps_list. now eexists _, _.
  - rewrite json_dumps_dict. now eexists _, _.
Qed.

Lemma skip_ws_dumps v rest :
  json_wf v -> skip_ws (json_dumps v ++ rest) = json_dumps v ++ rest.
Proof.
  intros Hwf. destruct (json_dumps_start v Hwf) as (c & t & -> & Hc).
  cbn [append skip_ws]. unfold starts_value in Hc.
  apply andb_true_iff in Hc as [Hc _]. apply andb_true_iff in Hc as [Hc _].
  apply negb_true_iff in Hc. now rewrite Hc.
Qed.

Lemma dict_set_fresh k v : forall kvs,
  ~ In k (dict_keys kvs) -> dict_set k v kvs = (kvs ++ [(k, v)])%list.
Proof.
  induction kvs as [|[k' v'] kvs IH]; intros Hnotin; [reflexivity|].
  cbn [dict_set app]. cbn [dict_keys map fst In] in Hnotin.
  destruct (String.eqb k k') eqn:E.
  - apply String.eqb_eq in E. subst. tauto.
  - rewrite IH; [reflexivity | tauto].
Qed.

Lemma dict_of_pairs_from : forall pairs acc,
  NoDup (dict_keys (acc ++ pairs)) ->
  fold_left (fun d kv => dict_set (fst kv) (snd kv) d) pairs acc
  = (acc ++ pairs)%list.
Proof.
  induction pairs as [|[k v] pairs IH]; intros acc Hnd.
  - now rewrite app_nil_r.
  - cbn [fold_left fst snd].
    assert (Hfresh : ~ In k (dict_keys acc)).
    { unfold dict_keys in *. rewrite map_app in Hnd. cbn [map fst] in Hnd.
      apply NoDup_remove_2 in Hnd. rewrite in_app_iff in Hnd. tauto. }
    rewrite (dict_set_fresh k v acc Hfresh), IH; rewrite <- app_assoc;
      [reflexivity | exact Hnd].
Qed.

Lemma dict_of_pairs_nodup kvs :
  NoDup (dict_keys kvs) -> dict_of_pairs kvs = kvs.
Proof. intros H. unfold dict_of_pairs. now rewrite dict_of_pairs_from. Qed.

Lemma not_closing_dumps (close : ascii) v rest :
  json_wf v -> close = "]"%char \/ close = "}"%char ->
  strip_prefix (String close "") (json_dumps v ++ rest) = None.
Proof.
  intros Hwf Hclose. destruct (json_dumps_start v Hwf) as (c & t & -> & Hc).
  cbn [append strip_prefix]. unfold starts_value in Hc.
  apply andb_true_iff in Hc as [Hc H2]. apply andb_true_iff in Hc as [_ H1].
  apply negb_true_iff in H1, H2.
  destruct Hclose as [-> | ->]; [now rewrite H1 | now rewrite H2].
Qed.

Lemma ends_token_close (c : ascii) rest :
  c = "]"%char \/ c = "}"%char \/ c = ","%char -> ends_token (String c rest).
Proof.
  intros [-> | [-> | ->]]; cbn; repeat split; discriminate.
Qed.

Lemma skip_ws_comma s : skip_ws (String ","%char s) = String ","%char s.
Proof. reflexivity. Qed.

Lemma skip_ws_space s : skip_ws (String " "%char s) = skip_ws s.
Proof. reflexivity. Qed.

Lemma skip_ws_elements x l rest :
  json_wf x ->
  skip_ws (dumps_elements (x :: l) ++ rest) = dumps_elements (x :: l) ++ rest.
Proof.
  intros Hwf. cbn [dumps_elements]. rewrite append_assoc.
  now apply skip_ws_dumps.
Qed.

Lemma parse_elements_dumps : forall l,
  l <> [] -> Forall reads_back l -> Forall json_wf l ->
  forall fuel rest,
    (elements_size l <= fuel)%nat ->
    parse_elements fuel (dumps_elements l ++ String "]"%char rest)
    = Some (l, rest).
Proof.
  induction l as [|x l IH]; intros Hne Hread Hwf fuel rest Hfuel;
    [congruence|].
  inversion Hread as [|? ? Hx Hl]; subst.
  inversion Hwf as [|? ? Wx Wl]; subst.
  cbn [elements_size] in Hfuel.
  destruct fuel as [|fuel]; [lia|].
  cbn [dumps_elements parse_elements]. rewrite append_assoc.
  destruct l as [|y l].
  - cbn [append].
    rewrite (Hx Wx fuel (String "]"%char rest)); [| lia | ].
    + reflexivity.
    + apply ends_token_close. now left.
  - rewrite append_assoc.
    change (", " ++ dumps_elements (y :: l) ++ String "]"%char rest)
      with (String ","%char
              (String " "%char (dumps_elements (y :: l) ++ String "]"%char rest))).
    rewrite (Hx Wx fuel); [| lia | apply ends_token_close; now right; right].
    rewrite skip_ws_comma. cbv beta iota.
    change (Ascii.eqb "," "]") with false.
    change (Ascii.eqb "," ",") with true. cbv iota.
    rewrite skip_ws_space, (skip_ws_elements y l _ (Forall_inv Wl)).
    rewrite IH; [reflexivity | discriminate | exact Hl | exact Wl | lia].
Qed.

Lemma skip_ws_members k x l rest :
  skip_ws (dumps_members ((k, x) :: l) ++ rest)
  = dumps_members ((k, x) :: l) ++ rest.
Proof. reflexivity. Qed.

Lemma members_text k x (tail rest : string) :
  (dumps_string k ++ ": " ++ json_dumps x ++ tail) ++ rest
  = String dquote
      (escape_string k
         ++ String dquote
              (String ":"%char
                 (String " "%char (json_dumps x ++ tail ++ rest)))).
Proof.
  rewrite append_assoc, dumps_string_app. cbn [append].
  now rewrite !append_assoc.
Qed.

Lemma parse_members_dumps : forall kvs,
  kvs <> [] ->
  Forall (fun kv => reads_back (snd kv)) kvs ->
  Forall (fun kv => json_wf (snd kv)) kvs ->
  forall fuel rest,
    (members_size kvs <= fuel)%nat ->
    parse_members fuel (dumps_members kvs ++ String "}"%char rest)
    = Some (kvs, rest).
Proof.
  induction kvs as [|[k x] kvs IH]; intros Hne Hread Hwf fuel rest Hfuel;
    [congruence|].
  inversion Hread as [|? ? Hx Hl]; subst.
  inversion Hwf as [|? ? Wx Wl]; subst.
  cbn [snd] in Hx, Wx. cbn [members_size] in Hfuel.
  destruct fuel as [|fuel]; [lia|].
  cbn [dumps_members]. rewrite members_text. cbn [parse_members].
  change (Ascii.eqb dquote dquote) with true. cbv iota.
  rewrite scanstring_escape_string.
  change (skip_ws (String ":"%char ?s)) with (String ":"%char s).
  cbv iota. rewrite skip_ws_space, (skip_ws_dumps x _ Wx).
  destruct kvs as [|[k' y] kvs].
  - cbn [append].
    rewrite (Hx Wx fuel (String "}"%char rest));
      [| lia | apply ends_token_close; now right; left].
    reflexivity.
  - change ((", " ++ dumps_members ((k', y) :: kvs)) ++ String "}"%char rest)
      with (String ","%char
              (String " "%char
                 (dumps_members ((k', y) :: kvs) ++ String "}"%char rest))).
    rewrite (Hx Wx fuel); [| lia | apply ends_token_close; now right; right].
    rewrite skip_ws_comma. cbv beta iota.
    change (Ascii.eqb "," "}") with false.
    change (Ascii.eqb "," ",") with true. cbv iota.
    rewrite skip_ws_space, skip_ws_members.
    rewrite IH; [reflexivity | discriminate | exact Hl | exact Wl | lia].
Qed.

(** Every well-formed value is read back from the text [json.dumps] writes
    for it, given fuel for its size. *)
Theorem parse_value_dumps : forall v, reads_back v.
Proof.
  apply json_induction; unfold reads_back.
  - intros _ [|fuel] rest Hfuel _; [cbn in Hfuel; lia | reflexivity].
  - intros [] _ [|fuel] rest Hfuel _; try (cbn in Hfuel; lia); reflexivity.
  - intros n _ [|fuel] rest Hfuel Hrest; [cbn in Hfuel; lia|].
    now apply parse_value_int.
  - intros f Hwf [|fuel] rest Hfuel Hrest; [cbn in Hfuel; lia|].
    now apply parse_value_float.
  - intros s _ [|fuel] rest Hfuel _; [cbn in Hfuel; lia|].
    apply parse_value_str.
  - intros l IH Hwf fuel rest Hfuel _.
    rewrite json_size_list in Hfuel. destruct fuel as [|fuel]; [lia|].
    apply json_wf_list in Hwf. rewrite json_dumps_list.
    destruct l as [|x l]; [reflexivity|].
    cbn [append parse_value].
    change (Ascii.eqb "[" dquote) with false.
    change (Ascii.eqb "[" "{") with false.
    change (Ascii.eqb "[" "[") with true. cbv iota zeta.
    rewrite append_assoc. cbn [append].
    rewrite (skip_ws_elements x l _ (Forall_inv Hwf)).
    replace (strip_prefix "]" (dumps_elements (x :: l) ++ String "]"%char rest))
      with (@None string).
    + rewrite parse_elements_dumps;
        [reflexivity | discriminate | exact IH | exact Hwf | lia].
    + symmetry. cbn [dumps_elements]. rewrite append_assoc.
      apply not_closing_dumps; [exact (Forall_inv Hwf) | now left].
  - intros kvs IH Hwf fuel rest Hfuel _.
    rewrite json_size_dict in Hfuel. destruct fuel as [|fuel]; [lia|].
    apply json_wf_dict in Hwf as [Hnd Hwf]. rewrite json_dumps_dict.
    destruct kvs as [|[k x] kvs]; [reflexivity|].
    cbn [append parse_value].
    change (Ascii.eqb "{" dquote) with false.
    change (Ascii.eqb "{" "{") with true. cbv iota zeta.
    rewrite append_assoc. cbn [append].
    rewrite skip_ws_members.
    replace (strip_prefix "}" (dumps_members ((k, x) :: kvs) ++ String "}"%char rest))
      with (@None string) by reflexivity.
    rewrite parse_members_dumps;
      [| discriminate | exact IH | exact Hwf | lia].
    now rewrite dict_of_pairs_nodup.
Qed.

Lemma length_append (a b : string) :
  String.length (a ++ b) = (String.length a + String.length b)%nat.
Proof. induction a as [|c a IH]; cbn; [reflexivity | now rewrite IH]. Qed.

Lemma json_size_le_length : forall v,
  json_wf v -> (json_size v <= String.length (json_dumps v))%nat.
Proof.
  apply (json_induction (fun v => json_wf v ->
           (json_size v <= String.length (json_dumps v))%nat)).
  1-5: intros; match goal with
       | |- (json_size ?v <= _)%nat =>
           destruct (json_dumps_start v) as (c & t & -> & _);
             [assumption | cbn; lia]
       end.
  - intros l IH Hwf. apply json_wf_list in Hwf.
    rewrite json_size_list, json_dumps_list, !length_append.
    cbn [String.length].
    assert (H : (elements_size l <= String.length (dumps_elements l) + 1)%nat).
    { induction l as [|x l IHl]; [cbn; lia|].
      inversion IH as [|? ? Hx Hl]; subst. inversion Hwf as [|? ? Wx Wl]; subst.
      specialize (IHl Hl Wl). specialize (Hx Wx).
      cbn [elements_size dumps_elements]. rewrite length_append.
      destruct l as [|y l].
      - cbn [elements_size String.length]. lia.
      - rewrite length_append. cbn [String.length] in *. lia. }
    lia.
  - intros kvs IH Hwf. apply json_wf_dict in Hwf as [_ Hwf].
    rewrite json_size_dict, json_dumps_dict, !length_append.
    cbn [String.length].
    assert (H : (members_size kvs <= String.length (dumps_members kvs) + 1)%nat).
    { induction kvs as [|[k x] kvs IHl]; [cbn; lia|].
      inversion IH as [|? ? Hx Hl]; subst. inversion Hwf as [|? ? Wx Wl]; subst.
      specialize (IHl Hl Wl). cbn [snd] in Hx, Wx. specialize (Hx Wx).
      cbn [members_size dumps_members]. rewrite !length_append.
      destruct kvs as [|[k' y] kvs].
      - cbn [members_size String.length]. lia.
      - rewrite length_append. cbn [String.length] in *. lia. }
    lia.
Qed.

Lemma append_empty (s : string) : s ++ "" = s.
Proof. induction s as [|c s IH]; cbn; [reflexivity | now rewrite IH]. Qed.

(** [json.loads(json.dumps(v))] is [v]. *)
Theorem json_loads_dumps v : json_wf v -> json_loads (json_dumps v) = Ok v.
Proof.
  intros Hwf. unfold json_loads.
  rewrite <- (append_empty (json_dumps v)) at 2.
  rewrite (skip_ws_dumps v "" Hwf).
  rewrite (parse_value_dumps v Hwf); [reflexivity | | exact I].
  pose proof (json_size_le_length v Hwf). lia.
Qed.

Lemma valid_json_text_dumps v :
  json_wf v -> json_finite v = true -> valid_json_text (json_dumps v) = true.
Proof.
  intros Hwf Hfin. unfold valid_json_text. now rewrite json_loads_dumps.
Qed.

(** ** An order is listed as it was submitted *)

Lemma bind_args_cons_ok v vs x xs :
  bind_param v = Ok x -> bind_args vs = Ok xs ->
  bind_args (v :: vs) = Ok (x :: xs).
Proof.
  rewrite bind_args_cons. unfold bind_param, bind_args.
  destruct (escape_item v) as [q|]; [|discriminate].
  destruct (escape_args vs) as [qs|]; [|discriminate].
  now intros -> ->.
Qed.

Lemma bind_param_finite_float f :
  float_finite f = true -> bind_param (JFloat f) = Ok (SqlFloat f).
Proof. destruct f as [|[]|]; try discriminate. reflexivity. Qed.

Lemma Forall2_in_left {A B} (R : A -> B -> Prop) x : forall l l',
  Forall2 R l l' -> In x l -> exists y, In y l' /\ R x y.
Proof.
  induction 1 as [|a b l l' Hab _ IH]; intros Hin; [contradiction|].
  destruct Hin as [-> | Hin].
  - exists b. split; [now left | exact Hab].
  - destruct (IH Hin) as (y & Hy & HR). exists y. split; [now right | exact HR].
Qed.

Lemma parse_items_documents : forall rows,
  Forall (fun o => valid_json_text (o_items o) = true) rows ->
  exists parsed, parse_items (map fetch_order rows) = Ok parsed.
Proof.
  induction rows as [|o rows IH]; intros H; [now exists []|].
  inversion H as [|? ? Ho Hrows]; subst.
  destruct (IH Hrows) as (parsed & Hparsed).
  cbn [map parse_items fetch_order or_items]. rewrite Hparsed.
  unfold valid_json_text in Ho.
  destruct (json_loads (o_items o)) as [v|e]; [|discriminate].
  now eexists.
Qed.

Lemma insert_order_accepts now db t n m p a total doc status :
  db_orders db = Some t ->
  n <> SqlNull -> m <> SqlNull -> a <> SqlNull -> total <> SqlNull ->
  valid_json_text doc = true ->
  insert_order now db n m p a total (SqlStr doc) status =
  Ok (t_next_id t,
      set_orders db
        (mkTable (t_rows t ++ [mkOrder (t_next_id t) n m p a total doc status now])
                 (t_next_id t + 1))).
Proof.
  intros Ht Hn Hm Ha Htotal Hdoc. unfold insert_order. rewrite Ht.
  destruct n; try congruence; destruct m; try congruence;
    destruct a; try congruence; destruct total; try congruence;
    cbn [not_null json_column]; now rewrite Hdoc.
Qed.

(** The JSON column keeps holding documents when an order is inserted. *)
Lemma insert_order_keeps_documents now db t n m p a total items status id db' :
  db_orders db = Some t ->
  Forall (fun o => valid_json_text (o_items o) = true) (t_rows t) ->
  insert_order now db n m p a total items status = Ok (id, db') ->
  exists t', db_orders db' = Some t' /\
             Forall (fun o => valid_json_text (o_items o) = true) (t_rows t').
Proof.
  intros Ht Hall. unfold insert_order. rewrite Ht.
  destruct (not_null "customer_name" n); [|discriminate].
  destruct (not_null "customer_email" m); [|discriminate].
  destruct (not_null "customer_address" a); [|discriminate].
  destruct (not_null "total_amount" total); [|discriminate].
  destruct items as [| | |doc]; cbn [json_column]; try discriminate.
  destruct (valid_json_text doc) eqn:Hdoc; [|discriminate].
  intros [= <- <-]. eexists. split; [reflexivity|].
  cbn [t_rows]. apply Forall_app. split; [exact Hall|].
  constructor; [exact Hdoc | constructor].
Qed.




(** ** What a handler can do to the world *)

Lemma create_order_paths (data : json) (w : world) :
  exists resp,
    fst (create_order data w) = Ok resp /\
    ((r_status resp = 400 /\ snd (create_order data w) = w) \/
     (r_status resp = 500 /\
      (snd (create_order data w) = w \/
       snd (create_order data w) = gave_up w \/
       exists k, (k < 5)%nat /\ snd (create_order data w) = connected w k)) \/
     (exists k id db' n m p a t i s,
        (k < 5)%nat /\
        insert_order (w_now w) (w_db w) n m p a t i s = Ok (id, db') /\
        resp = jsonify [("order_id", JInt id);
                        ("message", JStr "Order created successfully");
                        ("status", JStr "pending")] /\
        snd (create_order data w) = committed w k db')).
Proof.
  unfold create_order, try_except, bind, lift, ret, error_500.
  destruct (py_truthy data); cbn [negb];
    [| eexists; split; [reflexivity | left; now split] ].
  destruct (first_missing_field data required_fields) as [[field|]|e];
    [ eexists; split; [reflexivity | left; now split]
    | | eexists; split; [reflexivity | right; left; split; [reflexivity | now left]] ].
  destruct (py_getitem data "items") as [items|e];
    [| eexists; split; [reflexivity | right; left; split; [reflexivity | now left]] ].
  destruct (is_nonempty_list items); cbn [negb];
    [| eexists; split; [reflexivity | left; now split] ].
  destruct (connect_cases w) as [(k & Hk & Hc) | (msg & Hf & Hl)].
  2:{ rewrite (get_db_connection_gives_up w msg Hf Hl).
      eexists; split; [reflexivity | right; left; split; [reflexivity | now right; left]]. }
  rewrite (get_db_connection_connects w k Hk Hc).
  unfold connected, conn_cursor, ret.
  repeat match goal with
  | |- context [match py_getitem data ?f with _ => _ end] =>
      destruct (py_getitem data f);
        [| eexists; split; [reflexivity
             | right; left; split; [reflexivity | right; right; now exists k]] ]
  | |- context [match py_get data ?f ?d with _ => _ end] =>
      destruct (py_get data f d);
        [| eexists; split; [reflexivity
             | right; left; split; [reflexivity | right; right; now exists k]] ]
  | |- context [match py_float ?x with _ => _ end] =>
      destruct (py_float x);
        [| eexists; split; [reflexivity
             | right; left; split; [reflexivity | right; right; now exists k]] ]
  end.
  unfold execute_insert_order.
  match goal with
  | |- context [bind_args ?args] => destruct (bind_args args) as [xs|e] eqn:Hb
  end.
  2:{ eexists; split; [reflexivity
        | right; left; split; [reflexivity | right; right; now exists k]]. }
  apply bind_args_7_inv in Hb
    as (n & m & p & ad & t & i & s & -> & _).
  rewrite run_statement_head.
  destruct (insert_order _ _ n m p ad t i s) as [[id db']|e] eqn:Hins.
  2:{ eexists; split; [reflexivity
        | right; left; split; [reflexivity | right; right; now exists k]]. }
  rewrite conn_commit_head, conn_close_head.
  eexists; split; [reflexivity|]. right; right.
  do 10 eexists. split; [exact Hk|]. split; [exact Hins|].
  split; [reflexivity|]. cbn [snd]. unfold committed.
  now rewrite <- !app_assoc.
Qed.

Lemma add_product_paths (data : json) (w : world) :
  exists resp,
    fst (add_product data w) = Ok resp /\
    ((r_status resp = 400 /\ snd (add_product data w) = w) \/
     (r_status resp = 500 /\
      (snd (add_product data w) = w \/
       snd (add_product data w) = gave_up w \/
       exists k, (k < 5)%nat /\ snd (add_product data w) = connected w k)) \/
     (exists k id db' n p d i c s,
        (k < 5)%nat /\
        insert_product (w_now w) (w_db w) n p d i c s = Ok (id, db') /\
        resp = jsonify [("message", JStr "Product added successfully");
                        ("product_id", JInt id)] /\
        snd (add_product data w) = committed w k db')).
Proof.
  unfold add_product, try_except, bind, lift, ret, error_500.
  destruct (py_get data "name" JNull) as [name_given|e];
    [| eexists; split; [reflexivity | right; left; split; [reflexivity | now left]] ].
  destruct (py_truthy name_given); cbn [negb];
    [| eexists; split; [reflexivity | left; now split] ].
  destruct (py_get data "price" JNull) as [price_given|e];
    [| eexists; split; [reflexivity | right; left; split; [reflexivity | now left]] ].
  destruct (py_truthy price_given); cbn [negb];
    [| eexists; split; [reflexivity | left; now split] ].
  destruct (connect_cases w) as [(k & Hk & Hc) | (msg & Hf & Hl)].
  2:{ rewrite (get_db_connection_gives_up w msg Hf Hl).
      eexists; split; [reflexivity | right; left; split; [reflexivity | now right; left]]. }
  rewrite (get_db_connection_connects w k Hk Hc).
  unfold connected, conn_cursor, ret.
  repeat match goal with
  | |- context [match py_getitem data ?f with _ => _ end] =>
      destruct (py_getitem data f);
        [| eexists; split; [reflexivity
             | right; left; split; [reflexivity | right; right; now exists k]] ]
  | |- context [match py_get data ?f ?d with _ => _ end] =>
      destruct (py_get data f d);
        [| eexists; split; [reflexivity
             | right; left; split; [reflexivity | right; right; now exists k]] ]
  | |- context [match py_float ?x with _ => _ end] =>
      destruct (py_float x);
        [| eexists; split; [reflexivity
             | right; left; split; [reflexivity | right; right; now exists k]] ]
  end.
  unfold execute_add_product.
  match goal with
  | |- context [bind_args ?args] => destruct (bind_args args) as [xs|e] eqn:Hb
  end.
  2:{ eexists; split; [reflexivity
        | right; left; split; [reflexivity | right; right; now exists k]]. }
  apply bind_args_6_inv in Hb as (n & p & d & i & c & s & -> & _).
  rewrite run_statement_head.
  destruct (insert_product _ _ n p d i c s) as [[id db']|e] eqn:Hins.
  2:{ eexists; split; [reflexivity
        | right; left; split; [reflexivity | right; right; now exists k]]. }
  rewrite conn_commit_head, conn_close_head.
  eexists; split; [reflexivity|]. right; right.
  do 9 eexists. split; [exact Hk|]. split; [exact Hins|].
  split; [reflexivity|]. cbn [snd]. unfold committed.
  now rewrite <- !app_assoc.
Qed.

Lemma not_null_ok column v u : not_null column v = Ok u -> v <> SqlNull.
Proof. destruct v; cbn; congruence. Qed.

Lemma insert_order_ok_inv now db n m p a total items status id db' :
  insert_order now db n m p a total items status = Ok (id, db') ->
  exists t doc,
    db_orders db = Some t /\ id = t_next_id t /\ items = SqlStr doc /\
    valid_json_text doc = true /\
    n <> SqlNull /\ m <> SqlNull /\ a <> SqlNull /\ total <> SqlNull /\
    db' = set_orders db
            (mkTable (t_rows t ++ [mkOrder id n m p a total doc status now])
                     (id + 1)).
Proof.
  unfold insert_order.
  destruct (db_orders db) as [t|]; [|discriminate].
  destruct (not_null "customer_name" n) eqn:Hn; [|discriminate].
  destruct (not_null "customer_email" m) eqn:Hm; [|discriminate].
  destruct (not_null "customer_address" a) eqn:Ha; [|discriminate].
  destruct (not_null "total_amount" total) eqn:Ht; [|discriminate].
  destruct (json_column "items" items) as [doc|] eqn:Hdoc; [|discriminate].
  intros [= <- <-]. exists t, doc.
  apply not_null_ok in Hn, Hm, Ha, Ht.
  destruct items as [| | |s]; cbn [json_column] in Hdoc; try discriminate.
  destruct (valid_json_text s) eqn:Hs; [|discriminate].
  injection Hdoc as <-. now repeat split.
Qed.

(** X7: [create_order] always answers, with 200, 400 or 500.  Unless it
    answers 200 the committed tables are as before; a 400 changes nothing at
    all; only a 500 can leave a connection open; the products table is never
    touched. *)
Theorem create_order_answers_and_keeps_tables (data : json) (w : world) :
  exists resp,
    fst (create_order data w) = Ok resp /\
    (r_status resp = 200 \/ r_status resp = 400 \/ r_status resp = 500) /\
    (r_status resp <> 200 -> w_db (snd (create_order data w)) = w_db w) /\
    (r_status resp = 400 -> snd (create_order data w) = w) /\
    (r_status resp <> 500 ->
     w_open (snd (create_order data w)) = w_open w) /\
    products_of (snd (create_order data w)) = products_of w.
Proof.
  destruct (create_order_paths data w) as (resp & Hresp & Hcases).
  exists resp. split; [exact Hresp|].
  destruct Hcases as [[Hs ->] | [[Hs Hw] | Hok]].
  - rewrite Hs. repeat split; auto; intros; congruence.
  - rewrite Hs.
    assert (Hdb : w_db (snd (create_order data w)) = w_db w)
      by (destruct Hw as [-> | [-> | (k & _ & ->)]]; reflexivity).
    unfold products_of. rewrite Hdb.
    repeat split; auto; intros; congruence.
  - destruct Hok as (k & id & db' & n & m & p & a & t & i & s & Hk & Hins & -> & ->).
    apply insert_order_ok_inv in Hins
      as (tb & doc & Ht & _ & _ & _ & _ & _ & _ & _ & ->).
    cbn [jsonify r_status committed w_db w_open]. unfold products_of.
    repeat split; auto; intros; congruence.
Qed.

(** X8: [add_product] always answers, with 200, 400 or 500.  Unless it
    answers 200 the committed tables are as before; a 400 changes nothing at
    all; only a 500 can leave a connection open; the orders table is never
    touched. *)
Theorem add_product_answers_and_keeps_tables (data : json) (w : world) :
  exists resp,
    fst (add_product data w) = Ok resp /\
    (r_status resp = 200 \/ r_status resp = 400 \/ r_status resp = 500) /\
    (r_status resp <> 200 -> w_db (snd (add_product data w)) = w_db w) /\
    (r_status resp = 400 -> snd (add_product data w) = w) /\
    (r_status resp <> 500 ->
     w_open (snd (add_product data w)) = w_open w) /\
    orders_of (snd (add_product data w)) = orders_of w.
Proof.
  destruct (add_product_paths data w) as (resp & Hresp & Hcases).
  exists resp. split; [exact Hresp|].
  destruct Hcases as [[Hs ->] | [[Hs Hw] | Hok]].
  - rewrite Hs. repeat split; auto; intros; congruence.
  - rewrite Hs.
    assert (Hdb : w_db (snd (add_product data w)) = w_db w)
      by (destruct Hw as [-> | [-> | (k & _ & ->)]]; reflexivity).
    unfold orders_of. rewrite Hdb.
    repeat split; auto; intros; congruence.
  - destruct Hok as (k & id & db' & n & p & d & i & c & s & Hk & Hins & -> & ->).
    apply insert_product_ok_inv in Hins as (tb & Ht & _ & ->).
    cbn [jsonify r_status committed w_db w_open]. unfold orders_of.
    repeat split; auto; intros; congruence.
Qed.

Lemma health_check_connected w k :
  (k < 5)%nat -> connects_at w k ->
  health_check w =
  (Ok (jsonify [("status", JStr "healthy"); ("database", JStr "connected")]),
   released w k).
Proof.
  intros Hk Hc. unfold health_check, try_except, bind.
  rewrite (get_db_connection_connects w k Hk Hc). unfold connected.
  rewrite conn_close_head. unfold released, ret. now rewrite <- !app_assoc.
Qed.

Lemma health_check_unreachable w msg :
  (forall j, (j < 4)%nat -> w_connect w (w_attempts w + j) <> None) ->
  w_connect w (w_attempts w + 4) = Some msg ->
  health_check w =
  (Ok (jsonify_status [("status", JStr "unhealthy"); ("error", JStr msg)] 500),
   gave_up w).
Proof.
  intros Hf Hl. unfold health_check, try_except, bind.
  now rewrite (get_db_connection_gives_up w msg Hf Hl).
Qed.

Lemma connects_or_never w k msg :
  (k < 5)%nat -> connects_at w k ->
  (forall j, (j < 4)%nat -> w_connect w (w_attempts w + j) <> None) ->
  w_connect w (w_attempts w + 4) = Some msg -> False.
Proof.
  intros Hk [_ Hok] Hf Hl.
  assert (k = 4 \/ k < 4)%nat as [-> | Hlt] by lia.
  - congruence.
  - exact (Hf k Hlt Hok).
Qed.

(** X3: [health_check] answers 200 "healthy" exactly when one of the five
    connection attempts succeeds, and 500 "unhealthy" with the last error
    otherwise; either way no connection is left open and the tables are as
    before. *)
Theorem health_check_reports_reachability (w : world) :
  exists resp,
    fst (health_check w) = Ok resp /\
    (r_status resp = 200 <-> exists k, (k < 5)%nat /\ connects_at w k) /\
    (r_status resp = 200 ->
     r_body resp = BJson [("status", JStr "healthy");
                          ("database", JStr "connected")]) /\
    (r_status resp <> 200 ->
     r_status resp = 500 /\
     exists msg, w_connect w (w_attempts w + 4) = Some msg /\
                 r_body resp = BJson [("status", JStr "unhealthy");
                                      ("error", JStr msg)]) /\
    w_open (snd (health_check w)) = w_open w /\
    w_db (snd (health_check w)) = w_db w.
Proof.
  destruct (connect_cases w) as [(k & Hk & Hc) | (msg & Hf & Hl)].
  - rewrite (health_check_connected w k Hk Hc). eexists. split; [reflexivity|].
    cbn [jsonify r_status r_body snd released w_open w_db].
    repeat split; auto; try congruence. intros _. now exists k.
  - rewrite (health_check_unreachable w msg Hf Hl). eexists. split; [reflexivity|].
    cbn [jsonify_status r_status r_body snd gave_up w_open w_db].
    repeat split; auto; try discriminate.
    + intros (k & Hk & Hc). exfalso.
      exact (connects_or_never w k msg Hk Hc Hf Hl).
    + now exists msg.
Qed.

(** X9: the two listings never change the committed tables; they answer
    200 or 500, and a 200 leaves no connection open. *)
Theorem listings_change_no_table (w : world) :
  (exists resp,
     fst (get_products w) = Ok resp /\
     (r_status resp = 200 \/ r_status resp = 500) /\
     (r_status resp = 200 -> w_open (snd (get_products w)) = w_open w)) /\
  w_db (snd (get_products w)) = w_db w /\
  (exists resp,
     fst (get_orders w) = Ok resp /\
     (r_status resp = 200 \/ r_status resp = 500) /\
     (r_status resp = 200 -> w_open (snd (get_orders w)) = w_open w)) /\
  w_db (snd (get_orders w)) = w_db w.
Proof.
  destruct (connect_cases w) as [(k & Hk & Hc) | (msg & Hf & Hl)].
  - rewrite (get_products_connected w k Hk Hc), (get_orders_connected w k Hk Hc).
    destruct (products_of w) as [tp|]; destruct (orders_of w) as [to|];
      try destruct (parse_items _);
      repeat split; try (eexists; split; [reflexivity|]);
      cbn; repeat split; auto; intros; discriminate.
  - rewrite (get_products_unreachable w msg Hf Hl),
      (get_orders_unreachable w msg Hf Hl).
    repeat split; try (eexists; split; [reflexivity|]);
      cbn; repeat split; auto; intros; discriminate.
Qed.

(** ** Bootstrap, on every path *)

(** X1: [init_db] never raises and never leaves a connection open, whether
    the server is reachable or not; when the server is unreachable the
    committed tables are as before. *)
Theorem init_db_never_fails (w : world) :
  fst (init_db w) = Ok tt /\
  w_open (snd (init_db w)) = w_open w /\
  ((forall k, (k < 5)%nat -> ~ connects_at w k) ->
   w_db (snd (init_db w)) = w_db w).
Proof.
  destruct (connect_cases w) as [(k & Hk & Hc) | (msg & Hf & Hl)].
  - rewrite (init_db_connected w k Hk Hc). repeat split.
    intros Hnever. exfalso. exact (Hnever k Hk Hc).
  - rewrite (init_db_unreachable w msg Hf Hl). now repeat split.
Qed.

Lemma bootstrapped_orders now db :
  db_orders (bootstrapped now db) =
  Some match db_orders db with
       | Some t => t
       | None => empty_table
       end.
Proof.
  destruct db as [ps os]. unfold bootstrapped.
  destruct ps as [[[|r rows] next]|]; destruct os as [ot|]; reflexivity.
Qed.

(** X2: a bootstrap that reaches the server leaves both tables in
    existence; an orders table that existed keeps its rows and its next
    key, one that did not exist is created empty with next key 1. *)
Theorem init_db_creates_tables (w : world) (k : nat) :
  (k < 5)%nat -> connects_at w k ->
  products_of (snd (init_db w)) <> None /\
  orders_of (snd (init_db w)) =
    Some match orders_of w with
         | Some t => t
         | None => mkTable [] 1
         end.
Proof.
  intros Hk Hc. rewrite (init_db_connected w k Hk Hc).
  unfold products_of, orders_of. cbn [snd committed w_db].
  rewrite bootstrapped_products, bootstrapped_orders. split; [discriminate|].
  reflexivity.
Qed.

Lemma init_db_creates_tables_witness :
  products_of (snd (init_db fresh_world)) <> None /\
  orders_of (snd (init_db fresh_world)) = Some (mkTable [] 1).
Proof.
  apply (init_db_creates_tables fresh_world 0); [lia|].
  split; [intros j Hj; lia | reflexivity].
Defined.

(** ** Payloads that are refused *)

(** X4: when all required fields are present and [items] is not a
    non-empty list, [create_order] answers 400 "Items must be a non-empty
    list" and changes nothing. *)
Theorem create_order_rejects_bad_items
    (kvs : list (string * json)) (w : world) (items : json) :
  Forall (fun f => dict_has f kvs = true) required_fields ->
  dict_lookup "items" kvs = Some items ->
  is_nonempty_list items = false ->
  create_order (JDict kvs) w =
  (Ok (jsonify_status [("error", JStr "Items must be a non-empty list")] 400),
   w).
Proof.
  intros Hall Hitems Hbad.
  assert (Hne : kvs <> []) by (destruct kvs; [discriminate | discriminate]).
  assert (Hnone : first_missing_field (JDict kvs) required_fields = Ok None).
  { induction Hall as [|f fs Hf _ IH]; [reflexivity|].
    cbn [first_missing_field py_contains]. now rewrite Hf. }
  unfold create_order, try_except, bind, lift, ret.
  rewrite (truthy_dict kvs Hne), Hnone. cbn [negb].
  unfold py_getitem. rewrite Hitems, Hbad. reflexivity.
Qed.

Lemma create_order_rejects_bad_items_witness :
  create_order
    (JDict [("customer_name", JStr "A"); ("customer_email", JStr "a@x.com");
            ("customer_address", JStr "1 St"); ("total_amount", JInt 5);
            ("items", JList [])])
    seeded_world =
  (Ok (jsonify_status [("error", JStr "Items must be a non-empty list")] 400),
   seeded_world).
Proof.
  apply (create_order_rejects_bad_items _ _ (JList []));
    [repeat constructor | reflexivity | reflexivity].
Defined.

(** X5: every payload that Python takes for false (null, false, 0, 0.0, the
    empty string, list or object) is answered by [create_order] with 400 "No
    data provided", and nothing changes. *)
Theorem create_order_rejects_falsy_payload (data : json) (w : world) :
  py_truthy data = false ->
  create_order data w =
  (Ok (jsonify_status [("error", JStr "No data provided")] 400), w).
Proof.
  intros H. unfold create_order, try_except. now rewrite H.
Qed.

Lemma create_order_rejects_falsy_payload_witness :
  create_order JNull seeded_world =
    (Ok (jsonify_status [("error", JStr "No data provided")] 400), seeded_world)
  /\ create_order (JList []) seeded_world =
    (Ok (jsonify_status [("error", JStr "No data provided")] 400), seeded_world)
  /\ create_order (JInt 0) seeded_world =
    (Ok (jsonify_status [("error", JStr "No data provided")] 400), seeded_world).
Proof.
  repeat split; apply create_order_rejects_falsy_payload; reflexivity.
Defined.

(** X6: a payload that is not an object makes [add_product] answer 500
    before any connection is opened, and a payload that is a non-zero number
    or [true] makes [create_order] answer 500; nothing changes. *)
Theorem non_object_payload_answers_500 (data : json) (w : world) :
  is_dict data = false ->
  (exists msg,
     add_product data w =
       (Ok (jsonify_status [("error", JStr msg)] 500), w)) /\
  (py_truthy data = true ->
   match data with JList _ | JStr _ => False | _ => True end ->
   exists msg,
     create_order data w =
       (Ok (jsonify_status [("error", JStr msg)] 500), w)).
Proof.
  intros Hd. split.
  - destruct data; try discriminate; eexists; reflexivity.
  - intros Ht Hscalar. unfold create_order, try_except, bind, lift.
    rewrite Ht. cbn [negb].
    destruct data; try discriminate; try contradiction; eexists; reflexivity.
Qed.

Lemma non_object_payload_answers_500_witness :
  (exists msg,
     add_product JNull seeded_world =
       (Ok (jsonify_status [("error", JStr msg)] 500), seeded_world)) /\
  (exists msg,
     create_order (JInt 7) seeded_world =
       (Ok (jsonify_status [("error", JStr msg)] 500), seeded_world)).
Proof.
  split.
  - exact (proj1 (non_object_payload_answers_500 JNull seeded_world eq_refl)).
  - exact (proj2 (non_object_payload_answers_500 (JInt 7) seeded_world eq_refl)
             eq_refl I).
Defined.

(** ** What a created order looks like *)

Lemma create_order_200_passes_validation kvs w resp :
  fst (create_order (JDict kvs) w) = Ok resp -> r_status resp = 200 ->
  first_missing_field (JDict kvs) required_fields = Ok None /\
  exists item items, dict_lookup "items" kvs = Some (JList (item :: items)).
Proof.
  unfold create_order, try_except, bind, lift, ret.
  destruct (py_truthy (JDict kvs)); cbn [negb];
    [| intros [= <-]; discriminate].
  destruct (first_missing_field (JDict kvs) required_fields) as [[f|]|e];
    [intros [= <-]; discriminate | | intros [= <-]; discriminate].
  unfold py_getitem at 1.
  destruct (dict_lookup "items" kvs) as [items|] eqn:Hitems;
    [| intros [= <-]; discriminate].
  destruct items as [| | | | | [|item items] |]; cbn [is_nonempty_list negb];
    try (intros [= <-]; discriminate).
  intros _ _. split; [reflexivity | now exists item, items].
Qed.

Lemma all_fields_present kvs :
  first_missing_field (JDict kvs) required_fields = Ok None ->
  exists name email address total,
    dict_lookup "customer_name" kvs = Some name /\
    dict_lookup "customer_email" kvs = Some email /\
    dict_lookup "customer_address" kvs = Some address /\
    dict_lookup "total_amount" kvs = Some total.
Proof.
  unfold required_fields, first_missing_field, py_contains, dict_has.
  destruct (dict_lookup "customer_name" kvs) as [name|]; [|discriminate].
  destruct (dict_lookup "customer_email" kvs) as [email|]; [|discriminate].
  destruct (dict_lookup "customer_address" kvs) as [address|]; [|discriminate].
  destruct (dict_lookup "total_amount" kvs) as [total|]; [|discriminate].
  intros _. now exists name, email, address, total.
Qed.

(** X10: whenever [create_order] answers 200 it has appended exactly one
    row to the orders table and committed it: the row has the key that is
    returned, the status "pending", the text [json.dumps] writes for the
    submitted items, the coerced total, the bound customer fields, an empty
    phone when none was given, and the time of the insert. *)
Theorem create_order_stores_the_order
    (kvs : list (string * json)) (w : world) (resp : response) :
  fst (create_order (JDict kvs) w) = Ok resp -> r_status resp = 200 ->
  exists t row,
    orders_of w = Some t /\
    orders_of (snd (create_order (JDict kvs) w)) =
      Some (mkTable (t_rows t ++ [row]) (t_next_id t + 1)) /\
    o_id row = t_next_id t /\
    r_body resp = BJson [("order_id", JInt (o_id row));
                         ("message", JStr "Order created successfully");
                         ("status", JStr "pending")] /\
    o_status row = SqlStr "pending" /\
    (exists items, dict_lookup "items" kvs = Some items /\
                   o_items row = json_dumps items) /\
    (exists total f, dict_lookup "total_amount" kvs = Some total /\
                     py_float total = Ok f /\ o_total_amount row = SqlFloat f) /\
    (exists name, dict_lookup "customer_name" kvs = Some name /\
                  bind_param name = Ok (o_customer_name row)) /\
    (exists email, dict_lookup "customer_email" kvs = Some email /\
                   bind_param email = Ok (o_customer_email row)) /\
    (exists address, dict_lookup "customer_address" kvs = Some address /\
                     bind_param address = Ok (o_customer_address row)) /\
    bind_param (param_or kvs "customer_phone" (JStr ""))
      = Ok (o_customer_phone row) /\
    (dict_lookup "customer_phone" kvs = None ->
     o_customer_phone row = SqlStr "") /\
    o_created_at row = w_now w.
Proof.
  intros Hresp Hstatus.
  destruct (create_order_200_passes_validation kvs w resp Hresp Hstatus)
    as (Hnone & item & items & Hitems).
  destruct (all_fields_present kvs Hnone)
    as (name & email & address & total & Hn & Hm & Ha & Ht).
  destruct (connect_cases w) as [(k & Hk & Hc) | (msg & Hf & Hl)].
  2:{ rewrite (create_order_unreachable kvs w name email address total item
                 items Hn Hm Ha Ht Hitems msg Hf Hl) in Hresp.
      injection Hresp as <-. discriminate. }
  destruct (py_float total) as [f|e] eqn:Hfloat.
  2:{ rewrite (create_order_coercion_error kvs w name email address total item
                 items Hn Hm Ha Ht Hitems k Hk Hc e Hfloat) in Hresp.
      injection Hresp as <-. discriminate. }
  destruct (bind_args (create_order_args kvs name email address f
                         (JList (item :: items)))) as [xs|e] eqn:Hbind.
  2:{ rewrite (create_order_binding_error kvs w name email address total item
                 items Hn Hm Ha Ht Hitems k Hk Hc f e Hfloat Hbind) in Hresp.
      injection Hresp as <-. discriminate. }
  pose proof Hbind as Hbind'.
  apply bind_args_7_inv in Hbind'
    as (n & m & p & a & t & i & s & -> & Bn & Bm & Bp & Ba & Bt & Bi & Bs).
  destruct (insert_order (w_now w) (w_db w) n m p a t i s)
    as [[id db']|e] eqn:Hins.
  2:{ rewrite (create_order_storage_error kvs w name email address total item
                 items Hn Hm Ha Ht Hitems k Hk Hc f n m p a t i s e Hfloat
                 Hbind Hins) in Hresp.
      injection Hresp as <-. discriminate. }
  rewrite (create_order_inserted kvs w name email address total item items
             Hn Hm Ha Ht Hitems k Hk Hc f n m p a t i s id db' Hfloat Hbind
             Hins) in Hresp |- *.
  injection Hresp as <-.
  apply insert_order_ok_inv in Hins
    as (tb & doc & Htb & -> & -> & _ & _ & _ & _ & _ & ->).
  apply bind_param_float in Bt as ->.
  injection Bi as <-. injection Bs as <-.
  exists tb, (mkOrder (t_next_id tb) n m p a (SqlFloat f)
                      (json_dumps (JList (item :: items))) (SqlStr "pending")
                      (w_now w)).
  cbn [snd committed orders_of w_db set_orders db_orders o_id o_status o_items
       o_total_amount o_customer_name o_customer_email o_customer_address
       o_customer_phone o_created_at r_body jsonify].
  unfold orders_of.
  repeat split; try assumption; try reflexivity.
  - now exists (JList (item :: items)).
  - now exists total, f.
  - now exists name.
  - now exists email.
  - now exists address.
  - intros Hnone'. unfold param_or in Bp. rewrite Hnone' in Bp.
    now injection Bp as <-.
Qed.

Lemma create_order_stores_the_order_witness :
  exists t row,
    orders_of seeded_world = Some t /\
    orders_of (snd (create_order order_a seeded_world)) =
      Some (mkTable (t_rows t ++ [row]) (t_next_id t + 1)) /\
    o_id row = 1 /\ o_status row = SqlStr "pending" /\
    o_customer_phone row = SqlStr "".
Proof.
  destruct (create_order_stores_the_order
              [("customer_name", JStr "A"); ("customer_email", JStr "a@x.com");
               ("customer_address", JStr "1 St");
               ("total_amount", JFloat (FFin false [1; 9; 9; 9]%nat 2));
               ("items", JList [JDict [("id", JInt 1); ("qty", JInt 1)]])]
              seeded_world
              (jsonify [("order_id", JInt 1);
                        ("message", JStr "Order created successfully");
                        ("status", JStr "pending")])
              eq_refl eq_refl)
    as (t & row & Ht & Ht' & Hid & _ & Hst & _ & _ & _ & _ & _ & _ & Hphone & _).
  exists t, row. repeat split; try assumption.
  - rewrite Hid. vm_compute in Ht. now injection Ht as <-.
  - now apply Hphone.
Defined.

(** ** A new product in the listing *)

Section NewestRow.
Context {A : Type} (created_at : A -> timestamp).

Lemma insert_desc_before_newer x y l :
  ts_leb (created_at y) (created_at x) = false ->
  insert_desc created_at x (y :: l) = y :: insert_desc created_at x l.
Proof. intros H. cbn [insert_desc]. now rewrite H. Qed.

(** A row later than all the others is listed first. *)
Lemma order_by_newest_last x : forall l,
  Forall (fun r => ts_leb (created_at x) (created_at r) = false) l ->
  order_by_created_at_desc created_at (l ++ [x])
  = x :: order_by_created_at_desc created_at l.
Proof.
  induction l as [|a l IH]; intros H; [reflexivity|].
  inversion H as [|? ? Ha Hl]; subst.
  cbn [app order_by_created_at_desc]. rewrite (IH Hl).
  now apply insert_desc_before_newer.
Qed.
End NewestRow.

(** X11: when [add_product] has answered 200 with a key, the product
    listing that follows has one row more than the table had, among them a
    row with that key created at the time of the insert; it is listed first
    when that time is later than the creation of every other product. *)
Theorem added_product_is_listed
    (data : json) (w : world) (resp : response) (k2 : nat) :
  fst (add_product data w) = Ok resp -> r_status resp = 200 ->
  (k2 < 5)%nat -> connects_at (snd (add_product data w)) k2 ->
  exists id row rows,
    r_body resp = BJson [("message", JStr "Product added successfully");
                         ("product_id", JInt id)] /\
    fst (get_products (snd (add_product data w)))
      = Ok (mkResponse 200 (BProducts rows)) /\
    In row rows /\ p_id row = id /\ p_created_at row = w_now w /\
    Permutation rows (product_rows w ++ [row]) /\
    (Forall (fun r => ts_leb (w_now w) (p_created_at r) = false)
            (product_rows w) ->
     exists others, rows = row :: others).
Proof.
  intros Hresp Hstatus Hk2 Hc2.
  destruct (add_product_paths data w) as (resp' & Hresp' & Hcases).
  rewrite Hresp in Hresp'. injection Hresp' as <-.
  destruct Hcases as [[Hs _] | [[Hs _] | Hok]]; try congruence.
  destruct Hok as (k & id & db' & n & p & d & i & c & s & Hk & Hins & -> & Hw).
  rewrite Hw in Hc2 |- *.
  apply insert_product_ok_inv in Hins as (t & Ht & -> & ->).
  set (row := mkProduct (t_next_id t) n d p i c s (w_now w)) in *.
  rewrite (get_products_connected _ k2 Hk2 Hc2).
  unfold products_of, product_rows, products_of.
  cbn [committed w_db set_products db_products]. rewrite Ht.
  exists (t_next_id t), row,
    (order_by_created_at_desc p_created_at (t_rows t ++ [row])).
  split; [reflexivity|]. split; [reflexivity|].
  split.
  { apply (Permutation_in _ (Permutation_sym (order_by_perm p_created_at _))).
    apply in_app_iff. right. now left. }
  split; [reflexivity|]. split; [reflexivity|].
  split; [apply order_by_perm|].
  intros Hnewer. eexists.
  apply (order_by_newest_last p_created_at row (t_rows t)). exact Hnewer.
Qed.

Lemma added_product_is_listed_witness :
  exists id row rows,
    fst (get_products (snd (add_product mouse (at_time (mkTs 2024 1 2 12 0 9)
                                                       seeded_world))))
      = Ok (mkResponse 200 (BProducts rows)) /\
    In row rows /\ p_id row = id /\
    exists others, rows = row :: others.
Proof.
  set (w := at_time (mkTs 2024 1 2 12 0 9) seeded_world).
  assert (Hc : connects_at (snd (add_product mouse w)) 0)
    by (split; [intros j Hj; lia | reflexivity]).
  destruct (added_product_is_listed mouse w
              (jsonify [("message", JStr "Product added successfully");
                        ("product_id", JInt 5)])
              0 eq_refl eq_refl ltac:(lia) Hc)
    as (id & row & rows & _ & Hrows & Hin & Hid & _ & _ & Hfirst).
  exists id, row, rows. repeat split; try assumption.
  apply Hfirst. repeat constructor.
Defined.

(** ** Invariants of the service *)

Lemma keys_fresh_insert {A} (key : A -> Z) (t : table A) (row : A) :
  keys_fresh key t -> key row = t_next_id t ->
  keys_fresh key (mkTable (t_rows t ++ [row]) (t_next_id t + 1)).
Proof.
  intros [Hlt Hnd] Hkey. split; cbn [t_rows t_next_id].
  - apply Forall_app. split.
    + eapply Forall_impl; [|exact Hlt]. intros r Hr. cbn beta in Hr. lia.
    + constructor; [lia | constructor].
  - rewrite map_app. cbn [map].
    apply NoDup_app; [exact Hnd | repeat constructor; intros [] |].
    intros x Hx [<- | []]. apply in_map_iff in Hx as (r & Hr & Hin).
    rewrite Forall_forall in Hlt. specialize (Hlt r Hin). lia.
Qed.

Lemma insert_product_keeps_keys now db n p d i c s id db' :
  db_keys_fresh db ->
  insert_product now db n p d i c s = Ok (id, db') ->
  db_keys_fresh db'.
Proof.
  intros [Hp Ho] Hins.
  apply insert_product_ok_inv in Hins as (t & Ht & -> & ->).
  split; cbn [set_products db_products db_orders]; [|exact Ho].
  intros t' [= <-]. now apply keys_fresh_insert; [apply Hp|].
Qed.

Lemma insert_order_keeps_keys now db n m p a tt i s id db' :
  db_keys_fresh db ->
  insert_order now db n m p a tt i s = Ok (id, db') ->
  db_keys_fresh db'.
Proof.
  intros [Hp Ho] Hins.
  apply insert_order_ok_inv in Hins
    as (t & doc & Ht & -> & _ & _ & _ & _ & _ & _ & ->).
  split; cbn [set_orders db_products db_orders]; [exact Hp|].
  intros t' [= <-]. now apply keys_fresh_insert; [apply Ho|].
Qed.

Lemma seed_rows_fresh next now :
  keys_fresh p_id (mkTable (seed_rows next now) (next + 4)).
Proof.
  split; cbn [t_rows t_next_id seed_rows map p_id].
  - repeat constructor; cbn [p_id]; lia.
  - repeat constructor; cbn [In]; intuition lia.
Qed.

Lemma bootstrapped_keeps_keys now db :
  db_keys_fresh db -> db_keys_fresh (bootstrapped now db).
Proof.
  intros [Hp Ho]. split.
  - intros t. rewrite bootstrapped_products.
    destruct (db_products db) as [[[|r rows] next]|] eqn:E; intros [= <-].
    + apply seed_rows_fresh.
    + now apply Hp.
    + apply seed_rows_fresh.
  - intros t. rewrite bootstrapped_orders.
    destruct (db_orders db) as [to|] eqn:E; intros [= <-].
    + now apply Ho.
    + split; constructor.
Qed.

Lemma bootstrapped_keeps_documents now db :
  (forall t, db_orders db = Some t ->
     Forall (fun o => valid_json_text (o_items o) = true) (t_rows t)) ->
  forall t, db_orders (bootstrapped now db) = Some t ->
    Forall (fun o => valid_json_text (o_items o) = true) (t_rows t).
Proof.
  intros H t. rewrite bootstrapped_orders.
  destruct (db_orders db) as [to|] eqn:E; intros [= <-].
  - now apply H.
  - constructor.
Qed.


Lemma connections_fresh_gave_up w :
  connections_fresh w -> connections_fresh (gave_up w).
Proof.
  intros [Hlt Hnd]. split; cbn [gave_up w_open w_attempts]; [|exact Hnd].
  eapply Forall_impl; [|exact Hlt]. intros c Hc. cbn beta in Hc. lia.
Qed.

Lemma connections_fresh_connected w k :
  connections_fresh w -> connections_fresh (connected w k).
Proof.
  intros [Hlt Hnd]. split; cbn [connected w_open w_attempts map fst].
  - constructor; [cbn [fst]; lia|].
    eapply Forall_impl; [|exact Hlt]. intros c Hc. cbn beta in Hc. lia.
  - constructor; [|exact Hnd]. intros Hin.
    apply in_map_iff in Hin as (c & Hc & Hin).
    rewrite Forall_forall in Hlt. specialize (Hlt c Hin). lia.
Qed.

Lemma connections_fresh_committed w k db' :
  connections_fresh w -> connections_fresh (committed w k db').
Proof.
  intros [Hlt Hnd]. split; cbn [committed w_open w_attempts]; [|exact Hnd].
  eapply Forall_impl; [|exact Hlt]. intros c Hc. cbn beta in Hc. lia.
Qed.

Lemma connections_fresh_released w k :
  connections_fresh w -> connections_fresh (released w k).
Proof.
  intros [Hlt Hnd]. split; cbn [released w_open w_attempts]; [|exact Hnd].
  eapply Forall_impl; [|exact Hlt]. intros c Hc. cbn beta in Hc. lia.
Qed.

Lemma tables_ok_insert_product now db n p d i c s id db' :
  tables_ok db -> insert_product now db n p d i c s = Ok (id, db') ->
  tables_ok db'.
Proof.
  intros [Hkeys Hdocs] Hins. split.
  - exact (insert_product_keeps_keys _ _ _ _ _ _ _ _ _ _ Hkeys Hins).
  - apply insert_product_ok_inv in Hins as (t & Ht & -> & ->).
    exact Hdocs.
Qed.

Lemma tables_ok_insert_order now db n m p a tt i s id db' :
  tables_ok db -> insert_order now db n m p a tt i s = Ok (id, db') ->
  tables_ok db'.
Proof.
  intros [Hkeys Hdocs] Hins. split.
  - exact (insert_order_keeps_keys _ _ _ _ _ _ _ _ _ _ _ Hkeys Hins).
  - pose proof Hins as Hins'.
    apply insert_order_ok_inv in Hins'
      as (t0 & doc & Ht & _ & _ & _ & _ & _ & _ & _ & _).
    destruct (insert_order_keeps_documents _ _ _ _ _ _ _ _ _ _ _ _ Ht
                (Hdocs t0 Ht) Hins) as (t' & Ht' & Hall).
    intros t'' Ht''. rewrite Ht' in Ht''. now injection Ht'' as <-.
Qed.

(** One step of the service keeps the invariants. *)
Lemma handle_keeps_invariants r w :
  tables_ok (w_db w) -> connections_fresh w ->
  tables_ok (w_db (snd (handle r w))) /\ connections_fresh (snd (handle r w)).
Proof.
  intros Hdb Hconn. destruct r as [| | | data | data |]; cbn [handle].
  - now split.
  - destruct (connect_cases w) as [(k & Hk & Hc) | (msg & Hf & Hl)].
    + rewrite (health_check_connected w k Hk Hc).
      split; [exact Hdb | now apply connections_fresh_released].
    + rewrite (health_check_unreachable w msg Hf Hl).
      split; [exact Hdb | now apply connections_fresh_gave_up].
  - destruct (connect_cases w) as [(k & Hk & Hc) | (msg & Hf & Hl)].
    + rewrite (get_products_connected w k Hk Hc).
      destruct (products_of w);
        (split; [exact Hdb|]);
        [now apply connections_fresh_released
        | now apply connections_fresh_connected].
    + rewrite (get_products_unreachable w msg Hf Hl).
      split; [exact Hdb | now apply connections_fresh_gave_up].
  - destruct (add_product_paths data w) as (resp & _ & Hcases).
    destruct Hcases as [[_ ->] | [[_ Hw] | Hok]]; [now split | |].
    + destruct Hw as [-> | [-> | (k & _ & ->)]];
        (split; [exact Hdb|]);
        [ exact Hconn | now apply connections_fresh_gave_up
        | now apply connections_fresh_connected ].
    + destruct Hok as (k & id & db' & n & p & d & i & c & s & _ & Hins & _ & ->).
      split; [| now apply connections_fresh_committed].
      exact (tables_ok_insert_product _ _ _ _ _ _ _ _ _ _ Hdb Hins).
  - destruct (create_order_paths data w) as (resp & _ & Hcases).
    destruct Hcases as [[_ ->] | [[_ Hw] | Hok]]; [now split | |].
    + destruct Hw as [-> | [-> | (k & _ & ->)]];
        (split; [exact Hdb|]);
        [ exact Hconn | now apply connections_fresh_gave_up
        | now apply connections_fresh_connected ].
    + destruct Hok
        as (k & id & db' & n & m & p & a & t & i & s & _ & Hins & _ & ->).
      split; [| now apply connections_fresh_committed].
      exact (tables_ok_insert_order _ _ _ _ _ _ _ _ _ _ _ Hdb Hins).
  - destruct (connect_cases w) as [(k & Hk & Hc) | (msg & Hf & Hl)].
    + rewrite (get_orders_connected w k Hk Hc).
      destruct (orders_of w); [destruct (parse_items _)|];
        (split; [exact Hdb|]);
        [ now apply connections_fresh_released
        | now apply connections_fresh_connected
        | now apply connections_fresh_connected ].
    + rewrite (get_orders_unreachable w msg Hf Hl).
      split; [exact Hdb | now apply connections_fresh_gave_up].
Qed.

Lemma init_db_keeps_invariants w :
  tables_ok (w_db w) -> connections_fresh w ->
  tables_ok (w_db (snd (init_db w))) /\ connections_fresh (snd (init_db w)).
Proof.
  intros [Hkeys Hdocs] Hconn.
  destruct (connect_cases w) as [(k & Hk & Hc) | (msg & Hf & Hl)].
  - rewrite (init_db_connected w k Hk Hc). cbn [snd committed w_db].
    split; [| now apply (connections_fresh_committed w k)].
    split; [now apply bootstrapped_keeps_keys
           | now apply bootstrapped_keeps_documents].
  - rewrite (init_db_unreachable w msg Hf Hl).
    split; [now split | now apply connections_fresh_gave_up].
Qed.

Lemma reachable_tables_ok w :
  reachable w -> tables_ok (w_db w) /\ connections_fresh w.
Proof.
  intros Hreach.
  induction Hreach as [cf now | w _ [Hdb Hc] | w r _ [Hdb Hc] | w now _ [Hdb Hc]].
  - repeat split; try discriminate; constructor.
  - now apply init_db_keeps_invariants.
  - now apply handle_keeps_invariants.
  - split; [exact Hdb|]. exact Hc.
Qed.

(** X12: in every state the service can reach, the keys of each table are
    distinct and below the table's next key, the items column of every
    order holds a JSON document, and the open connections have distinct
    identities. *)
Theorem reachable_worlds_are_consistent (w : world) :
  reachable w ->
  db_keys_fresh (w_db w) /\ orders_hold_documents w /\ connections_fresh w.
Proof.
  intros Hreach.
  destruct (reachable_tables_ok w Hreach) as [[Hkeys Hdocs] Hc]. split; [exact Hkeys|]. split; [|exact Hc].
  unfold orders_hold_documents, order_rows, orders_of.
  destruct (db_orders (w_db w)) as [t0|] eqn:E; [now apply Hdocs | constructor].
Qed.

Lemma reach_create_order w data :
  reachable w -> reachable (snd (create_order data w)).
Proof. intros H. exact (reach_request w (PostOrders data) H). Qed.

Lemma busy_world_reachable : reachable busy_world.
Proof.
  unfold busy_world.
  apply reach_create_order, reach_clock, reach_create_order.
  unfold seeded_world. apply reach_init_db.
  unfold fresh_world. apply reach_start.
Qed.

Lemma reachable_worlds_are_consistent_witness :
  db_keys_fresh (w_db busy_world) /\ orders_hold_documents busy_world /\
  connections_fresh busy_world.
Proof. exact (reachable_worlds_are_consistent busy_world busy_world_reachable). Defined.

(** ** The order listing in a reachable state *)

Lemma Forall2_in_right {A B} (R : A -> B -> Prop) y : forall l l',
  Forall2 R l l' -> In y l' -> exists x, In x l /\ R x y.
Proof.
  induction 1 as [|a b l l' Hab _ IH]; intros Hin; [contradiction|].
  destruct Hin as [-> | Hin].
  - exists a. split; [now left | exact Hab].
  - destruct (IH Hin) as (x & Hx & HR). exists x. split; [now right | exact HR].
Qed.

Lemma Forall2_same_length {A B} (R : A -> B -> Prop) l l' :
  Forall2 R l l' -> List.length l = List.length l'.
Proof. induction 1; cbn; congruence. Qed.

(** X13: in a state the service can reach, [get_orders] answers 200 whenever
    the server accepts a connection and the orders table exists; it releases
    its connection, lists as many rows as the table holds, and the [items]
    of each row is the value that [json.loads] reads from the stored text of
    an order with the same key. *)
Theorem get_orders_parses_every_row (w : world) (k : nat) (t : table order) :
  reachable w ->
  (k < 5)%nat -> connects_at w k -> orders_of w = Some t ->
  exists rows,
    get_orders w = (Ok (mkResponse 200 (BOrders rows)), released w k) /\
    List.length rows = List.length (t_rows t) /\
    Forall (fun r =>
              exists o v,
                In o (t_rows t) /\ or_id r = o_id o /\
                json_loads (o_items o) = Ok v /\ or_items r = ItemsValue v /\
                or_status r = o_status o)
           rows.
Proof.
  intros Hreach Hk Hc Ht.
  destruct (reachable_tables_ok w Hreach) as [[_ Hdocs] _].
  specialize (Hdocs t Ht).
  rewrite (get_orders_connected w k Hk Hc), Ht.
  set (sorted := order_by_created_at_desc o_created_at (t_rows t)).
  assert (Hall : Forall (fun o => valid_json_text (o_items o) = true) sorted).
  { apply Forall_forall. intros o Ho.
    apply (Permutation_in _ (order_by_perm o_created_at _)) in Ho.
    rewrite Forall_forall in Hdocs. now apply Hdocs. }
  destruct (parse_items_documents sorted Hall) as (parsed & Hparsed).
  rewrite Hparsed. exists parsed. split; [reflexivity|].
  pose proof (parse_items_ok_inv _ _ Hparsed) as Hrel.
  split.
  - rewrite <- (Forall2_same_length _ _ _ Hrel), length_map.
    apply Permutation_length, order_by_perm.
  - apply Forall_forall. intros r Hr.
    destruct (Forall2_in_right _ _ _ _ Hrel Hr) as (f & Hf & Hfr).
    apply in_map_iff in Hf as (o & <- & Ho).
    apply (Permutation_in _ (order_by_perm o_created_at _)) in Ho.
    unfold items_parsed in Hfr. cbn [fetch_order or_items] in Hfr.
    destruct Hfr as (v & Hv & ->).
    exists o, v. now repeat split.
Qed.

Lemma get_orders_parses_every_row_witness :
  exists rows,
    get_orders busy_world
      = (Ok (mkResponse 200 (BOrders rows)), released busy_world 0) /\
    List.length rows = 2%nat.
Proof.
  assert (Hc : connects_at busy_world 0)
    by (split; [intros j Hj; lia | reflexivity]).
  assert (Ht : exists t, orders_of busy_world = Some t /\
                         List.length (t_rows t) = 2%nat)
    by (eexists; split; [vm_compute; reflexivity | reflexivity]).
  destruct Ht as (t & Ht & Hlen).
  destruct (get_orders_parses_every_row busy_world 0 t busy_world_reachable
              ltac:(lia) Hc Ht) as (rows & Hrows & Hl & _).
  exists rows. split; [exact Hrows | congruence].
Defined.

(** ** Time spent waiting for the server *)

Lemma slept_app a b : slept (a ++ b) = slept a + slept b.
Proof.
  induction a as [|e a IH]; [reflexivity|].
  destruct e; cbn [app slept]; lia.
Qed.

Lemma slept_retry_trace first k : slept (retry_trace first k) = 5 * Z.of_nat k.
Proof.
  revert first. induction k as [|k IH]; intros first; [reflexivity|].
  rewrite retry_trace_S. cbn [slept]. rewrite IH. lia.
Qed.

(** X14: [get_db_connection] sleeps 5 seconds for each failed attempt that
    another attempt follows: [5 * k] seconds when attempt [k] connects, 20
    seconds when all five fail, and never more than 20 seconds. *)
Theorem get_db_connection_sleeps_at_most_20 (w : world) :
  (forall k, (k < 5)%nat -> connects_at w k ->
     slept (w_trace (snd (get_db_connection w)))
     = slept (w_trace w) + 5 * Z.of_nat k) /\
  ((forall k, (k < 5)%nat -> ~ connects_at w k) ->
   slept (w_trace (snd (get_db_connection w))) = slept (w_trace w) + 20) /\
  slept (w_trace (snd (get_db_connection w))) <= slept (w_trace w) + 20.
Proof.
  assert (Hconn : forall k, (k < 5)%nat -> connects_at w k ->
            slept (w_trace (snd (get_db_connection w)))
            = slept (w_trace w) + 5 * Z.of_nat k).
  { intros k Hk Hc. rewrite (get_db_connection_connects w k Hk Hc).
    cbn [snd connected w_trace]. rewrite !slept_app, slept_retry_trace.
    cbn [slept]. lia. }
  assert (Hdown : forall msg,
            (forall j, (j < 4)%nat -> w_connect w (w_attempts w + j) <> None) ->
            w_connect w (w_attempts w + 4) = Some msg ->
            slept (w_trace (snd (get_db_connection w)))
            = slept (w_trace w) + 20).
  { intros msg Hf Hl. rewrite (get_db_connection_gives_up w msg Hf Hl).
    cbn [snd gave_up w_trace]. rewrite !slept_app, slept_retry_trace.
    cbn [slept]. lia. }
  split; [exact Hconn|]. split.
  - intros Hnever.
    destruct (connect_cases w) as [(k & Hk & Hc) | (msg & Hf & Hl)].
    + exfalso. exact (Hnever k Hk Hc).
    + exact (Hdown msg Hf Hl).
  - destruct (connect_cases w) as [(k & Hk & Hc) | (msg & Hf & Hl)].
    + rewrite (Hconn k Hk Hc). lia.
    + rewrite (Hdown msg Hf Hl). lia.
Qed.

Lemma get_db_connection_sleeps_at_most_20_witness :
  slept (w_trace (snd (get_db_connection flaky_world))) = 10 /\
  slept (w_trace (snd (get_db_connection down_world))) = 20.
Proof.
  split.
  - apply (proj1 (get_db_connection_sleeps_at_most_20 flaky_world) 2%nat);
      [lia|].
    split; [|reflexivity].
    intros j Hj. assert (j = 0 \/ j = 1)%nat as [-> | ->] by lia; discriminate.
  - apply (proj1 (proj2 (get_db_connection_sleeps_at_most_20 down_world))).
    intros k _ [_ H]. discriminate H.
Defined.
